(** * Hotel export converter: the Excel parser and the CSV exporter

    A shallow embedding of [excelParser.js] (class [ExcelParser]) and of
    [csvExporter.js] (class [CSVExporter]), with the properties the
    specification states about them.

    Conventions of the embedding.
    - A JavaScript string is a sequence of UTF-16 code units.  The model keeps
      the code units below 256 (one [ascii] each, read as Latin-1), which
      covers every literal of the two classes.
    - A JavaScript number is modelled by an exact decimal [m * 10^e] (with
      [NaN] and the two infinities); arithmetic on it is exact.  That agrees
      with IEEE doubles on the integers the parser computes with (counts, day
      serials below 1,000,000 and their millisecond products).
    - A [Date] is its time value in local time; the host's offset to UTC is
      taken to be constant, so that adding milliseconds to a local instant
      commutes with the conversion to and from UTC.
      The module [HostZone] gives the same functions with the host's zone,
      whose offset may change with time.
    - Code that can throw returns [result]; the parser object's only field
      that changes, [this.worksheet], is passed explicitly. *)

From Stdlib Require Import ZArith Ascii String List Bool Lia.
From stdpp Require Import gmap strings list fin_maps.

Local Open Scope string_scope.
Local Open Scope Z_scope.

(** ** JavaScript strings *)

Module JSString.

Definition code (c : ascii) : Z := Z.of_N (N_of_ascii c).
Definition fromCharCode (n : Z) : ascii := ascii_of_N (Z.to_N n).

Definition dquote : ascii := Eval cbv in ascii_of_nat 34.
Definition CR : ascii := Eval cbv in ascii_of_nat 13.
Definition LF : ascii := Eval cbv in ascii_of_nat 10.

(** WhiteSpace and LineTerminator code units below 256: TAB, LF, VT, FF, CR,
    SP and NBSP. *)
Definition isWhiteSpace (c : ascii) : bool :=
  let n := code c in
  ((9 <=? n) && (n <=? 13)) || (n =? 32) || (n =? 160).

Fixpoint trimStart (s : string) : string :=
  match s with
  | String c r => if isWhiteSpace c then trimStart r else s
  | EmptyString => EmptyString
  end.

Definition isEmpty (s : string) : bool :=
  match s with EmptyString => true | String _ _ => false end.

Fixpoint trimEnd (s : string) : string :=
  match s with
  | String c r =>
      let r' := trimEnd r in
      if isEmpty r' && isWhiteSpace c then EmptyString else String c r'
  | EmptyString => EmptyString
  end.

(** [String.prototype.trim] *)
Definition trim (s : string) : string := trimEnd (trimStart s).

(** Simple case mapping of a code unit below 256: A-Z and the Latin-1 capitals
    U+00C0-U+00DE (without the multiplication sign U+00D7). *)
Definition lowerChar (c : ascii) : ascii :=
  let n := code c in
  if ((65 <=? n) && (n <=? 90)) || ((192 <=? n) && (n <=? 222) && negb (n =? 215))
  then fromCharCode (n + 32) else c.

Fixpoint toLowerCase (s : string) : string :=
  match s with
  | String c r => String (lowerChar c) (toLowerCase r)
  | EmptyString => EmptyString
  end.

(** [s.includes(c)] for a one-character search string *)
Fixpoint includes (s : string) (c : ascii) : bool :=
  match s with
  | String d r => Ascii.eqb d c || includes r c
  | EmptyString => false
  end.

(** [s.startsWith(c)] for a one-character search string *)
Definition startsWith (s : string) (c : ascii) : bool :=
  match s with
  | String d _ => Ascii.eqb d c
  | EmptyString => false
  end.

(** [s.substring(1)] *)
Definition substring1 (s : string) : string :=
  match s with
  | String _ r => r
  | EmptyString => EmptyString
  end.

(** [xs.join(sep)] on an array of strings *)
Fixpoint join (sep : string) (xs : list string) : string :=
  match xs with
  | [] => EmptyString
  | [x] => x
  | x :: rest => x +:+ sep +:+ join sep rest
  end.

Fixpoint repeatChar (n : nat) (c : ascii) : string :=
  match n with
  | O => EmptyString
  | S k => String c (repeatChar k c)
  end.

(** [s.padStart(n, c)] for a one-character filler *)
Definition padStart (s : string) (n : nat) (c : ascii) : string :=
  repeatChar (n - String.length s)%nat c +:+ s.

Definition isDigit (c : ascii) : bool :=
  let n := code c in (48 <=? n) && (n <=? 57).

Definition digitValue (c : ascii) : Z := code c - 48.

Definition digitChar (d : Z) : ascii := fromCharCode (48 + d).

Fixpoint allDigits (s : string) : bool :=
  match s with
  | String c r => isDigit c && allDigits r
  | EmptyString => true
  end.

(** The digits a string starts with, and what follows them. *)
Fixpoint spanDigits (s : string) : string * string :=
  match s with
  | String c r =>
      if isDigit c then let '(d, t) := spanDigits r in (String c d, t)
      else (EmptyString, s)
  | EmptyString => (EmptyString, EmptyString)
  end.

(** Value of a digit string in base 10, most significant digit first. *)
Fixpoint digitsValueFrom (acc : Z) (s : string) : Z :=
  match s with
  | String c r => digitsValueFrom (10 * acc + digitValue c) r
  | EmptyString => acc
  end.

Definition digitsValue (s : string) : Z := digitsValueFrom 0 s.

Fixpoint decimalDigitsFuel (fuel : nat) (n : Z) (acc : string) : string :=
  match fuel with
  | O => acc
  | S f =>
      let acc' := String (digitChar (n mod 10)) acc in
      if n <? 10 then acc' else decimalDigitsFuel f (n / 10) acc'
  end.

(** Decimal digits of a natural number, no leading zero ("0" for 0). *)
Definition decimalDigits (n : Z) : string :=
  decimalDigitsFuel (S (Z.to_nat (Z.log2 n))) n EmptyString.

(** [String(i)] for an integer loop counter or index. *)
Definition ofInt (i : Z) : string :=
  if i <? 0 then String "-"%char (decimalDigits (- i)) else decimalDigits i.

(** [s.endsWith(suffix)] *)
Fixpoint endsWith (s suffix : string) : bool :=
  String.eqb s suffix
  || match s with
     | String _ r => endsWith r suffix
     | EmptyString => false
     end.

End JSString.

(** ** JavaScript numbers *)

Module JSNumber.
Import JSString.

(** [Fin m e] is the number [m * 10^e]. *)
Inductive number : Type :=
  | NaN
  | Inf (negative : bool)
  | Fin (m e : Z).

Definition ofZ (z : Z) : number := Fin z 0.

Definition isNaN (n : number) : bool :=
  match n with NaN => true | _ => false end.

Definition isZero (n : number) : bool :=
  match n with Fin m _ => m =? 0 | _ => false end.

Definition negate (n : number) : number :=
  match n with
  | NaN => NaN
  | Inf s => Inf (negb s)
  | Fin m e => Fin (- m) e
  end.

(** Both mantissas at the smaller of the two exponents. *)
Definition align (m1 e1 m2 e2 : Z) : Z * Z * Z :=
  let e := Z.min e1 e2 in
  (m1 * 10 ^ (e1 - e), m2 * 10 ^ (e2 - e), e).

(** [a < b]; false when either side is NaN. *)
Definition ltb (a b : number) : bool :=
  match a, b with
  | NaN, _ | _, NaN => false
  | Inf true, Inf true => false
  | Inf true, _ => true
  | _, Inf true => false
  | Inf false, _ => false
  | _, Inf false => true
  | Fin m1 e1, Fin m2 e2 => let '(x, y, _) := align m1 e1 m2 e2 in x <? y
  end.

(** [a > b] *)
Definition gtb (a b : number) : bool := ltb b a.

(** [a * b] (exact; overflow to infinity is outside the model) *)
Definition mul (a b : number) : number :=
  match a, b with
  | NaN, _ | _, NaN => NaN
  | Inf s, Inf t => Inf (xorb s t)
  | Inf s, Fin m _ | Fin m _, Inf s =>
      if m =? 0 then NaN else Inf (xorb s (m <? 0))
  | Fin m1 e1, Fin m2 e2 => Fin (m1 * m2) (e1 + e2)
  end.

(** [a + b] (exact) *)
Definition add (a b : number) : number :=
  match a, b with
  | NaN, _ | _, NaN => NaN
  | Inf s, Inf t => if Bool.eqb s t then Inf s else NaN
  | Inf s, _ | _, Inf s => Inf s
  | Fin m1 e1, Fin m2 e2 => let '(x, y, e) := align m1 e1 m2 e2 in Fin (x + y) e
  end.

(** The integer part of a finite number, rounding toward zero. *)
Definition truncate (m e : Z) : Z :=
  if 0 <=? e then m * 10 ^ e else Z.quot m (10 ^ (- e)).

Fixpoint stripZerosFuel (fuel : nat) (m e : Z) : Z * Z :=
  match fuel with
  | O => (m, e)
  | S f => if m mod 10 =? 0 then stripZerosFuel f (m / 10) (e + 1) else (m, e)
  end.

(** The mantissa without trailing zeros, for [m > 0]. *)
Definition normalize (m e : Z) : Z * Z :=
  stripZerosFuel (S (Z.to_nat (Z.log2 m))) m e.

(** Number::toString(x, 10) for a positive finite x: with [s] the digits, [k]
    their count and [n] the position of the decimal point, the four layouts of
    the language definition. *)
Definition toStringPos (m e : Z) : string :=
  let '(s, e') := normalize m e in
  let ds := decimalDigits s in
  let k := Z.of_nat (String.length ds) in
  let n := k + e' in
  if (k <=? n) && (n <=? 21) then
    ds +:+ repeatChar (Z.to_nat (n - k)) "0"
  else if (0 <? n) && (n <=? 21) then
    substring 0 (Z.to_nat n) ds +:+ "." +:+ substring (Z.to_nat n) (Z.to_nat (k - n)) ds
  else if (-6 <? n) && (n <=? 0) then
    "0." +:+ repeatChar (Z.to_nat (- n)) "0" +:+ ds
  else
    let ex := n - 1 in
    let sign := if ex <? 0 then "-" else "+" in
    let mant := if k =? 1 then ds
                else substring 0 1 ds +:+ "." +:+ substring 1 (Z.to_nat (k - 1)) ds in
    mant +:+ "e" +:+ sign +:+ decimalDigits (Z.abs ex).

(** [String(n)] *)
Definition toString (n : number) : string :=
  match n with
  | NaN => "NaN"
  | Inf false => "Infinity"
  | Inf true => "-Infinity"
  | Fin m e =>
      if m =? 0 then "0"
      else if m <? 0 then String "-" (toStringPos (- m) e)
      else toStringPos m e
  end.

(** An optional sign, and what follows it. *)
Definition splitSign (s : string) : bool * string :=
  match s with
  | String c r =>
      if Ascii.eqb c "-" then (true, r)
      else if Ascii.eqb c "+" then (false, r)
      else (false, s)
  | EmptyString => (false, s)
  end.

(** ExponentPart: [e] or [E], an optional sign, at least one digit.  Without
    a digit nothing is consumed. *)
Definition exponentPart (s : string) : Z * string :=
  match s with
  | String c r =>
      if Ascii.eqb c "e" || Ascii.eqb c "E" then
        let '(neg, r') := splitSign r in
        let '(d, t) := spanDigits r' in
        if isEmpty d then (0, s)
        else ((if neg then - digitsValue d else digitsValue d), t)
      else (0, s)
  | EmptyString => (0, s)
  end.

Fixpoint dropChars (n : nat) (s : string) : string :=
  match n, s with
  | S k, String _ r => dropChars k r
  | _, _ => s
  end.

(** The longest prefix that is a StrUnsignedDecimalLiteral: its value and the
    rest of the string. *)
Definition unsignedDecimal (s : string) : option (number * string) :=
  if String.prefix "Infinity" s then Some (Inf false, dropChars 8 s)
  else
    let '(d1, t1) := spanDigits s in
    match t1 with
    | String "."%char t2 =>
        let '(d2, t3) := spanDigits t2 in
        if isEmpty d1 && isEmpty d2 then None
        else
          let '(ex, t4) := exponentPart t3 in
          Some (Fin (digitsValue (d1 +:+ d2)) (ex - Z.of_nat (String.length d2)), t4)
    | _ =>
        if isEmpty d1 then None
        else let '(ex, t4) := exponentPart t1 in Some (Fin (digitsValue d1) ex, t4)
    end.

(** The longest prefix that is a StrDecimalLiteral. *)
Definition decimalPrefix (s : string) : option (number * string) :=
  let '(neg, r) := splitSign s in
  match unsignedDecimal r with
  | Some (n, t) => Some (if neg then negate n else n, t)
  | None => None
  end.

(** [parseFloat(s)] *)
Definition parseFloat (s : string) : number :=
  match decimalPrefix (trimStart s) with
  | Some (n, _) => n
  | None => NaN
  end.

(** [parseInt(s, 10)] *)
Definition parseInt10 (s : string) : number :=
  let '(neg, r) := splitSign (trimStart s) in
  let '(z, _) := spanDigits r in
  if isEmpty z then NaN
  else Fin (if neg then - digitsValue z else digitsValue z) 0.

Definition radixDigit (radix : Z) (c : ascii) : option Z :=
  let n := code c in
  let v := if isDigit c then n - 48
           else if (97 <=? n) && (n <=? 122) then n - 87
           else if (65 <=? n) && (n <=? 90) then n - 55
           else radix in
  if v <? radix then Some v else None.

Fixpoint radixValueFrom (radix acc : Z) (s : string) : option Z :=
  match s with
  | String c r =>
      match radixDigit radix c with
      | Some v => radixValueFrom radix (radix * acc + v) r
      | None => None
      end
  | EmptyString => Some acc
  end.

(** NonDecimalIntegerLiteral: 0x, 0o or 0b and at least one digit. *)
Definition nonDecimal (s : string) : number :=
  match s with
  | String "0"%char (String x ds) =>
      let radix := if Ascii.eqb x "x" || Ascii.eqb x "X" then 16
                   else if Ascii.eqb x "o" || Ascii.eqb x "O" then 8
                   else if Ascii.eqb x "b" || Ascii.eqb x "B" then 2
                   else 0 in
      if (radix =? 0) || isEmpty ds then NaN
      else match radixValueFrom radix 0 ds with
           | Some v => Fin v 0
           | None => NaN
           end
  | _ => NaN
  end.

(** StringToNumber: the conversion [Number(s)] and arithmetic apply to a
    string operand. *)
Definition StringToNumber (s : string) : number :=
  let t := trim s in
  if isEmpty t then Fin 0 0
  else match decimalPrefix t with
       | Some (n, EmptyString) => n
       | _ => nonDecimal t
       end.

End JSNumber.

(** ** JavaScript values *)

Module JSValue.
Import JSString JSNumber.

(** The primitive values a sheet cell, a grid entry or a record field holds. *)
Inductive value : Type :=
  | VUndefined
  | VNull
  | VBool (b : bool)
  | VNum (n : number)
  | VStr (s : string).

(** ToBoolean: what [!v], [v || d] and [if (v)] test. *)
Definition truthy (v : value) : bool :=
  match v with
  | VUndefined | VNull => false
  | VBool b => b
  | VNum n => negb (isNaN n || isZero n)
  | VStr s => negb (isEmpty s)
  end.

(** [String(v)] *)
Definition ToString (v : value) : string :=
  match v with
  | VUndefined => "undefined"
  | VNull => "null"
  | VBool true => "true"
  | VBool false => "false"
  | VNum n => toString n
  | VStr s => s
  end.

(** ToNumber: the conversion arithmetic applies to an operand. *)
Definition ToNumber (v : value) : number :=
  match v with
  | VUndefined => NaN
  | VNull => Fin 0 0
  | VBool true => Fin 1 0
  | VBool false => Fin 0 0
  | VNum n => n
  | VStr s => StringToNumber s
  end.

(** [typeof v === 'number'] *)
Definition isNumber (v : value) : bool :=
  match v with VNum _ => true | _ => false end.

(** [v === undefined || v === null] *)
Definition isNullish (v : value) : bool :=
  match v with VUndefined | VNull => true | _ => false end.

(** [v === ''] *)
Definition isEmptyStr (v : value) : bool :=
  match v with VStr s => isEmpty s | _ => false end.

(** [a || b] *)
Definition orElse (a b : value) : value := if truthy a then a else b.

End JSValue.

(** ** JavaScript dates *)

Module JSDate.
Import JSString JSNumber.

Definition msPerDay : Z := 86400000.

Definition Day (t : Z) : Z := t / msPerDay.

Definition DayFromYear (y : Z) : Z :=
  365 * (y - 1970) + (y - 1969) / 4 - (y - 1901) / 100 + (y - 1601) / 400.

Definition isLeap (y : Z) : bool :=
  (y mod 4 =? 0) && (negb (y mod 100 =? 0) || (y mod 400 =? 0)).

(** The year a day number falls in: the largest [y] with
    [DayFromYear y <= d], found around the estimate [d / 365.2425]. *)
Definition yearFromDay (d : Z) : Z :=
  let est := 1970 + (400 * d) / 146097 in
  if DayFromYear (est + 1) <=? d then est + 1
  else if DayFromYear est <=? d then est
  else est - 1.

Definition YearFromTime (t : Z) : Z := yearFromDay (Day t).

Definition DayWithinYear (t : Z) : Z := Day t - DayFromYear (YearFromTime t).

(** Day within the year on which each month starts, January first. *)
Definition monthStarts (leap : bool) : list Z :=
  let l := if leap then 1 else 0 in
  [0; 31; 59 + l; 90 + l; 120 + l; 151 + l; 181 + l; 212 + l; 243 + l;
   273 + l; 304 + l; 334 + l].

(** The last month (and its first day) that starts on or before day [d] of
    the year. *)
Fixpoint monthOf (starts : list Z) (d : Z) (m first : Z) : Z * Z :=
  match starts with
  | [] => (m, first)
  | s :: rest => if s <=? d then monthOf rest d (m + 1) s else (m, first)
  end.

Definition MonthFromTime (t : Z) : Z :=
  fst (monthOf (monthStarts (isLeap (YearFromTime t))) (DayWithinYear t) (-1) 0).

Definition DateFromTime (t : Z) : Z :=
  DayWithinYear t
  - snd (monthOf (monthStarts (isLeap (YearFromTime t))) (DayWithinYear t) (-1) 0) + 1.

(** MakeDay for a month in 0..11 and MakeDate for midnight. *)
Definition MakeDay (year month date : Z) : Z :=
  DayFromYear year + nth (Z.to_nat month) (monthStarts (isLeap year)) 0 + date - 1.

(** A [Date] object: its time value, [None] when it is NaN (invalid date). *)
Definition Date : Type := option Z.

(** [new Date(year, month, date)] *)
Definition newDateYMD (year month date : Z) : Date :=
  Some (MakeDay year month date * msPerDay).

(** TimeClip of [new Date(value)] *)
Definition newDate (tv : number) : Date :=
  match tv with
  | Fin m e =>
      let t := truncate m e in
      if Z.abs t <=? 8640000000000000 then Some t else None
  | _ => None
  end.

(** [date.getTime()] *)
Definition getTime (d : Date) : number :=
  match d with Some t => ofZ t | None => NaN end.

Definition getter (f : Z -> Z) (d : Date) : number :=
  match d with Some t => ofZ (f t) | None => NaN end.

Definition getFullYear : Date -> number := getter YearFromTime.
Definition getMonth : Date -> number := getter MonthFromTime.
Definition getDate : Date -> number := getter DateFromTime.

Definition HourFromTime (t : Z) : Z := (t / 3600000) mod 24.
Definition MinFromTime (t : Z) : Z := (t / 60000) mod 60.
Definition SecFromTime (t : Z) : Z := (t / 1000) mod 60.

Definition getHours : Date -> number := getter HourFromTime.
Definition getMinutes : Date -> number := getter MinFromTime.
Definition getSeconds : Date -> number := getter SecFromTime.

End JSDate.

(** ** Exceptions *)

Inductive error : Type :=
  | Error (message : string)
  | TypeError.

Inductive result (A : Type) : Type :=
  | Ok (a : A)
  | Throw (e : error).
Arguments Ok {A} a.
Arguments Throw {A} e.

#[global] Instance result_ret : MRet result := fun A a => Ok a.
#[global] Instance result_bind : MBind result := fun A B f m =>
  match m with
  | Ok a => f a
  | Throw e => Throw e
  end.

(** A [for ... of] loop whose body can throw, over the loop's state. *)
Fixpoint forOf {A S : Type} (body : S -> A -> result S) (xs : list A) (s : S)
  : result S :=
  match xs with
  | [] => Ok s
  | x :: rest => s' ← body s x; forOf body rest s'
  end.

(** ** The Excel parser *)

Module ExcelParser.
Import JSString JSNumber JSValue JSDate.

(** *** Data *)

Record config : Type := { possibleNames : list string; type : string }.

(** [this.columnMapping], in the order [Object.entries] lists it.  The
    constructor sets it and nothing assigns to it afterwards. *)
Definition columnMapping : list (string * config) :=
  [ ("BookingNumber",
      {| possibleNames := ["Reservation Number"; "Reservation Num"]; type := "string" |});
    ("OTANumber", {| possibleNames := ["Voucher"]; type := "string" |});
    ("Name", {| possibleNames := ["Main Guest"]; type := "string" |});
    ("NumberOfAdults", {| possibleNames := ["AD"; "Adults"]; type := "number" |});
    ("NumberOfChildren", {| possibleNames := ["CH"; "Children"]; type := "number" |});
    ("DateFrom", {| possibleNames := ["Arrival"; "Arrival Date"]; type := "string" |});
    ("DateTo", {| possibleNames := ["Departure"; "Departure Date"]; type := "string" |}) ].

(** [this.requiredColumn] *)
Definition requiredColumn : string := "BookingNumber".

(** A cell object of the worksheet: its type tag [t], its underlying value
    [v] ([VUndefined] when absent) and its formatted text [w], when the
    reader rendered one.  A [Date] object as underlying value, which the
    reader produces only when asked to ([cellDates]), is not represented. *)
Record cell : Type := { t : string; v : value; w : option string }.

(** A worksheet object: cell objects by address (["A1"], ["B7"], ...). *)
Abbreviation worksheet := (gmap string cell).

(** The parser object: the one field [parseFile] assigns to. *)
Record parser : Type := { this_worksheet : option worksheet }.

(** [new ExcelParser()]: no [worksheet] property yet. *)
Definition newParser : parser := {| this_worksheet := None |}.

(** An entry of the grid [sheet_to_json] returns, or a [row] argument:
    an array of cell values, [null] or [undefined]. *)
Inductive row : Type :=
  | Arr (cells : list value)
  | NullRow
  | UndefinedRow.

(** [Array.isArray(row)] *)
Definition isArray (r : row) : bool :=
  match r with Arr _ => true | _ => false end.

(** ToBoolean of a row: an array is an object, hence true. *)
Definition truthyRow (r : row) : bool :=
  match r with Arr _ => true | NullRow | UndefinedRow => false end.

(** A column index as the code passes it: [Some i] for the number [i],
    [None] for [undefined] (an index table without the key). *)
Abbreviation index := (option Z).

(** [index === -1] *)
Definition isMinusOne (i : index) : bool :=
  match i with Some z => z =? -1 | None => false end.

(** [cells[index]] on an array *)
Definition elemAt (cells : list value) (i : index) : value :=
  match i with
  | Some z => if z <? 0 then VUndefined else default VUndefined (cells !! Z.to_nat z)
  | None => VUndefined
  end.

(** [row[index]]: reading a property of [null] or [undefined] throws. *)
Definition getIndex (r : row) (i : index) : result value :=
  match r with
  | Arr cells => Ok (elemAt cells i)
  | NullRow | UndefinedRow => Throw TypeError
  end.

(** A transformed row: an object keyed by CSV field name. *)
Abbreviation record := (gmap string value).

(** [obj[key]] on a record *)
Definition field (r : record) (key : string) : value :=
  default VUndefined (r !! key).

(** *** Column resolution *)

Fixpoint findColumnIndexFrom (headerRow : list value) (normalizedColumnName : string)
    (i : Z) : Z :=
  match headerRow with
  | [] => -1
  | h :: rest =>
      let headerValue := toLowerCase (trim (ToString (orElse h (VStr "")))) in
      if String.eqb headerValue normalizedColumnName then i
      else findColumnIndexFrom rest normalizedColumnName (i + 1)
  end.

Definition findColumnIndex (headerRow : list value) (columnName : string) : Z :=
  let normalizedColumnName := toLowerCase (trim columnName) in
  findColumnIndexFrom headerRow normalizedColumnName 0.

(** The inner loop of [findColumnIndices]: the first possible name that is
    found, [-1] when none is. *)
Fixpoint findFirstName (headerRow : list value) (names : list string) : Z :=
  match names with
  | [] => -1
  | possibleName :: rest =>
      let index := findColumnIndex headerRow possibleName in
      if negb (index =? -1) then index else findFirstName headerRow rest
  end.

Definition findColumnIndices (headerRow : list value) : gmap string Z :=
  fold_left
    (fun indices '(csvFieldName, config) =>
       <[csvFieldName := findFirstName headerRow (possibleNames config)]> indices)
    columnMapping ∅.

(** *** Dates *)

Fixpoint numberToColumnLetterLoop (fuel : nat) (num : Z) (result : string) : string :=
  match fuel with
  | O => result
  | S f =>
      if 0 <=? num then
        numberToColumnLetterLoop f (num / 26 - 1)
          (String (fromCharCode (65 + Z.rem num 26)) result)
      else result
  end.

(** [numberToColumnLetter(num)]; [num] drops by at least one per turn of the
    loop, so [num + 2] turns are enough.  [undefined >= 0] is false. *)
Definition numberToColumnLetter (num : index) : string :=
  match num with
  | Some n => numberToColumnLetterLoop (Z.to_nat (n + 2)) n ""
  | None => ""
  end.

Definition excelDateToJSDate (excelDate : value) : Date :=
  let excelEpoch := newDateYMD 1899 11 30 in
  newDate (add (getTime excelEpoch)
               (mul (mul (mul (mul (ToNumber excelDate) (ofZ 24)) (ofZ 60)) (ofZ 60))
                    (ofZ 1000))).

Definition formatDate (date : Date) : string :=
  if isNaN (getTime date) then ""
  else
    let year := getFullYear date in
    let month := padStart (toString (add (getMonth date) (ofZ 1))) 2 "0" in
    let day := padStart (toString (getDate date)) 2 "0" in
    day +:+ "." +:+ month +:+ "." +:+ toString year.

(** [numValue > 1 && numValue < 1000000] *)
Definition inSerialRange (n : number) : bool :=
  gtb n (ofZ 1) && ltb n (ofZ 1000000).

(** [/^\d{2}\.\d{2}\.\d{4}$/.test(s)] *)
Definition isDDMMYYYY (s : string) : bool :=
  match s with
  | String d1 (String d2 (String p1 (String m1 (String m2 (String p2
      (String y1 (String y2 (String y3 (String y4 EmptyString))))))))) =>
      isDigit d1 && isDigit d2 && Ascii.eqb p1 "." && isDigit m1 && isDigit m2
      && Ascii.eqb p2 "." && isDigit y1 && isDigit y2 && isDigit y3 && isDigit y4
  | _ => false
  end.

Definition isDateField (name : string) : bool :=
  String.eqb name "DateFrom" || String.eqb name "DateTo".

(** *** Cell extraction *)

(** [getCellValue(row, index, rowIndex = -1, columnName = '')] *)
Definition getCellValue (this : parser) (r : row) (i : index) (rowIndex : Z)
    (columnName : string) : result string :=
  if isMinusOne i || negb (truthyRow r) then Ok ""
  else
    value ← getIndex r i;
    if isNullish value then Ok ""
    else
      let stringValue := trim (ToString value) in
      match this_worksheet this with
      | Some ws =>
          if isDateField columnName && (0 <? rowIndex) then
            let colLetter := numberToColumnLetter i in
            let cellAddress := colLetter +:+ ofInt (rowIndex + 1) in
            match ws !! cellAddress with
            | Some cell =>
                match w cell with
                | Some (String c text) => Ok (String c text)
                | _ =>
                    let numValue := parseFloat stringValue in
                    if negb (isNaN numValue) && inSerialRange numValue then
                      if String.eqb (t cell) "d" || (truthy (v cell) && isNumber (v cell)) then
                        let excelDate := orElse (v cell) (VNum numValue) in
                        let date := excelDateToJSDate excelDate in
                        Ok (formatDate date)
                      else Ok stringValue
                    else Ok stringValue
                end
            | None =>
                let numValue := parseFloat stringValue in
                if negb (isNaN numValue) && inSerialRange numValue then
                  let date := excelDateToJSDate (VNum numValue) in
                  Ok (formatDate date)
                else Ok stringValue
            end
          else Ok stringValue
      | None => Ok stringValue
      end.

(** *** Row transformation *)

(** The object literal [transformRow] starts from. *)
Definition emptyRecord : record :=
  list_to_map
    [ ("Id", VStr ""); ("BookingNumber", VStr ""); ("OTANumber", VStr "");
      ("Name", VStr ""); ("NumberOfAdults", VStr ""); ("NumberOfTeens", VNum (ofZ 0));
      ("NumberOfChildren", VStr ""); ("NumberOfBabys", VNum (ofZ 0));
      ("DateFrom", VStr ""); ("DateTo", VStr "") ].

(** The date read from the worksheet's cell object, [''] when there is none
    (first half of the date branch of [transformRow]). *)
Definition dateFromCell (this : parser) (columnIndex : index) (rowIndex : Z) : string :=
  match this_worksheet this with
  | Some ws =>
      if (0 <? rowIndex) && negb (isMinusOne columnIndex) then
        let colLetter := numberToColumnLetter columnIndex in
        let cellAddress := colLetter +:+ ofInt (rowIndex + 1) in
        match ws !! cellAddress with
        | Some cell =>
            match w cell with
            | Some (String c text) =>
                let wValue := trim (String c text) in
                if isDDMMYYYY wValue then wValue
                else if negb (isNullish (v cell)) && isNumber (v cell)
                        && inSerialRange (ToNumber (v cell)) then
                  formatDate (excelDateToJSDate (v cell))
                else wValue
            | _ =>
                if negb (isNullish (v cell)) then
                  if isNumber (v cell) && inSerialRange (ToNumber (v cell)) then
                    formatDate (excelDateToJSDate (v cell))
                  else ToString (v cell)
                else ""
            end
        | None => ""
        end
      else ""
  | None => ""
  end.

(** The fallback on the grid's raw value (second half of the date branch). *)
Definition dateFallback (dateValue : string) (rawValue : value) : string :=
  if isEmpty dateValue && negb (isNullish rawValue) && negb (isEmptyStr rawValue) then
    let numValue := if isNumber rawValue then ToNumber rawValue
                    else parseFloat (ToString rawValue) in
    if negb (isNaN numValue) && inSerialRange numValue then
      formatDate (excelDateToJSDate (VNum numValue))
    else trim (ToString rawValue)
  else dateValue.

(** One turn of the loop over [Object.entries(this.columnMapping)]. *)
Definition transformField (this : parser) (r : row) (columnIndices : gmap string Z)
    (rowIndex : Z) (transformed : record) (entry : string * config) : result record :=
  let '(csvFieldName, config) := entry in
  let columnIndex := columnIndices !! csvFieldName in
  if isMinusOne columnIndex then Ok transformed
  else
    rawValue ← getIndex r columnIndex;
    if isDateField csvFieldName then
      let dateValue := dateFallback (dateFromCell this columnIndex rowIndex) rawValue in
      Ok (<[csvFieldName := VStr dateValue]> transformed)
    else
      cellValue ← getCellValue this r columnIndex rowIndex csvFieldName;
      let cellValue :=
        if String.eqb csvFieldName "BookingNumber" && startsWith cellValue "0"
        then substring1 cellValue else cellValue in
      if String.eqb (type config) "number" then
        let numValue := parseInt10 cellValue in
        Ok (<[csvFieldName := if isNaN numValue then VStr "" else VNum numValue]> transformed)
      else Ok (<[csvFieldName := VStr cellValue]> transformed).

(** [transformRow(row, columnIndices, id, rowIndex)]; the body never reads
    [id]. *)
Definition transformRow (this : parser) (r : row) (columnIndices : gmap string Z)
    (id rowIndex : Z) : result record :=
  transformed ← forOf (transformField this r columnIndices rowIndex) columnMapping
                      emptyRecord;
  Ok (<["Id" := orElse (field transformed "BookingNumber") (VStr "")]> transformed).

(** *** Parsing a file *)

Record workbook : Type := { SheetNames : list string; Sheets : gmap string worksheet }.

(** The uploaded file, as [XLSX.read] delivers its bytes. *)
Record file : Type := { name : string; content : workbook }.

Record parsed : Type := { rows : list record; fileName : string }.

Definition ae : string := Eval cbv in String (ascii_of_nat 228) "".
Definition ue : string := Eval cbv in String (ascii_of_nat 252) "".
Definition quote : string := String dquote "".

Definition noSheetsMessage : string :=
  "Die Excel-Datei enth" +:+ ae +:+ "lt keine Tabellen.".
Definition emptyMessage : string := "Die Excel-Datei ist leer.".
Definition noHeaderMessage : string :=
  "Die Excel-Datei enth" +:+ ae +:+ "lt keine g" +:+ ue +:+ "ltige Kopfzeile.".

(** [this.columnMapping[name]]; a property of [undefined] cannot be read. *)
Definition mappingOf (name : string) : result config :=
  match list_find (fun e => String.eqb (fst e) name = true) columnMapping with
  | Some (_, (_, c)) => Ok c
  | None => Throw TypeError
  end.

(** An element as [Array.prototype.join] prints it. *)
Definition joinText (x : value) : string :=
  if isNullish x then "" else ToString x.

Definition missingColumnMessage (possibleNames availableColumns : string) : string :=
  "Die erforderliche Spalte " +:+ quote +:+ possibleNames +:+ quote
  +:+ " wurde nicht gefunden. " +:+ "Verf" +:+ ue +:+ "gbare Spalten: "
  +:+ availableColumns.

Definition noRowsMessage (possibleNames : string) : string :=
  "Keine g" +:+ ue +:+ "ltigen Zeilen gefunden. Stellen Sie sicher, dass die Spalte "
  +:+ quote +:+ possibleNames +:+ quote +:+ " Werte enth" +:+ ae +:+ "lt.".

Definition oder : string := quote +:+ " oder " +:+ quote.

(** The loop over the data rows: [i] is the position in the grid,
    [rowNumber] the running count, [processedRows] the rows pushed so far. *)
Fixpoint processRows (this : parser) (columnIndices : gmap string Z)
    (jsonData : list row) (i rowNumber : Z) (processedRows : list record)
  : result (list record) :=
  match jsonData with
  | [] => Ok processedRows
  | r :: rest =>
      if negb (isArray r) then
        processRows this columnIndices rest (i + 1) rowNumber processedRows
      else
        let bookingNumberIndex := columnIndices !! requiredColumn in
        bookingNumber ← getCellValue this r bookingNumberIndex (-1) "";
        if isEmpty bookingNumber || isEmpty (trim bookingNumber) then
          processRows this columnIndices rest (i + 1) rowNumber processedRows
        else
          transformedRow ← transformRow this r columnIndices rowNumber i;
          processRows this columnIndices rest (i + 1) (rowNumber + 1)
            (processedRows ++ [transformedRow])
  end.

(** The body of [reader.onload] from the grid on, [this.worksheet] being
    set. *)
Definition parseGrid (this : parser) (jsonData : list row) (fileName : string)
  : result parsed :=
  match jsonData with
  | [] => Throw (Error emptyMessage)
  | Arr (h :: hs) :: dataRows =>
      let headerRow := h :: hs in
      let columnIndices := findColumnIndices headerRow in
      if isMinusOne (columnIndices !! requiredColumn) then
        let availableColumns := join ", " (map joinText (filter (fun h => truthy h = true) headerRow)) in
        c ← mappingOf requiredColumn;
        let possibleNames := join oder (possibleNames c) in
        Throw (Error (missingColumnMessage possibleNames availableColumns))
      else
        processedRows ← processRows this columnIndices dataRows 1 1 [];
        match processedRows with
        | [] =>
            c ← mappingOf requiredColumn;
            let possibleNames := join oder (possibleNames c) in
            Throw (Error (noRowsMessage possibleNames))
        | _ => Ok {| rows := processedRows; fileName := fileName |}
        end
  | _ => Throw (Error noHeaderMessage)
  end.

Section Reader.

(** [XLSX.utils.sheet_to_json(worksheet, {header: 1, defval: '', raw: true})],
    a function of the SheetJS library. *)
Variable sheet_to_json : option worksheet -> list row.

(** The [reader.onload] handler of [parseFile(file)]: the settled promise
    ([Ok] resolves, [Throw] rejects) and the parser object afterwards. *)
Definition parseFile (this : parser) (f : file) : result parsed * parser :=
  let workbook := content f in
  match SheetNames workbook with
  | String c n :: _ =>
      let firstSheetName := String c n in
      let worksheet := Sheets workbook !! firstSheetName in
      let this' := {| this_worksheet := worksheet |} in
      let jsonData := sheet_to_json worksheet in
      (parseGrid this' jsonData (name f), this')
  | _ => (Throw (Error noSheetsMessage), this)
  end.

End Reader.

(** *** File types *)

Definition validTypes : list string :=
  [ "application/vnd.openxmlformats-officedocument.spreadsheetml.sheet";
    "application/vnd.ms-excel" ].

Definition validExtensions : list string := [".xlsx"; ".xls"].

(** [isValidFileType(file)]; [file.type] and [file.name] are what it reads
    of the file. *)
Definition isValidFileType (fileType fileName : string) : bool :=
  let hasValidType := existsb (String.eqb fileType) validTypes in
  let hasValidExtension :=
    existsb (fun ext => endsWith (toLowerCase fileName) ext) validExtensions in
  hasValidType || hasValidExtension.

End ExcelParser.

(** ** The CSV exporter *)

Module CSVExporter.
Import JSString JSNumber JSValue ExcelParser.

(** [this.csvColumns] *)
Definition csvColumns : list string :=
  [ "Id"; "BookingNumber"; "OTANumber"; "Name"; "NumberOfAdults"; "NumberOfTeens";
    "NumberOfChildren"; "NumberOfBabys"; "DateFrom"; "DateTo" ].

(** [this.delimiter] *)
Definition delimiter : ascii := ";".

(** [s.replace] of every double quote by two of them (the global regular
    expression of [escapeCSVValue]). *)
Fixpoint doubleQuotes (s : string) : string :=
  match s with
  | String c r =>
      if Ascii.eqb c dquote then String dquote (String dquote (doubleQuotes r))
      else String c (doubleQuotes r)
  | EmptyString => EmptyString
  end.

(** The test of [escapeCSVValue]. *)
Definition needsQuoting (stringValue : string) : bool :=
  includes stringValue delimiter || includes stringValue dquote
  || includes stringValue LF || includes stringValue CR.

Definition escapeCSVValue (value : value) : string :=
  let stringValue := ToString value in
  if needsQuoting stringValue then
    String dquote (doubleQuotes stringValue +:+ String dquote "")
  else stringValue.

(** [row[column] !== undefined && row[column] !== null ? row[column] : ''] *)
Definition cellOf (row : record) (column : string) : value :=
  if negb (isNullish (field row column)) then field row column else VStr "".

(** One data line: the escaped fields joined by the delimiter. *)
Definition dataRow (row : record) : string :=
  join (String delimiter "") (map (fun column => escapeCSVValue (cellOf row column)) csvColumns).

Definition exportMessage : string :=
  "Keine Daten zum Exportieren verf" +:+ ExcelParser.ue +:+ "gbar.".

Definition CRLF : string := String CR (String LF "").

Definition createCSV (rows : list record) : result string :=
  match rows with
  | [] => Throw (Error exportMessage)
  | _ =>
      let header := join (String delimiter "") (map (fun col => escapeCSVValue (VStr col)) csvColumns) in
      let dataRows := map dataRow rows in
      Ok (join CRLF (header :: dataRows))
  end.

(** *** The download *)

Import JSDate.

(** The name [downloadCSV] gives the download, [today] being [new Date()]:
    [Anreise_] and the date as year, month, day. *)
Definition downloadName (today : Date) : string :=
  let year := getFullYear today in
  let month := padStart (toString (add (getMonth today) (ofZ 1))) 2 "0" in
  let day := padStart (toString (getDate today)) 2 "0" in
  let dateString := toString year +:+ month +:+ day in
  "Anreise_" +:+ dateString +:+ ".csv".

(** [getTimestamp()], [now] being [new Date()]. *)
Definition getTimestamp (now : Date) : string :=
  let year := getFullYear now in
  let month := padStart (toString (add (getMonth now) (ofZ 1))) 2 "0" in
  let day := padStart (toString (getDate now)) 2 "0" in
  let hours := padStart (toString (getHours now)) 2 "0" in
  let minutes := padStart (toString (getMinutes now)) 2 "0" in
  let seconds := padStart (toString (getSeconds now)) 2 "0" in
  toString year +:+ month +:+ day +:+ "_" +:+ hours +:+ minutes +:+ seconds.

(** The name [downloadCSVDirect] gives the download: [Anreise_] and the
    date as day, month, year. *)
Definition downloadNameDirect (today : Date) : string :=
  let year := getFullYear today in
  let month := padStart (toString (add (getMonth today) (ofZ 1))) 2 "0" in
  let day := padStart (toString (getDate today)) 2 "0" in
  let dateString := day +:+ "." +:+ month +:+ "." +:+ toString year in
  "Anreise_" +:+ dateString +:+ ".csv".

End CSVExporter.

(** ** The application *)

Module App.
Import JSString JSNumber JSValue ExcelParser CSVExporter.

(** [s.replace(/\.(xlsx|xls)$/i, '')]: the extension, in any case, is cut
    off the end. *)
Definition stripExtension (fileName : string) : string :=
  let lower := toLowerCase fileName in
  if endsWith lower ".xlsx" then substring 0 (String.length fileName - 5)%nat fileName
  else if endsWith lower ".xls" then substring 0 (String.length fileName - 4)%nat fileName
  else fileName.

(** A code unit [/[a-z0-9]/i] matches. *)
Definition isAlnum (c : ascii) : bool :=
  let n := code c in
  ((48 <=? n) && (n <=? 57)) || ((65 <=? n) && (n <=? 90)) || ((97 <=? n) && (n <=? 122)).

(** [s.replace(/[^a-z0-9]/gi, '_')] *)
Fixpoint replaceUnsafe (s : string) : string :=
  match s with
  | String c r => String (if isAlnum c then c else "_"%char) (replaceUnsafe r)
  | EmptyString => EmptyString
  end.

(** [baseFileName] of [App.downloadCSV] *)
Definition baseFileName (fileName : string) : string :=
  replaceUnsafe (stripExtension fileName).

(** What the page does in the end: it shows an error message, or it hands
    a CSV text and a base file name to the exporter's download. *)
Inductive shown : Type :=
  | ShowError (message : string)
  | Download (csvContent baseFileName : string).

Definition exportFailedMessage : string :=
  "Fehler beim Erstellen der CSV-Datei. Bitte versuchen Sie es erneut.".

(** [App.downloadCSV()], [currentData] being [this.currentData]: [null] or
    what [parseFile] resolved with. *)
Definition downloadCSV (currentData : option parsed) : shown :=
  match currentData with
  | None => ShowError exportMessage
  | Some data =>
      if (length (rows data) =? 0)%nat then ShowError exportMessage
      else
        match createCSV (rows data) with
        | Ok csvContent => Download csvContent (baseFileName (fileName data))
        | Throw _ => ShowError exportFailedMessage
        end
  end.

End App.

(** ** Dates on a host with a time zone *)

(** The [Date] functions the parser calls, with the host's zone: here the
    time value of a [Date] is the UTC instant, and the offset of the zone may
    change with time. *)
Module HostZone.
Import JSString JSNumber JSValue JSDate.

Section Zone.

(** [LocalTZA(t, isUTC)]: the offset of the host's zone in milliseconds, at
    the UTC instant [t] when [isUTC] holds, at the local time [t] when not. *)
Variable LocalTZA : Z -> bool -> Z.

Definition LocalTime (t : Z) : Z := t + LocalTZA t true.
Definition UTC (t : Z) : Z := t - LocalTZA t false.

(** [new Date(year, month, date)]: local midnight of that day. *)
Definition newDateYMD (year month date : Z) : Date :=
  newDate (ofZ (UTC (MakeDay year month date * msPerDay))).

Definition getter (f : Z -> Z) (d : Date) : number :=
  match d with Some t => ofZ (f (LocalTime t)) | None => NaN end.

Definition getFullYear : Date -> number := getter YearFromTime.
Definition getMonth : Date -> number := getter MonthFromTime.
Definition getDate : Date -> number := getter DateFromTime.

(** [excelDateToJSDate(excelDate)] *)
Definition excelDateToJSDate (excelDate : value) : Date :=
  let excelEpoch := newDateYMD 1899 11 30 in
  newDate (add (getTime excelEpoch)
               (mul (mul (mul (mul (ToNumber excelDate) (ofZ 24)) (ofZ 60)) (ofZ 60))
                    (ofZ 1000))).

(** [formatDate(date)] *)
Definition formatDate (date : Date) : string :=
  if isNaN (getTime date) then ""
  else
    let year := getFullYear date in
    let month := padStart (toString (add (getMonth date) (ofZ 1))) 2 "0" in
    let day := padStart (toString (getDate date)) 2 "0" in
    day +:+ "." +:+ month +:+ "." +:+ toString year.

End Zone.

End HostZone.

(** ** What the specification says, in its own words *)

Module Spec.
Import JSString JSNumber JSValue JSDate ExcelParser CSVExporter.

(** Trimmed and with case ignored. *)
Definition normalized (s : string) : string := toLowerCase (trim s).

(** The label of a header cell; an empty cell has the empty label. *)
Definition headerText (h : value) : string := ToString (orElse h (VStr "")).

(** The header cell equals the alias, after trimming and ignoring case. *)
Definition matchesAlias (alias : string) (h : value) : Prop :=
  normalized (headerText h) = normalized alias.

(** The alias matches some header cell. *)
Definition aliasFound (headerRow : list value) (alias : string) : Prop :=
  ∃ h, h ∈ headerRow ∧ matchesAlias alias h.

(** [i] is the leftmost header cell that matches the alias. *)
Definition leftmost (headerRow : list value) (alias : string) (i : nat) : Prop :=
  (∃ h, headerRow !! i = Some h ∧ matchesAlias alias h)
  ∧ ∀ j h, (j < i)%nat → headerRow !! j = Some h → ¬ matchesAlias alias h.

(** [a] is the first alias, in declared order, that matches any header cell. *)
Definition firstMatchingAlias (headerRow : list value) (aliases : list string)
    (a : string) : Prop :=
  ∃ k, aliases !! k = Some a ∧ aliasFound headerRow a
       ∧ ∀ k' a', (k' < k)%nat → aliases !! k' = Some a' → ¬ aliasFound headerRow a'.

(** The column a field resolves to: the leftmost cell of the first matching
    alias, or the sentinel [-1]. *)
Definition resolvesTo (headerRow : list value) (aliases : list string) (r : Z) : Prop :=
  (∃ a i, firstMatchingAlias headerRow aliases a ∧ leftmost headerRow a i
          ∧ r = Z.of_nat i)
  ∨ ((∀ a, a ∈ aliases → ¬ aliasFound headerRow a) ∧ r = -1).

(** The text extracted from a cell: trimmed, and empty for a missing cell. *)
Definition cellText (x : value) : string :=
  if isNullish x then "" else trim (ToString x).

(** The text extracted at a column: nothing for an unresolved column. *)
Definition extractedText (cells : list value) (i : index) : string :=
  if isMinusOne i then "" else cellText (elemAt cells i).

(** Exactly one leading zero removed, when there is one. *)
Definition stripOneZero (s : string) : string :=
  match s with
  | String "0"%char r => r
  | _ => s
  end.

(** An integer field: the parsed integer, the empty string when there is
    none. *)
Definition integerOrEmpty (text : string) : value :=
  match parseInt10 text with
  | NaN => VStr ""
  | n => VNum n
  end.

(** Not numeric: after leading white space and an optional sign the text
    does not go on with a digit (the empty text included). *)
Definition nonNumeric (text : string) : bool :=
  match snd (splitSign (trimStart text)) with
  | String c _ => negb (isDigit c)
  | EmptyString => true
  end.

(** The value a data row carries in the required column; a row that is not
    a sequence carries none. *)
Definition requiredValue (columnIndices : gmap string Z) (r : row) : value :=
  match r with
  | Arr cells => elemAt cells (columnIndices !! requiredColumn)
  | NullRow | UndefinedRow => VUndefined
  end.

(** Present and not blank after trimming. *)
Definition nonBlank (x : value) : bool :=
  negb (isNullish x) && negb (isEmpty (trim (ToString x))).

(** The rows of the grid with their positions, the first at position [i]. *)
Fixpoint numbered (i : Z) (grid : list row) : list (Z * row) :=
  match grid with
  | [] => []
  | r :: rest => (i, r) :: numbered (i + 1) rest
  end.

(** The data rows that are kept, in the order of the grid, each with its
    position (the header row is at position 0). *)
Definition keptRows (columnIndices : gmap string Z) (dataRows : list row)
  : list (Z * row) :=
  filter (fun p => nonBlank (requiredValue columnIndices (snd p)) = true)
         (numbered 1 dataRows).

(** [recs] are the transformations of the rows [kept], one each, in order. *)
Definition transformedFrom (this : parser) (columnIndices : gmap string Z)
    (kept : list (Z * row)) (recs : list record) : Prop :=
  Forall2 (fun rec p => ∀ id, transformRow this (snd p) columnIndices id (fst p) = Ok rec)
          recs kept.

(** The accepted names of the required field, as the messages list them. *)
Definition requiredNames : list string := ["Reservation Number"; "Reservation Num"].

(** The worksheet's cell object for a column and a grid position, when the
    parser holds a worksheet and the position is that of a data row. *)
Definition cellAt (this : parser) (columnIndex : index) (rowIndex : Z) : option cell :=
  match this_worksheet this with
  | Some ws =>
      if 0 <? rowIndex
      then ws !! (numberToColumnLetter columnIndex +:+ ofInt (rowIndex + 1))
      else None
  | None => None
  end.

(** The pre-rendered display string a cell exposes. *)
Definition displayOf (c : option cell) : option string :=
  match c with
  | Some c => match w c with
              | Some (String a r) => Some (String a r)
              | _ => None
              end
  | None => None
  end.

(** The underlying value a cell exposes. *)
Definition underlyingOf (c : option cell) : value :=
  match c with
  | Some c => v c
  | None => VUndefined
  end.

(** Serial conversion: the epoch plus [n] days, as [DD.MM.YYYY]. *)
Definition serialText (n : number) : string := formatDate (excelDateToJSDate (VNum n)).

Definition inRange (n : number) : option number :=
  if negb (isNaN n) && inSerialRange n then Some n else None.

(** A numeric value [v] with [1 < v < 1,000,000]. *)
Definition serialIn (x : value) : option number :=
  match x with
  | VNum n => inRange n
  | _ => None
  end.

(** There is a raw value: not [undefined], [null] or the empty string. *)
Definition rawPresent (raw : value) : bool :=
  negb (isNullish raw) && negb (isEmptyStr raw).

(** The first step that succeeds gives the result; the empty string when
    none does. *)
Fixpoint firstSuccess (steps : list (option string)) : string :=
  match steps with
  | [] => ""
  | Some s :: _ => s
  | None :: rest => firstSuccess rest
  end.

(** The six resolution steps as the specification lists them. *)
Definition sixSteps (c : option cell) (raw : value) : list (option string) :=
  [ d ← displayOf c; (if isDDMMYYYY d then Some d else None);
    serialText <$> serialIn (underlyingOf c);
    displayOf c;
    (if rawPresent raw then serialText <$> inRange (parseFloat (ToString raw)) else None);
    (if rawPresent raw then Some (trim (ToString raw)) else None) ].

(** The first step that gives a text that is not empty wins. *)
Fixpoint firstNonEmpty (steps : list (option string)) : string :=
  match steps with
  | [] => ""
  | Some (String a r) :: _ => String a r
  | _ :: rest => firstNonEmpty rest
  end.

(** The raw value as a number: itself, or what [parseFloat] reads in its
    text. *)
Definition rawNumber (raw : value) : number :=
  match raw with
  | VNum n => n
  | _ => parseFloat (ToString raw)
  end.

(** The resolution steps as the code has them: display strings are trimmed,
    and a cell without display string gives the text of its underlying
    value before the raw value is looked at. *)
Definition dateSteps (c : option cell) (raw : value) : list (option string) :=
  [ d ← trim <$> displayOf c; (if isDDMMYYYY d then Some d else None);
    serialText <$> serialIn (underlyingOf c);
    trim <$> displayOf c;
    match displayOf c with
    | Some _ => None
    | None => if isNullish (underlyingOf c) then None else Some (ToString (underlyingOf c))
    end;
    (if rawPresent raw then serialText <$> inRange (rawNumber raw) else None);
    (if rawPresent raw then Some (trim (ToString raw)) else None) ].

(** A date-field cell holding the serial [n]: the grid value is [n], and so
    is the underlying value of the worksheet's cell object, when there is
    one. *)
Definition holdsSerial (this : parser) (cells : list value) (i : index) (rowIndex n : Z)
  : Prop :=
  elemAt cells i = VNum (ofZ n)
  ∧ ∀ c, cellAt this i rowIndex = Some c → v c = VNum (ofZ n).

(** The cell exposes a display string that is a [DD.MM.YYYY] date once
    trimmed. *)
Definition displayIsDate (c : option cell) : Prop :=
  ∃ d, displayOf c = Some d ∧ isDDMMYYYY (trim d) = true.






(** The column a spreadsheet column name stands for, [A] being column 0:
    the letters are the digits 1 to 26 of a number in base 26. *)
Fixpoint columnValueFrom (acc : Z) (letters : string) : Z :=
  match letters with
  | String c r => columnValueFrom (26 * acc + (code c - 64)) r
  | EmptyString => acc
  end.

Definition columnNumber (letters : string) : Z := columnValueFrom 0 letters - 1.

(** Only the capital letters A to Z. *)
Fixpoint allCapitals (s : string) : bool :=
  match s with
  | String c r => (65 <=? code c) && (code c <=? 90) && allCapitals r
  | EmptyString => true
  end.

(** A record as [transformRow] builds it: exactly the ten fields, the two
    synthetic counts 0, a text as [BookingNumber] and [Id] equal to it. *)
Definition wellFormed (rec : record) : Prop :=
  dom rec = list_to_set csvColumns
  ∧ rec !! "NumberOfTeens" = Some (VNum (ofZ 0))
  ∧ rec !! "NumberOfBabys" = Some (VNum (ofZ 0))
  ∧ rec !! "Id" = rec !! "BookingNumber"
  ∧ ∃ text, rec !! "BookingNumber" = Some (VStr text).

(** The messages [parseFile] rejects with. *)
Definition parseMessage (message : string) : Prop :=
  message = noSheetsMessage ∨ message = emptyMessage ∨ message = noHeaderMessage
  ∨ (∃ labels, message = missingColumnMessage (join oder requiredNames) labels)
  ∨ message = noRowsMessage (join oder requiredNames).

(** Reading a [DD.MM.YYYY] text: the year, the month and the day. *)
Definition readDate (s : string) : option (Z * Z * Z) :=
  if isDDMMYYYY s
  then Some (digitsValue (substring 6 4 s), digitsValue (substring 3 2 s),
             digitsValue (substring 0 2 s))
  else None.

(** Reading a whole CSV text back, record by record: as [splitFrom] within
    a record, and outside quotes a carriage return followed by a line feed
    ends the record. *)
Fixpoint readFrom (inQuotes : bool) (current : string) (fields : list string)
    (s : string) : list (list string) :=
  match s with
  | EmptyString => [(fields ++ [current])%list]
  | String c r =>
      if inQuotes then
        if Ascii.eqb c dquote then
          match r with
          | String c2 r2 =>
              if Ascii.eqb c2 dquote
              then readFrom true (current +:+ String dquote "") fields r2
              else readFrom false current fields r
          | EmptyString => [(fields ++ [current])%list]
          end
        else readFrom true (current +:+ String c "") fields r
      else if Ascii.eqb c dquote then readFrom true current fields r
      else if Ascii.eqb c delimiter then readFrom false "" (fields ++ [current])%list r
      else if Ascii.eqb c CR then
        match r with
        | String c2 r2 =>
            if Ascii.eqb c2 LF then (fields ++ [current])%list :: readFrom false "" [] r2
            else readFrom false (current +:+ String c "") fields r
        | EmptyString => [(fields ++ [current +:+ String c ""])%list]
        end
      else readFrom false (current +:+ String c "") fields r
  end.

(** The records of a CSV text, each the texts of its fields. *)
Definition readCSV (text : string) : list (list string) := readFrom false "" [] text.

(** The texts of the ten fields of a record, in the order of the columns. *)
Definition fieldTexts (row : record) : list string :=
  map (fun column => ToString (cellOf row column)) csvColumns.

(** Local midnight of 30.12.1899, the day serials are counted from. *)
Definition localEpoch : Z := MakeDay 1899 11 30 * msPerDay.

(** The serial conversion on a host with the zone [LocalTZA]. *)
Definition serialTextIn (LocalTZA : Z -> bool -> Z) (n : number) : string :=
  HostZone.formatDate LocalTZA (HostZone.excelDateToJSDate LocalTZA (VNum n)).

End Spec.

(** ** The loops in closed form *)

Module Pure.
Import JSString JSNumber JSValue JSDate ExcelParser CSVExporter Spec.

(** What [transformRow] assigns to a field of the mapping on an array row;
    [None] when it leaves the default in place. *)
Definition storedValue (this : parser) (cells : list value) (columnIndices : gmap string Z)
    (rowIndex : Z) (name : string) (c : config) : option value :=
  let i := columnIndices !! name in
  if isMinusOne i then None
  else if isDateField name then
    Some (VStr (dateFallback (dateFromCell this i rowIndex) (elemAt cells i)))
  else
    let text := cellText (elemAt cells i) in
    let text := if String.eqb name "BookingNumber" then stripOneZero text else text in
    Some (if String.eqb (type c) "number" then integerOrEmpty text else VStr text).

(** The record after the mapping loop over the entries [l]. *)
Definition storeAll (this : parser) (cells : list value) (columnIndices : gmap string Z)
    (rowIndex : Z) (l : list (string * config)) (rec : record) : record :=
  fold_left (fun rec e =>
               match storedValue this cells columnIndices rowIndex (fst e) (snd e) with
               | Some x => <[fst e := x]> rec
               | None => rec
               end) l rec.


(** [String(k).padStart(2, '0')] *)
Definition pad2 (k : Z) : string := padStart (toString (ofZ k)) 2 "0".

(** [pad2 k] is two digits that read [k]. *)
Definition twoDigits (k : Z) : bool :=
  match pad2 k with
  | String a (String b EmptyString) =>
      isDigit a && isDigit b && (digitsValue (String a (String b "")) =? k)
  | _ => false
  end.

(** [String(y)] is four digits that read [y]. *)
Definition fourDigits (y : Z) : bool :=
  match toString (ofZ y) with
  | String a (String b (String c (String d EmptyString))) =>
      isDigit a && isDigit b && isDigit c && isDigit d
      && (digitsValue (String a (String b (String c (String d "")))) =? y)
  | _ => false
  end.

(** Day [d] of a year falls in a month 0..11 of the table, on a day 1..31
    counted from the day the month starts. *)
Definition inMonthTable (leap : bool) (d : Z) : bool :=
  let '(m, first) := monthOf (monthStarts leap) d (-1) 0 in
  (0 <=? m) && (m <=? 11) && (nth (Z.to_nat m) (monthStarts leap) 0 =? first)
  && (1 <=? d - first + 1) && (d - first + 1 <=? 31).

(** The numbers [lo], [lo + 1], ... ([n] of them). *)
Definition rangeFrom (lo n : Z) : list Z :=
  map (fun i => lo + Z.of_nat i) (seq 0 (Z.to_nat n)).

(** One line of the CSV text: the escaped values joined by the delimiter. *)
Definition csvLine (values : list value) : string :=
  join (String delimiter "") (map escapeCSVValue values).

(** What follows a record in a CSV text: nothing, or a line break and the
    rest of the text. *)
Definition endRecord (fields : list string) (tail : string) : list (list string) :=
  match tail with
  | String _ (String _ t) => fields :: readFrom false "" [] t
  | _ => [fields]
  end.

Import App.

(** A character of a base file name: a letter, a digit or the underscore. *)
Definition isSafe (c : ascii) : bool := isAlnum c || Ascii.eqb c "_".

Fixpoint allSafe (s : string) : bool :=
  match s with
  | String c r => isSafe c && allSafe r
  | EmptyString => true
  end.

End Pure.

(** ** Sample sheets *)

Module Examples.
Import JSString JSNumber JSValue JSDate ExcelParser CSVExporter.

(** A header with the required column and an arrival date. *)
Definition header : list value := [VStr "Reservation Number"; VStr "Arrival"].

Definition indices : gmap string Z := findColumnIndices header.

(** A parser holding a worksheet whose cell B2 is [c]. *)
Definition parserWith (c : cell) : parser :=
  {| this_worksheet := Some {[ "B2" := c ]} |}.

(** Text ["45000"] without a display string. *)
Definition textCell : cell := {| t := "s"; v := VStr "45000"; w := None |}.
Definition textRow : list value := [VStr "R1"; VStr "45000"].

(** Serial 45000 displayed as a padded date. *)
Definition paddedCell : cell :=
  {| t := "n"; v := VNum (ofZ 45000); w := Some " 01.02.2020 " |}.
Definition paddedRow : list value := [VStr "R1"; VNum (ofZ 45000)].

(** Serial 1 and serial 2 in the General format, which displays the
    number. *)
Definition serialCell (n : Z) : cell :=
  {| t := "n"; v := VNum (ofZ n); w := Some (ofInt n) |}.
Definition serialRow (n : Z) : list value := [VStr "R1"; VNum (ofZ n)].

(** A workbook of one sheet, and the grid read from it. *)
Definition bookingSheet : worksheet :=
  {[ "A1" := {| t := "s"; v := VStr "Reservation Number"; w := Some "Reservation Number" |};
     "B1" := {| t := "s"; v := VStr "Arrival"; w := Some "Arrival" |};
     "A2" := {| t := "s"; v := VStr "R1"; w := Some "R1" |};
     "B2" := {| t := "n"; v := VNum (ofZ 45000); w := Some "3/15/23" |} ]}.

Definition bookingFile : file :=
  {| name := "export.xlsx";
     content := {| SheetNames := ["Sheet1"]; Sheets := {[ "Sheet1" := bookingSheet ]} |} |}.

Definition bookingGrid (ws : option worksheet) : list row :=
  [Arr header; Arr [VStr "R1"; VNum (ofZ 45000)]; Arr [VStr "  "; VNum (ofZ 45001)];
   NullRow; Arr [VStr "0012345"]].


(** A zone whose offset dropped from -4:56:16 to -5:00 in 1914. *)
Definition offsetDrop (t : Z) (isUTC : bool) : Z :=
  if t <? -1739041424000 then -17776000 else -18000000.

End Examples.

Import JSString JSNumber JSValue JSDate ExcelParser CSVExporter Spec Pure.
Import App.

(** ** Column resolution *)

Section ColumnResolver.

Lemma findColumnIndexFrom_spec (headerRow : list value) (norm : string) (i0 : Z) :
  0 <= i0 →
  (findColumnIndexFrom headerRow norm i0 = -1
   ∧ ∀ h, h ∈ headerRow → normalized (headerText h) ≠ norm)
  ∨ (∃ (i : nat) h, headerRow !! i = Some h ∧ normalized (headerText h) = norm
       ∧ findColumnIndexFrom headerRow norm i0 = i0 + Z.of_nat i
       ∧ ∀ (j : nat) h', (j < i)%nat → headerRow !! j = Some h'
                         → normalized (headerText h') ≠ norm).
Proof.
  revert i0. induction headerRow as [|h rest IH]; intros i0 Hi0; simpl.
  - left. split; [reflexivity|]. intros h Hh. inversion Hh.
  - fold (headerText h). fold (normalized (headerText h)).
    destruct (String.eqb_spec (normalized (headerText h)) norm) as [Heq|Hne].
    + right. exists 0%nat, h. repeat split; auto with lia.
    + destruct (IH (i0 + 1)) as [[Hr Hall]|(i & h' & Hl & Hm & Hr & Hbefore)]; [lia| |].
      * left. split; [exact Hr|]. intros x Hx.
        apply elem_of_cons in Hx as [->|Hx]; auto.
      * right. exists (S i), h'. repeat split; auto.
        -- rewrite Hr. lia.
        -- intros [|j] x Hj Hx; simpl in Hx.
           ++ injection Hx as <-. exact Hne.
           ++ apply (Hbefore j); [lia|exact Hx].
Qed.

Lemma findColumnIndex_spec (headerRow : list value) (alias : string) :
  (findColumnIndex headerRow alias = -1 ∧ ¬ aliasFound headerRow alias)
  ∨ (∃ i : nat, findColumnIndex headerRow alias = Z.of_nat i
                ∧ leftmost headerRow alias i).
Proof.
  unfold findColumnIndex.
  destruct (findColumnIndexFrom_spec headerRow (toLowerCase (trim alias)) 0)
    as [[Hr Hall]|(i & h & Hl & Hm & Hr & Hbefore)]; [lia| |].
  - left. split; [exact Hr|]. intros (h & Hin & Hm). exact (Hall h Hin Hm).
  - right. exists i. split; [rewrite Hr; lia|]. split.
    + exists h. split; [exact Hl|exact Hm].
    + intros j h' Hj Hl' Hm'. exact (Hbefore j h' Hj Hl' Hm').
Qed.

Lemma findFirstName_spec (headerRow : list value) (aliases : list string) :
  resolvesTo headerRow aliases (findFirstName headerRow aliases).
Proof.
  induction aliases as [|a rest IH]; simpl.
  - right. split; [|reflexivity]. intros a Ha. inversion Ha.
  - destruct (findColumnIndex_spec headerRow a) as [[Hr Hnone]|(i & Hr & Hleft)].
    + rewrite Hr. simpl.
      destruct IH as [(b & i & (k & Hk & Hfound & Hfirst) & Hleft & Hi)|[Hall Hi]].
      * left. exists b, i. split; [|split; assumption].
        exists (S k). split; [exact Hk|]. split; [exact Hfound|].
        intros [|k'] a' Hlt Ha'; simpl in Ha'.
        -- injection Ha' as <-. exact Hnone.
        -- apply (Hfirst k'); [lia|exact Ha'].
      * right. split; [|exact Hi]. intros b Hb.
        apply elem_of_cons in Hb as [->|Hb]; auto.
    + rewrite Hr.
      replace (negb (Z.of_nat i =? -1)) with true
        by (symmetry; apply negb_true_iff, Z.eqb_neq; lia).
      left. exists a, i. split; [|split; [exact Hleft|reflexivity]].
      exists 0%nat. split; [reflexivity|]. split.
      * destruct Hleft as [(h & Hl & Hm) _]. exists h. split; [|exact Hm].
        apply list_elem_of_lookup. exists i. exact Hl.
      * intros k' a' Hlt. lia.
Qed.

(** The table holds, for each field of the mapping, what its own turn of the
    loop stored. *)
Lemma indices_lookup (headerRow : list value) (l : list (string * config))
    (m : gmap string Z) (name : string) (c : config) :
  NoDup (map fst l) → (name, c) ∈ l →
  fold_left (fun indices '(csvFieldName, config) =>
               <[csvFieldName := findFirstName headerRow (possibleNames config)]> indices)
            l m !! name
  = Some (findFirstName headerRow (possibleNames c)).
Proof.
  revert m. induction l as [|[k c'] rest IH]; intros m Hnd Hin.
  - inversion Hin.
  - simpl in Hnd. apply NoDup_cons in Hnd as [Hk Hnd].
    apply elem_of_cons in Hin as [Heq|Hin].
    + injection Heq as <- <-. simpl.
      clear IH Hnd. revert m. induction rest as [|[k' c''] rest IH]; intros m.
      * simpl. apply lookup_insert_eq.
      * simpl. simpl in Hk. rewrite not_elem_of_cons in Hk. destruct Hk as [Hne Hk].
        rewrite insert_insert_ne by congruence.
        apply IH. exact Hk.
    + simpl. apply IH; assumption.
Qed.

Lemma columnMapping_NoDup : NoDup (map fst columnMapping).
Proof. apply (bool_decide_unpack (NoDup (map fst columnMapping))). vm_compute. exact I. Qed.

(** Every field of the mapping has an entry in the table, and it is the
    column its aliases resolve to. *)
Lemma mapped_field_resolves (headerRow : list value) (name : string) (c : config) :
  (name, c) ∈ columnMapping →
  ∃ r, findColumnIndices headerRow !! name = Some r
       ∧ resolvesTo headerRow (possibleNames c) r.
Proof.
  intros Hin. exists (findFirstName headerRow (possibleNames c)). split.
  - unfold findColumnIndices. apply indices_lookup; [apply columnMapping_NoDup|exact Hin].
  - apply findFirstName_spec.
Qed.

(** C2. For every header row and every field of the column mapping, the
    index table holds the index of the leftmost header cell that equals
    (trimmed, case ignored) the first alias, in declared order, that matches
    any header cell; when no alias matches any header cell it holds [-1]. *)
Theorem findColumnIndices_resolves (headerRow : list value) (name : string) (c : config) :
  (name, c) ∈ columnMapping →
  ∃ r, findColumnIndices headerRow !! name = Some r
       ∧ (((∃ a i, firstMatchingAlias headerRow (possibleNames c) a
                   ∧ leftmost headerRow a i ∧ r = Z.of_nat i)
           ∧ ∃ a, a ∈ possibleNames c ∧ aliasFound headerRow a)
          ∨ ((∀ a, a ∈ possibleNames c → ¬ aliasFound headerRow a) ∧ r = -1)).
Proof.
  intros Hin.
  destruct (mapped_field_resolves headerRow name c Hin) as (r & Hr & [Hfound|Hnone]).
  - exists r. split; [exact Hr|]. left. split; [exact Hfound|].
    destruct Hfound as (a & i & (k & Hk & Ha & _) & _ & _).
    exists a. split; [|exact Ha]. apply list_elem_of_lookup. exists k. exact Hk.
  - exists r. split; [exact Hr|]. right. exact Hnone.
Qed.

Lemma findColumnIndices_resolves_witness :
  ∃ r, findColumnIndices Examples.header !! "BookingNumber" = Some r
       ∧ (((∃ a i, firstMatchingAlias Examples.header
                     ["Reservation Number"; "Reservation Num"] a
                   ∧ leftmost Examples.header a i ∧ r = Z.of_nat i)
           ∧ ∃ a, a ∈ ["Reservation Number"; "Reservation Num"]
                  ∧ aliasFound Examples.header a)
          ∨ ((∀ a, a ∈ ["Reservation Number"; "Reservation Num"]
                   → ¬ aliasFound Examples.header a) ∧ r = -1)).
Proof.
  apply (findColumnIndices_resolves Examples.header "BookingNumber"
           {| possibleNames := ["Reservation Number"; "Reservation Num"];
              type := "string" |}).
  unfold columnMapping. left.
Defined.

End ColumnResolver.

(** ** Cell extraction and row transformation *)

Section Transformer.

Variable this : parser.

Lemma getCellValue_plain (cells : list value) (i : index) (rowIndex : Z)
    (columnName : string) :
  isDateField columnName = false →
  getCellValue this (Arr cells) i rowIndex columnName = Ok (extractedText cells i).
Proof.
  intros Hd. unfold getCellValue, extractedText, cellText. simpl.
  destruct (isMinusOne i); simpl; [reflexivity|].
  destruct (isNullish (elemAt cells i)); [reflexivity|].
  rewrite Hd. simpl. destruct (this_worksheet this); reflexivity.
Qed.

Lemma stripOneZero_startsWith (s : string) :
  (if startsWith s "0" then substring1 s else s) = stripOneZero s.
Proof.
  destruct s as [|c r]; [reflexivity|]. simpl.
  destruct (Ascii.eqb_spec c "0") as [->|Hne]; [reflexivity|].
  unfold stripOneZero.
  destruct c as [[] [] [] [] [] [] [] []]; try reflexivity. congruence.
Qed.

Lemma integerOrEmpty_isNaN (text : string) :
  (if isNaN (parseInt10 text) then VStr "" else VNum (parseInt10 text))
  = integerOrEmpty text.
Proof. unfold integerOrEmpty. destruct (parseInt10 text); reflexivity. Qed.

Lemma transformField_Arr (cells : list value) (ci : gmap string Z) (rowIndex : Z)
    (rec : record) (name : string) (c : config) :
  transformField this (Arr cells) ci rowIndex rec (name, c)
  = Ok (match storedValue this cells ci rowIndex name c with
        | Some x => <[name := x]> rec
        | None => rec
        end).
Proof.
  unfold transformField, storedValue. simpl.
  destruct (isMinusOne (ci !! name)) eqn:Hm; [reflexivity|].
  destruct (isDateField name) eqn:Hd; [reflexivity|].
  rewrite getCellValue_plain by exact Hd. simpl.
  unfold extractedText. rewrite Hm.
  destruct (String.eqb name "BookingNumber"); simpl.
  - rewrite stripOneZero_startsWith.
    destruct (String.eqb (type c) "number"); [|reflexivity].
    rewrite integerOrEmpty_isNaN. reflexivity.
  - destruct (String.eqb (type c) "number"); [|reflexivity].
    rewrite integerOrEmpty_isNaN. reflexivity.
Qed.

Lemma forOf_transformField (cells : list value) (ci : gmap string Z) (rowIndex : Z)
    (l : list (string * config)) (rec : record) :
  forOf (transformField this (Arr cells) ci rowIndex) l rec
  = Ok (storeAll this cells ci rowIndex l rec).
Proof.
  revert rec. induction l as [|[name c] rest IH]; intros rec; [reflexivity|].
  cbn [forOf]. rewrite transformField_Arr. apply IH.
Qed.

Lemma storeAll_cons (cells : list value) (ci : gmap string Z) (rowIndex : Z)
    (name : string) (c : config) (l : list (string * config)) (rec : record) :
  storeAll this cells ci rowIndex ((name, c) :: l) rec
  = storeAll this cells ci rowIndex l
      (match storedValue this cells ci rowIndex name c with
       | Some x => <[name := x]> rec
       | None => rec
       end).
Proof. reflexivity. Qed.

Lemma storeAll_other (cells : list value) (ci : gmap string Z) (rowIndex : Z)
    (l : list (string * config)) (rec : record) (key : string) :
  key ∉ map fst l → storeAll this cells ci rowIndex l rec !! key = rec !! key.
Proof.
  revert rec. induction l as [|[name c] rest IH]; intros rec Hk; [reflexivity|].
  simpl in Hk. apply not_elem_of_cons in Hk as [Hne Hk].
  rewrite storeAll_cons, IH by exact Hk.
  destruct (storedValue this cells ci rowIndex name c); [|reflexivity].
  apply lookup_insert_ne. congruence.
Qed.

Lemma storeAll_lookup (cells : list value) (ci : gmap string Z) (rowIndex : Z)
    (l : list (string * config)) (rec : record) (name : string) (c : config) :
  NoDup (map fst l) → (name, c) ∈ l →
  storeAll this cells ci rowIndex l rec !! name
  = match storedValue this cells ci rowIndex name c with
    | Some x => Some x
    | None => rec !! name
    end.
Proof.
  revert rec. induction l as [|[k c'] rest IH]; intros rec Hnd Hin.
  - inversion Hin.
  - simpl in Hnd. apply NoDup_cons in Hnd as [Hk Hnd].
    rewrite storeAll_cons.
    apply elem_of_cons in Hin as [Heq|Hin].
    + injection Heq as <- <-. rewrite storeAll_other by exact Hk.
      destruct (storedValue this cells ci rowIndex name c); [|reflexivity].
      apply lookup_insert_eq.
    + rewrite IH by assumption.
      destruct (storedValue this cells ci rowIndex name c); [reflexivity|].
      destruct (storedValue this cells ci rowIndex k c'); [|reflexivity].
      apply lookup_insert_ne. intros ->. apply Hk.
      apply list_elem_of_fmap. exists (name, c). split; [reflexivity|exact Hin].
Qed.

(** The record of an array row: the mapping loop's stores on the defaults,
    then [Id]. *)
Lemma transformRow_Arr (cells : list value) (ci : gmap string Z) (id rowIndex : Z) :
  transformRow this (Arr cells) ci id rowIndex
  = Ok (<["Id" := orElse (field (storeAll this cells ci rowIndex columnMapping emptyRecord)
                               "BookingNumber") (VStr "")]>
          (storeAll this cells ci rowIndex columnMapping emptyRecord)).
Proof. unfold transformRow. rewrite forOf_transformField. reflexivity. Qed.

Lemma transformRow_field (cells : list value) (ci : gmap string Z) (id rowIndex : Z)
    (name : string) (c : config) :
  (name, c) ∈ columnMapping →
  ∃ rec, transformRow this (Arr cells) ci id rowIndex = Ok rec
         ∧ rec !! name = match storedValue this cells ci rowIndex name c with
                         | Some x => Some x
                         | None => emptyRecord !! name
                         end.
Proof.
  intros Hin. eexists. split; [apply transformRow_Arr|].
  rewrite lookup_insert_ne.
  - apply storeAll_lookup; [apply columnMapping_NoDup|exact Hin].
  - intros <-. revert Hin. unfold columnMapping. rewrite !elem_of_cons.
    intros H. repeat (destruct H as [H|H]; [discriminate H|]). inversion H.
Qed.

Lemma storeAll_dom (cells : list value) (ci : gmap string Z) (rowIndex : Z)
    (l : list (string * config)) (rec : record) :
  (∀ key, key ∈ map fst l → key ∈ dom rec) →
  dom (storeAll this cells ci rowIndex l rec) = dom rec.
Proof.
  revert rec. induction l as [|[name c] rest IH]; intros rec Hin; [reflexivity|].
  rewrite storeAll_cons.
  assert (Hname : name ∈ dom rec) by (apply Hin; simpl; left).
  destruct (storedValue this cells ci rowIndex name c).
  - rewrite IH.
    + rewrite dom_insert_L. apply subseteq_union_1_L, singleton_subseteq_l, Hname.
    + intros key Hkey. rewrite dom_insert_L. apply elem_of_union_r, Hin.
      simpl. right. exact Hkey.
  - apply IH. intros key Hkey. apply Hin. simpl. right. exact Hkey.
Qed.

Lemma emptyRecord_dom : dom emptyRecord = list_to_set csvColumns.
Proof. vm_compute. reflexivity. Qed.

Lemma transformRow_complete (cells : list value) (ci : gmap string Z) (id rowIndex : Z) :
  ∃ rec, transformRow this (Arr cells) ci id rowIndex = Ok rec
         ∧ dom rec = list_to_set csvColumns.
Proof.
  eexists. split; [apply transformRow_Arr|].
  rewrite dom_insert_L, storeAll_dom.
  - rewrite emptyRecord_dom. vm_compute. reflexivity.
  - intros key Hkey. rewrite emptyRecord_dom.
    revert Hkey. simpl. rewrite !elem_of_cons.
    intros H. repeat (destruct H as [->|H]; [vm_compute; reflexivity|]). inversion H.
Qed.

Lemma parseInt10_cases (text : string) :
  (nonNumeric text = true ∧ parseInt10 text = NaN)
  ∨ (nonNumeric text = false ∧ ∃ z, parseInt10 text = Fin z 0).
Proof.
  unfold nonNumeric, parseInt10.
  destruct (splitSign (trimStart text)) as [neg r]. simpl.
  destruct r as [|c r]; simpl; [left; split; reflexivity|].
  destruct (isDigit c); simpl.
  - right. split; [reflexivity|]. destruct (spanDigits r) as [d t0]. simpl. eauto.
  - left. split; reflexivity.
Qed.

End Transformer.

(** C10. [getCellValue] returns a string for every row (an array of any
    length, [null] or [undefined]) and every column index: the empty string
    for the sentinel [-1], for a cell beyond the end of the row and for a
    [null] or [undefined] cell.  [transformRow] therefore returns, for an
    array row of any length, a record with exactly the ten CSV fields. *)
Theorem getCellValue_total (this : parser) (r : row) (cells : list value) (i : index)
    (ci : gmap string Z) (id rowIndex : Z) (columnName : string) :
  (∃ text, getCellValue this r i rowIndex columnName = Ok text)
  ∧ getCellValue this r (Some (-1)) rowIndex columnName = Ok ""
  ∧ (isNullish (elemAt cells i) = true →
     getCellValue this (Arr cells) i rowIndex columnName = Ok "")
  ∧ (∀ z, Z.of_nat (length cells) <= z → elemAt cells (Some z) = VUndefined)
  ∧ ∃ rec, transformRow this (Arr cells) ci id rowIndex = Ok rec
           ∧ dom rec = list_to_set csvColumns.
Proof.
  split; [|split; [|split; [|split]]].
  - unfold getCellValue.
    destruct (isMinusOne i); simpl; [eauto|].
    destruct r as [cs| |]; simpl; [|eauto|eauto].
    destruct (isNullish (elemAt cs i)); [eauto|].
    destruct (this_worksheet this) as [ws|]; [|eauto].
    destruct (isDateField columnName && (0 <? rowIndex)); [|eauto].
    destruct (ws !! _) as [c|].
    + destruct (w c) as [[|a text]|]; [|eauto|];
        repeat match goal with |- context [if ?b then _ else _] => destruct b end; eauto.
    + repeat match goal with |- context [if ?b then _ else _] => destruct b end; eauto.
  - reflexivity.
  - intros Hnull. unfold getCellValue. simpl.
    destruct (isMinusOne i); simpl; [reflexivity|]. rewrite Hnull. reflexivity.
  - intros z Hz. unfold elemAt.
    destruct (Z.ltb_spec z 0) as [Hneg|Hpos]; [reflexivity|].
    rewrite lookup_ge_None_2; [reflexivity|lia].
  - apply transformRow_complete.
Qed.

Lemma getCellValue_total_witness :
  getCellValue (Examples.parserWith Examples.textCell) (Arr Examples.textRow) (Some 5) 1
    "DateFrom" = Ok "".
Proof.
  apply (proj1 (proj2 (proj2 (getCellValue_total (Examples.parserWith Examples.textCell)
                                 NullRow Examples.textRow (Some 5) Examples.indices 1 1
                                 "DateFrom")))).
  reflexivity.
Defined.

Lemma bookingNumber_value (this : parser) (cells : list value) (ci : gmap string Z)
    (id rowIndex : Z) :
  ∃ rec, transformRow this (Arr cells) ci id rowIndex = Ok rec
    ∧ rec !! "BookingNumber"
      = Some (VStr (stripOneZero (extractedText cells (ci !! "BookingNumber"))))
    ∧ rec !! "Id" = rec !! "BookingNumber".
Proof.
  rewrite transformRow_Arr. eexists. split; [reflexivity|].
  assert (Hb : storeAll this cells ci rowIndex columnMapping emptyRecord !! "BookingNumber"
               = Some (VStr (stripOneZero (extractedText cells (ci !! "BookingNumber"))))).
  { rewrite (storeAll_lookup this cells ci rowIndex columnMapping emptyRecord
               "BookingNumber"
               {| possibleNames := ["Reservation Number"; "Reservation Num"];
                  type := "string" |})
      by (apply columnMapping_NoDup || (unfold columnMapping; left)).
    unfold storedValue, extractedText. simpl.
    destruct (isMinusOne (ci !! "BookingNumber")); reflexivity. }
  rewrite lookup_insert_ne by discriminate. split; [exact Hb|].
  rewrite lookup_insert_eq, Hb. unfold field. rewrite Hb. simpl.
  destruct (stripOneZero _); reflexivity.
Qed.

(** C5. For every array row the stored [BookingNumber] is the text extracted
    at its column with exactly one leading ['0'] removed when there is one,
    and [Id] equals it: a row holding ["0012345"] stores ["012345"], one
    holding ["12345"] stores it unchanged, one holding ["0"] stores the empty
    string. *)
Theorem bookingNumber_one_zero_stripped (this : parser) (cells : list value)
    (ci : gmap string Z) (id rowIndex : Z) :
  (∃ rec, transformRow this (Arr cells) ci id rowIndex = Ok rec
     ∧ rec !! "BookingNumber"
       = Some (VStr (stripOneZero (extractedText cells (ci !! "BookingNumber"))))
     ∧ rec !! "Id" = rec !! "BookingNumber")
  ∧ Forall (fun '(text, stored) =>
              ∃ rec, transformRow this (Arr [VStr text])
                       (findColumnIndices [VStr "Reservation Number"]) id rowIndex = Ok rec
                ∧ rec !! "BookingNumber" = Some (VStr stored)
                ∧ rec !! "Id" = Some (VStr stored))
           [("0012345", "012345"); ("12345", "12345"); ("0", "")].
Proof.
  split; [apply bookingNumber_value|].
  repeat constructor;
    match goal with
    | |- ∃ rec, transformRow _ (Arr ?cs) ?ci _ _ = _ ∧ _ =>
        destruct (bookingNumber_value this cs ci id rowIndex) as (rec & Hrec & Hb & Hid);
        exists rec; split; [exact Hrec|]; rewrite Hid, Hb; split; reflexivity
    end.
Qed.

(** C6. For every array row each of the two integer fields holds the text
    extracted at its column parsed as an integer; when parsing fails (the
    text is not numeric, for instance empty, or the column is unresolved) the
    field holds the empty string, and it holds a number, [0] included, only
    as the result of a parse. *)
Theorem integer_fields_parsed_or_empty (this : parser) (cells : list value)
    (ci : gmap string Z) (id rowIndex : Z) (name : string) :
  name = "NumberOfAdults" ∨ name = "NumberOfChildren" →
  ∃ rec, transformRow this (Arr cells) ci id rowIndex = Ok rec
    ∧ let text := Spec.extractedText cells (ci !! name) in
      ((∃ z, Spec.nonNumeric text = false ∧ parseInt10 text = Fin z 0
             ∧ rec !! name = Some (VNum (ofZ z)))
       ∨ (Spec.nonNumeric text = true ∧ parseInt10 text = NaN
          ∧ rec !! name = Some (VStr "")))
      ∧ (text = "" → rec !! name = Some (VStr ""))
      ∧ (ci !! name = Some (-1) → rec !! name = Some (VStr "")).
Proof.
  intros Hname.
  assert (Hc : ∃ c, (name, c) ∈ columnMapping ∧ type c = "number").
  { destruct Hname as [->| ->];
      [exists {| possibleNames := ["AD"; "Adults"]; type := "number" |}
      |exists {| possibleNames := ["CH"; "Children"]; type := "number" |}];
      (split; [|reflexivity]); unfold columnMapping; rewrite !elem_of_cons; eauto 10. }
  destruct Hc as (c & Hin & Hty).
  destruct (transformRow_field this cells ci id rowIndex name c Hin) as (rec & Hrec & Hl).
  exists rec. split; [exact Hrec|]. cbv zeta.
  assert (Hval : rec !! name
                 = Some (Spec.integerOrEmpty (Spec.extractedText cells (ci !! name)))).
  { rewrite Hl. unfold storedValue, extractedText. rewrite Hty.
    assert (Hd : isDateField name = false) by (destruct Hname as [->| ->]; reflexivity).
    assert (Hb : String.eqb name "BookingNumber" = false)
      by (destruct Hname as [->| ->]; reflexivity).
    rewrite Hd, Hb. simpl.
    destruct (isMinusOne (ci !! name)); [|reflexivity].
    destruct Hname as [->| ->]; reflexivity. }
  split; [|split].
  - destruct (parseInt10_cases (Spec.extractedText cells (ci !! name)))
      as [[Hn Hp]|[Hn [z Hp]]].
    + right. repeat split; try assumption.
      rewrite Hval. unfold Spec.integerOrEmpty. rewrite Hp. reflexivity.
    + left. exists z. repeat split; try assumption.
      rewrite Hval. unfold Spec.integerOrEmpty. rewrite Hp. reflexivity.
  - intros Ht. rewrite Hval, Ht. reflexivity.
  - intros Hi. rewrite Hval. unfold Spec.extractedText. rewrite Hi. reflexivity.
Qed.

Lemma integer_fields_parsed_or_empty_witness :
  ∃ rec, transformRow newParser (Arr [VStr "R1"; VStr " 2 adults"])
           (findColumnIndices [VStr "Reservation Num"; VStr "ad"]) 1 1 = Ok rec
    ∧ let text := Spec.extractedText [VStr "R1"; VStr " 2 adults"]
                    (findColumnIndices [VStr "Reservation Num"; VStr "ad"]
                       !! "NumberOfAdults") in
      ((∃ z, Spec.nonNumeric text = false ∧ parseInt10 text = Fin z 0
             ∧ rec !! "NumberOfAdults" = Some (VNum (ofZ z)))
       ∨ (Spec.nonNumeric text = true ∧ parseInt10 text = NaN
          ∧ rec !! "NumberOfAdults" = Some (VStr "")))
      ∧ (text = "" → rec !! "NumberOfAdults" = Some (VStr ""))
      ∧ (findColumnIndices [VStr "Reservation Num"; VStr "ad"] !! "NumberOfAdults"
         = Some (-1) → rec !! "NumberOfAdults" = Some (VStr "")).
Proof.
  apply (integer_fields_parsed_or_empty newParser [VStr "R1"; VStr " 2 adults"]
           (findColumnIndices [VStr "Reservation Num"; VStr "ad"]) 1 1 "NumberOfAdults").
  left. reflexivity.
Defined.

(** ** Parsing a file *)

Section Trim.

Lemma trimEnd_idem (s : string) : trimEnd (trimEnd s) = trimEnd s.
Proof.
  induction s as [|c r IH]; [reflexivity|]. simpl.
  destruct (isEmpty (trimEnd r) && isWhiteSpace c) eqn:Hb; [reflexivity|].
  simpl. rewrite IH, Hb. reflexivity.
Qed.

Lemma trimStart_head (s : string) :
  trimStart s = "" ∨ ∃ c r, trimStart s = String c r ∧ isWhiteSpace c = false.
Proof.
  induction s as [|c r IH]; [left; reflexivity|]. simpl.
  destruct (isWhiteSpace c) eqn:Hc; [exact IH|]. right. eauto.
Qed.

Lemma trim_idem (s : string) : trim (trim s) = trim s.
Proof.
  unfold trim. destruct (trimStart_head s) as [->|(c & r & -> & Hc)]; [reflexivity|].
  assert (He : trimEnd (String c r) = String c (trimEnd r)).
  { simpl. rewrite Hc, andb_false_r. reflexivity. }
  rewrite He at 1. simpl trimStart. rewrite Hc, <- He. apply trimEnd_idem.
Qed.

End Trim.

Section RowFilter.

Variable this : parser.
Variable ci : gmap string Z.

(** The test of the loop is the specification's: the required value is
    present and not blank. *)
Lemma filter_test (cells : list value) :
  isEmpty (extractedText cells (ci !! requiredColumn))
  || isEmpty (trim (extractedText cells (ci !! requiredColumn)))
  = negb (nonBlank (requiredValue ci (Arr cells))).
Proof.
  unfold extractedText, nonBlank, requiredValue, cellText.
  destruct (ci !! requiredColumn) as [z|]; cbn [isMinusOne].
  - destruct (Z.eqb_spec z (-1)) as [->|Hne]; [reflexivity|].
    set (x := elemAt cells (Some z)).
    destruct (isNullish x); [reflexivity|]. cbn [negb andb].
    rewrite trim_idem. destruct (isEmpty (trim (ToString x))); reflexivity.
  - reflexivity.
Qed.

Lemma processRows_spec (grid : list row) (i rowNumber : Z) (acc : list record) :
  ∃ recs,
    transformedFrom this ci
      (filter (fun p => nonBlank (requiredValue ci (snd p)) = true) (numbered i grid)) recs
    ∧ processRows this ci grid i rowNumber acc = Ok (acc ++ recs)%list.
Proof.
  revert i rowNumber acc. induction grid as [|r rest IH]; intros i rowNumber acc.
  - exists []. split; [constructor|]. simpl. rewrite app_nil_r. reflexivity.
  - cbn [numbered processRows]. rewrite filter_cons. cbn [snd].
    destruct r as [cells| |].
    + cbn [isArray negb]. rewrite getCellValue_plain by reflexivity.
      change (Ok ?a ≫= ?k) with (k a). cbv beta. rewrite filter_test.
      destruct (nonBlank (requiredValue ci (Arr cells))) eqn:Hk.
      * rewrite decide_True by reflexivity. cbn [negb].
        rewrite transformRow_Arr. change (Ok ?a ≫= ?k) with (k a). cbv beta.
        edestruct (IH (i + 1) (rowNumber + 1)) as (recs & Hrecs & Hrun).
        eexists (_ :: recs). split.
        -- constructor; [|exact Hrecs]. intros id. cbn [fst snd]. apply transformRow_Arr.
        -- rewrite Hrun, <- app_assoc. reflexivity.
      * rewrite decide_False by discriminate. cbn [negb]. apply IH.
    + cbn [isArray negb requiredValue]. rewrite decide_False by discriminate. apply IH.
    + cbn [isArray negb requiredValue]. rewrite decide_False by discriminate. apply IH.
Qed.

End RowFilter.

Section ParseFile.

Variable sheet_to_json : option worksheet → list row.

Lemma mappingOf_required :
  mappingOf requiredColumn = Ok {| possibleNames := requiredNames; type := "string" |}.
Proof. vm_compute. reflexivity. Qed.

Lemma required_in_mapping :
  (requiredColumn, {| possibleNames := requiredNames; type := "string" |}) ∈ columnMapping.
Proof. unfold columnMapping. left. Qed.

Lemma required_resolved (headerRow : list value) :
  (∃ a, a ∈ requiredNames ∧ aliasFound headerRow a) →
  isMinusOne (findColumnIndices headerRow !! requiredColumn) = false.
Proof.
  intros (a & Ha & Hfound).
  destruct (mapped_field_resolves headerRow _ _ required_in_mapping)
    as (r & -> & [(b & i & _ & _ & ->)|[Hnone _]]).
  - simpl. apply Z.eqb_neq. lia.
  - exfalso. exact (Hnone a Ha Hfound).
Qed.


(** The handler up to the grid: a first sheet with a name. *)
Lemma parseFile_grid (this : parser) (f : file) (sheetName : string) :
  SheetNames (content f) !! 0%nat = Some sheetName → sheetName ≠ "" →
  parseFile sheet_to_json this f
  = (parseGrid {| this_worksheet := Sheets (content f) !! sheetName |}
       (sheet_to_json (Sheets (content f) !! sheetName)) (name f),
     {| this_worksheet := Sheets (content f) !! sheetName |}).
Proof.
  intros Hfirst Hne. unfold parseFile.
  destruct (SheetNames (content f)) as [|s rest]; [discriminate Hfirst|].
  injection Hfirst as ->. destruct sheetName as [|c n]; [congruence|reflexivity].
Qed.

End ParseFile.

(** C1. For a workbook whose first sheet has a non-empty header row that
    contains an accepted name of the required column, the records of the
    result are the transformations of exactly the data rows whose
    required-field value is present and not blank after trimming, one record
    per such row and in the order of the rows; when no row is kept the parse
    fails and yields no record. *)
Theorem parseFile_keeps_nonblank_rows_in_order
    (sheet_to_json : option worksheet → list row) (this : parser) (f : file)
    (sheetName : string) (headerRow : list value) (dataRows : list row) :
  SheetNames (content f) !! 0%nat = Some sheetName → sheetName ≠ "" →
  sheet_to_json (Sheets (content f) !! sheetName) = Arr headerRow :: dataRows →
  headerRow ≠ [] →
  (∃ a, a ∈ requiredNames ∧ aliasFound headerRow a) →
  ∃ recs,
    transformedFrom {| this_worksheet := Sheets (content f) !! sheetName |}
      (findColumnIndices headerRow) (keptRows (findColumnIndices headerRow) dataRows) recs
    ∧ length recs = length (keptRows (findColumnIndices headerRow) dataRows)
    ∧ fst (parseFile sheet_to_json this f)
      = match recs with
        | [] => Throw (Error (noRowsMessage (join oder requiredNames)))
        | _ :: _ => Ok {| rows := recs; fileName := name f |}
        end.
Proof.
  intros Hfirst Hne Hgrid Hheader Hreq.
  rewrite (parseFile_grid sheet_to_json this f sheetName Hfirst Hne), Hgrid. cbn [fst].
  destruct headerRow as [|h hs]; [congruence|]. cbn [parseGrid].
  rewrite (required_resolved (h :: hs) Hreq).
  destruct (processRows_spec {| this_worksheet := Sheets (content f) !! sheetName |}
              (findColumnIndices (h :: hs)) dataRows 1 1 [])
    as (recs & Hrecs & Hrun).
  exists recs. split; [exact Hrecs|]. split; [exact (Forall2_length _ _ _ Hrecs)|].
  rewrite Hrun. cbn [app]. change (Ok ?a ≫= ?k) with (k a). cbv beta.
  destruct recs; [|reflexivity].
  rewrite mappingOf_required. reflexivity.
Qed.

Lemma parseFile_keeps_nonblank_rows_in_order_witness :
  ∃ recs,
    transformedFrom {| this_worksheet := Sheets (content Examples.bookingFile) !! "Sheet1" |}
      (findColumnIndices Examples.header)
      (keptRows (findColumnIndices Examples.header)
         [Arr [VStr "R1"; VNum (ofZ 45000)]; Arr [VStr "  "; VNum (ofZ 45001)];
          NullRow; Arr [VStr "0012345"]]) recs
    ∧ length recs
      = length (keptRows (findColumnIndices Examples.header)
                  [Arr [VStr "R1"; VNum (ofZ 45000)]; Arr [VStr "  "; VNum (ofZ 45001)];
                   NullRow; Arr [VStr "0012345"]])
    ∧ fst (parseFile Examples.bookingGrid newParser Examples.bookingFile)
      = match recs with
        | [] => Throw (Error (noRowsMessage (join oder requiredNames)))
        | _ :: _ => Ok {| rows := recs; fileName := name Examples.bookingFile |}
        end.
Proof.
  apply (parseFile_keeps_nonblank_rows_in_order Examples.bookingGrid newParser
           Examples.bookingFile "Sheet1" Examples.header).
  - reflexivity.
  - discriminate.
  - reflexivity.
  - discriminate.
  - exists "Reservation Number". split; [left|].
    exists (VStr "Reservation Number"). split; [left|reflexivity].
Defined.



(** C9, as the code has it.  The resolved index table is local to a parse,
    but the worksheet handle stays on the parser object when the parse is
    over: it is the first sheet of the last file that had one.  Every parse
    stores its own handle before it reads one, so its result depends on its
    own file only and not on what the parser held before. *)
Theorem parseFile_result_depends_on_own_file
    (sheet_to_json : option worksheet → list row) (this1 this2 : parser) (f : file) :
  fst (parseFile sheet_to_json this1 f) = fst (parseFile sheet_to_json this2 f)
  ∧ snd (parseFile sheet_to_json this1 f)
    = match SheetNames (content f) !! 0%nat with
      | Some (String c n) => {| this_worksheet := Sheets (content f) !! String c n |}
      | _ => this1
      end.
Proof.
  unfold parseFile. destruct (SheetNames (content f)) as [|[|c n] rest]; cbn [fst snd].
  - split; reflexivity.
  - split; reflexivity.
  - split; reflexivity.
Qed.

(** C9, as stated, fails.  After a parse the parser holds the worksheet of
    the file it parsed, and a later call of [transformRow] on a row of
    another grid reads the date of that worksheet's cell, where a new parser
    reads the row. *)
Lemma worksheet_handle_persists :
  snd (parseFile Examples.bookingGrid newParser Examples.bookingFile)
  = {| this_worksheet := Some Examples.bookingSheet |}
  ∧ this_worksheet newParser = None
  ∧ (∃ rec, transformRow (snd (parseFile Examples.bookingGrid newParser Examples.bookingFile))
              (Arr (Examples.serialRow 2)) Examples.indices 1 1 = Ok rec
       ∧ rec !! "DateFrom" = Some (VStr "15.03.2023"))
  ∧ (∃ rec, transformRow newParser (Arr (Examples.serialRow 2)) Examples.indices 1 1 = Ok rec
       ∧ rec !! "DateFrom" = Some (VStr "01.01.1900")).
Proof.
  split; [reflexivity|]. split; [reflexivity|]. split.
  - eexists. split; vm_compute; reflexivity.
  - eexists. split; vm_compute; reflexivity.
Qed.

(** ** Dates *)

Section DateNormalizer.

(** [yearFromDay] is the year of the language definition: the largest [y]
    whose first day is not after [d]. *)
Lemma yearFromDay_largest (d : Z) :
  DayFromYear (yearFromDay d) <= d < DayFromYear (yearFromDay d + 1).
Proof.
  unfold yearFromDay. cbv zeta.
  destruct (Z.leb_spec (DayFromYear (1970 + 400 * d / 146097 + 1)) d) as [H1|H1].
  - split; [exact H1|]. unfold DayFromYear in *. Z.div_mod_to_equations. lia.
  - destruct (Z.leb_spec (DayFromYear (1970 + 400 * d / 146097)) d) as [H2|H2].
    + split; [exact H2|exact H1].
    + split.
      * unfold DayFromYear in *. Z.div_mod_to_equations. lia.
      * replace (1970 + 400 * d / 146097 - 1 + 1) with (1970 + 400 * d / 146097) by lia.
        exact H2.
Qed.

(** The loop of [numberToColumnLetter] has ended when the fuel exceeds
    [num + 1]: more fuel gives the same letters. *)
Lemma numberToColumnLetterLoop_fuel (fuel1 fuel2 : nat) (num : Z) (result : string) :
  num + 1 < Z.of_nat fuel1 → num + 1 < Z.of_nat fuel2 →
  numberToColumnLetterLoop fuel1 num result = numberToColumnLetterLoop fuel2 num result.
Proof.
  revert fuel2 num result.
  induction fuel1 as [|f1 IH]; intros [|f2] num result H1 H2; cbn [numberToColumnLetterLoop].
  - reflexivity.
  - destruct (Z.leb_spec 0 num); [lia|reflexivity].
  - destruct (Z.leb_spec 0 num); [lia|reflexivity].
  - destruct (Z.leb_spec 0 num) as [Hn|Hn]; [|reflexivity].
    assert (Hq : num / 26 <= num) by (apply Z.div_le_upper_bound; lia).
    apply IH; lia.
Qed.

Lemma isEmpty_append_dot (a b : string) : isEmpty (a +:+ "." +:+ b) = false.
Proof. destruct a; reflexivity. Qed.

(** The serial conversion of a number in the date-serial range is a valid
    date, so its text is not empty. *)
Lemma serial_in_range_valid (n : number) :
  inSerialRange n = true → ∃ t, excelDateToJSDate (VNum n) = Some t.
Proof.
  unfold inSerialRange, gtb, ltb, ofZ. destruct n as [|s|m e]; try discriminate.
  - destruct s; discriminate.
  - unfold align. intros H. apply andb_prop in H as [H1 H2].
    apply Z.ltb_lt in H1, H2.
    unfold excelDateToJSDate, ToNumber, ofZ, newDateYMD, getTime, mul, add, align, newDate.
    replace (MakeDay 1899 11 30 * msPerDay) with (-2209161600000) by reflexivity.
    replace (e + 0 + 0 + 0 + 0) with e by lia. unfold ofZ.
    destruct (Z.le_gt_cases 0 e) as [He|He].
    + rewrite ?(Z.min_l 0 e), ?(Z.min_r e 0) in * by lia.
      replace (e - 0) with e in * by lia. change (10 ^ (0 - 0)) with 1 in *.
      unfold truncate. change (0 <=? 0) with true. cbv iota.
      change (10 ^ 0) with 1.
      set (P := m * 10 ^ e) in *.
      replace (m * 24 * 60 * 60 * 1000 * 10 ^ e) with (86400000 * P) by (unfold P; ring).
      destruct (Z.leb_spec (Z.abs ((-2209161600000 * 1 + 86400000 * P) * 1)) 8640000000000000);
        [eauto|lia].
    + rewrite ?(Z.min_r 0 e), ?(Z.min_l e 0) in * by lia.
      rewrite Z.sub_diag in *. change (10 ^ 0) with 1 in *.
      unfold truncate. replace (0 <=? e) with false by (symmetry; apply Z.leb_gt; lia).
      replace (0 - e) with (- e) in * by lia.
      set (K := 10 ^ (- e)) in *.
      assert (HK : 0 < K) by (apply Z.pow_pos_nonneg; lia).
      set (a := -2209161600000 * K + m * 24 * 60 * 60 * 1000 * 1).
      assert (Hq : Z.abs (Z.quot a K) <= 8640000000000000).
      { assert (Hlo : -2209161600000 * K <= a) by (unfold a; lia).
        assert (Hhi : a <= 86400000000000 * K) by (unfold a; lia).
        destruct (Z.le_gt_cases 0 a) as [Ha|Ha].
        - rewrite Z.quot_div_nonneg by lia. rewrite Z.abs_eq by (apply Z.div_pos; lia).
          apply Z.le_trans with 86400000000000; [|lia].
          apply Z.div_le_upper_bound; lia.
        - rewrite <- (Z.opp_involutive a), Z.quot_opp_l by lia.
          rewrite Z.abs_opp, Z.quot_div_nonneg by lia.
          rewrite Z.abs_eq by (apply Z.div_pos; lia).
          apply Z.le_trans with 2209161600000; [|lia].
          apply Z.div_le_upper_bound; lia. }
      apply Z.leb_le in Hq. rewrite Hq. eauto.
Qed.

Lemma serialText_nonempty (n : number) :
  inSerialRange n = true → isEmpty (serialText n) = false.
Proof.
  intros H. unfold serialText. destruct (serial_in_range_valid n H) as [t ->].
  unfold formatDate. cbn [getTime isNaN ofZ]. apply isEmpty_append_dot.
Qed.

Lemma firstNonEmpty_app (l1 l2 : list (option string)) :
  firstNonEmpty (l1 ++ l2)
  = if isEmpty (firstNonEmpty l1) then firstNonEmpty l2 else firstNonEmpty l1.
Proof.
  induction l1 as [|[[|a r]|] rest IH]; simpl; auto.
Qed.

Lemma firstNonEmpty_None (rest : list (option string)) :
  firstNonEmpty (None :: rest) = firstNonEmpty rest.
Proof. reflexivity. Qed.

Lemma firstNonEmpty_text (s : string) (rest : list (option string)) :
  firstNonEmpty (Some s :: rest) = if isEmpty s then firstNonEmpty rest else s.
Proof. destruct s; reflexivity. Qed.

Lemma firstNonEmpty_serial (n : number) (rest : list (option string)) :
  firstNonEmpty ((serialText <$> inRange n) :: rest)
  = if negb (isNaN n) && inSerialRange n then serialText n else firstNonEmpty rest.
Proof.
  unfold inRange. destruct (negb (isNaN n) && inSerialRange n) eqn:Hn; [|reflexivity].
  cbn [fmap option_fmap option_map]. rewrite firstNonEmpty_text.
  apply andb_prop in Hn as [_ Hn]. rewrite (serialText_nonempty n Hn). reflexivity.
Qed.

(** The fallback on the raw value is the last two steps. *)
Lemma dateFallback_steps (raw : value) :
  dateFallback "" raw
  = firstNonEmpty
      [ (if rawPresent raw then serialText <$> inRange (rawNumber raw) else None);
        (if rawPresent raw then Some (trim (ToString raw)) else None) ].
Proof.
  unfold dateFallback, rawPresent. cbn [isEmpty andb].
  destruct (negb (isNullish raw) && negb (isEmptyStr raw)); [|reflexivity].
  rewrite firstNonEmpty_serial, firstNonEmpty_text.
  replace (if isNumber raw then ToNumber raw else parseFloat (ToString raw))
    with (rawNumber raw) by (destruct raw; reflexivity).
  destruct (negb (isNaN (rawNumber raw)) && inSerialRange (rawNumber raw)); [reflexivity|].
  cbn [firstNonEmpty]. destruct (trim (ToString raw)); reflexivity.
Qed.

(** The lookup in the worksheet is the first four steps. *)
Lemma dateFromCell_steps (this : parser) (i : index) (rowIndex : Z) :
  isMinusOne i = false →
  dateFromCell this i rowIndex
  = firstNonEmpty
      [ d ← trim <$> displayOf (cellAt this i rowIndex);
          (if isDDMMYYYY d then Some d else None);
        serialText <$> serialIn (underlyingOf (cellAt this i rowIndex));
        trim <$> displayOf (cellAt this i rowIndex);
        match displayOf (cellAt this i rowIndex) with
        | Some _ => None
        | None => if isNullish (underlyingOf (cellAt this i rowIndex)) then None
                  else Some (ToString (underlyingOf (cellAt this i rowIndex)))
        end ].
Proof.
  intros Hi. unfold dateFromCell, cellAt. rewrite Hi.
  destruct (this_worksheet this) as [ws|]; [|reflexivity].
  destruct (0 <? rowIndex); [|reflexivity]. cbn [andb negb].
  destruct (ws !! _) as [c|]; [|reflexivity].
  unfold displayOf, underlyingOf.
  assert (Hserial : ∀ rest,
    firstNonEmpty ((serialText <$> serialIn (v c)) :: rest)
    = if negb (isNullish (v c)) && isNumber (v c) && inSerialRange (ToNumber (v c))
      then formatDate (excelDateToJSDate (v c)) else firstNonEmpty rest).
  { intros rest. destruct (v c) as [| |b|n|s0]; try reflexivity.
    cbn [serialIn]. rewrite firstNonEmpty_serial. cbn [isNullish isNumber negb andb ToNumber].
    destruct n as [|sg|m e]; reflexivity. }
  destruct (w c) as [[|a text]|].
  - cbn [fmap option_fmap option_map mbind option_bind].
    rewrite firstNonEmpty_None, Hserial, firstNonEmpty_None.
    destruct (isNullish (v c)) eqn:Hn; cbn [negb andb]; [reflexivity|].
    destruct (isNumber (v c) && inSerialRange (ToNumber (v c))); [reflexivity|].
    cbn [firstNonEmpty]. destruct (ToString (v c)); reflexivity.
  - cbn [fmap option_fmap option_map mbind option_bind].
    destruct (isDDMMYYYY (trim (String a text))) eqn:Hp.
    + rewrite firstNonEmpty_text.
      destruct (trim (String a text)) as [|x y]; [discriminate Hp|reflexivity].
    + rewrite firstNonEmpty_None, Hserial.
      destruct (negb (isNullish (v c)) && isNumber (v c) && inSerialRange (ToNumber (v c)));
        [reflexivity|].
      rewrite firstNonEmpty_text. cbn [firstNonEmpty].
      destruct (trim (String a text)); reflexivity.
  - cbn [fmap option_fmap option_map mbind option_bind].
    rewrite firstNonEmpty_None, Hserial, firstNonEmpty_None.
    destruct (isNullish (v c)) eqn:Hn; cbn [negb andb]; [reflexivity|].
    destruct (isNumber (v c) && inSerialRange (ToNumber (v c))); [reflexivity|].
    cbn [firstNonEmpty]. destruct (ToString (v c)); reflexivity.
Qed.

(** The text a date field gets on an array row is the first step of
    [dateSteps] that gives a text that is not empty. *)
Lemma date_field_steps (this : parser) (cells : list value) (ci : gmap string Z)
    (rowIndex : Z) (name : string) (c : config) :
  isDateField name = true → isMinusOne (ci !! name) = false →
  storedValue this cells ci rowIndex name c
  = Some (VStr (firstNonEmpty (dateSteps (cellAt this (ci !! name) rowIndex)
                                         (elemAt cells (ci !! name))))).
Proof.
  intros Hd Hi. unfold storedValue. rewrite Hi, Hd. do 2 f_equal.
  set (cl := cellAt this (ci !! name) rowIndex). set (raw := elemAt cells (ci !! name)).
  change (dateSteps cl raw)
    with ([ d ← trim <$> displayOf cl; (if isDDMMYYYY d then Some d else None);
            serialText <$> serialIn (underlyingOf cl);
            trim <$> displayOf cl;
            match displayOf cl with
            | Some _ => None
            | None => if isNullish (underlyingOf cl) then None
                      else Some (ToString (underlyingOf cl))
            end ]
          ++ [ (if rawPresent raw then serialText <$> inRange (rawNumber raw) else None);
               (if rawPresent raw then Some (trim (ToString raw)) else None) ])%list.
  rewrite firstNonEmpty_app, <- dateFallback_steps.
  unfold cl. rewrite <- (dateFromCell_steps this (ci !! name) rowIndex Hi).
  destruct (dateFromCell this (ci !! name) rowIndex); reflexivity.
Qed.

End DateNormalizer.

(** C4, as the code has it.  For every array row and each of the two date
    fields whose column is resolved, the stored text is given by the first of
    these steps that yields a text that is not empty: (1) the trimmed display
    string of the cell, when it matches [DD.MM.YYYY]; (2) the serial
    conversion of the cell's underlying numeric value [v], when
    [1 < v < 1,000,000]; (3) the trimmed display string; (3a) for a cell
    without display string, the text of its underlying value as it is;
    (4) the serial conversion of the raw value, when it is a number, or text
    that parses to a float, in the same range; (5) the trimmed text of the raw
    value; and it is the empty string when no step yields one. *)
Theorem date_fields_first_nonempty_step (this : parser) (cells : list value)
    (ci : gmap string Z) (id rowIndex : Z) (name : string) :
  name = "DateFrom" ∨ name = "DateTo" →
  isMinusOne (ci !! name) = false →
  ∃ rec, transformRow this (Arr cells) ci id rowIndex = Ok rec
    ∧ rec !! name
      = Some (VStr (firstNonEmpty (dateSteps (cellAt this (ci !! name) rowIndex)
                                             (elemAt cells (ci !! name))))).
Proof.
  intros Hname Hi.
  assert (Hc : ∃ c, (name, c) ∈ columnMapping).
  { destruct Hname as [->| ->];
      [exists {| possibleNames := ["Arrival"; "Arrival Date"]; type := "string" |}
      |exists {| possibleNames := ["Departure"; "Departure Date"]; type := "string" |}];
      unfold columnMapping; rewrite !elem_of_cons; eauto 10. }
  destruct Hc as (c & Hin).
  destruct (transformRow_field this cells ci id rowIndex name c Hin) as (rec & Hrec & Hl).
  exists rec. split; [exact Hrec|]. rewrite Hl, date_field_steps; [reflexivity| |exact Hi].
  destruct Hname as [->| ->]; reflexivity.
Qed.

Lemma date_fields_first_nonempty_step_witness :
  ∃ rec, transformRow (Examples.parserWith Examples.textCell) (Arr Examples.textRow)
           Examples.indices 1 1 = Ok rec
    ∧ rec !! "DateFrom"
      = Some (VStr (firstNonEmpty
                      (dateSteps (cellAt (Examples.parserWith Examples.textCell)
                                         (Examples.indices !! "DateFrom") 1)
                                 (elemAt Examples.textRow (Examples.indices !! "DateFrom"))))).
Proof.
  apply (date_fields_first_nonempty_step (Examples.parserWith Examples.textCell)
           Examples.textRow Examples.indices 1 1 "DateFrom").
  - left. reflexivity.
  - vm_compute. reflexivity.
Defined.

(** C4, as stated, fails.  A text cell without display string keeps the text
    of its underlying value, where the six steps convert it as numeric raw
    text; and a display string that is a date only once trimmed is used,
    trimmed, where the six steps convert the underlying serial. *)
Lemma six_steps_differ_from_code :
  (∃ rec, transformRow (Examples.parserWith Examples.textCell) (Arr Examples.textRow)
            Examples.indices 1 1 = Ok rec
     ∧ rec !! "DateFrom" = Some (VStr "45000")
     ∧ firstSuccess (sixSteps (Some Examples.textCell) (VStr "45000")) = "15.03.2023")
  ∧ (∃ rec, transformRow (Examples.parserWith Examples.paddedCell) (Arr Examples.paddedRow)
              Examples.indices 1 1 = Ok rec
       ∧ rec !! "DateFrom" = Some (VStr "01.02.2020")
       ∧ firstSuccess (sixSteps (Some Examples.paddedCell) (VNum (ofZ 45000)))
         = "15.03.2023").
Proof.
  split.
  - eexists. split; [vm_compute; reflexivity|]. split; vm_compute; reflexivity.
  - eexists. split; [vm_compute; reflexivity|]. split; vm_compute; reflexivity.
Qed.

(** C3, as the code has it.  The serial conversion anchors the epoch at
    30.12.1899 and adds the serial as days: serial 2 converts to "01.01.1900"
    and serial 1 to "31.12.1899".  The Date Normalizer converts a cell only
    when [1 < v < 1,000,000]: a date-field cell holding serial 2 gives
    "01.01.1900" unless its display string is already a date, and a
    date-field cell holding serial 1 without display string gives "1". *)
Theorem serial_conversion_from_epoch (this : parser) (cells : list value)
    (ci : gmap string Z) (id rowIndex : Z) (name : string) :
  serialText (ofZ 2) = "01.01.1900"
  ∧ serialText (ofZ 1) = "31.12.1899"
  ∧ formatDate (newDateYMD 1899 11 30) = "30.12.1899"
  ∧ (∀ n : Z, excelDateToJSDate (VNum (ofZ n))
              = newDate (ofZ ((MakeDay 1899 11 30 + n) * msPerDay)))
  ∧ (name = "DateFrom" ∨ name = "DateTo" → isMinusOne (ci !! name) = false →
     ∃ rec, transformRow this (Arr cells) ci id rowIndex = Ok rec
       ∧ (holdsSerial this cells (ci !! name) rowIndex 2 →
          ¬ displayIsDate (cellAt this (ci !! name) rowIndex) →
          rec !! name = Some (VStr "01.01.1900"))
       ∧ (holdsSerial this cells (ci !! name) rowIndex 1 →
          displayOf (cellAt this (ci !! name) rowIndex) = None →
          rec !! name = Some (VStr "1"))).
Proof.
  split; [vm_compute; reflexivity|]. split; [vm_compute; reflexivity|].
  split; [vm_compute; reflexivity|]. split.
  - intros n. unfold excelDateToJSDate, ToNumber, newDateYMD, getTime, mul, add, align, ofZ.
    change (0 + 0 + 0 + 0 + 0) with 0. change (Z.min 0 0) with 0.
    change (10 ^ (0 - 0)) with 1.
    f_equal. f_equal. unfold msPerDay. lia.
  - intros Hname Hi.
    assert (Hc : ∃ c, (name, c) ∈ columnMapping).
    { destruct Hname as [->| ->];
        [exists {| possibleNames := ["Arrival"; "Arrival Date"]; type := "string" |}
        |exists {| possibleNames := ["Departure"; "Departure Date"]; type := "string" |}];
        unfold columnMapping; rewrite !elem_of_cons; eauto 10. }
    destruct Hc as (c & Hin).
    destruct (transformRow_field this cells ci id rowIndex name c Hin) as (rec & Hrec & Hl).
    exists rec. split; [exact Hrec|].
    rewrite Hl, date_field_steps;
      [|destruct Hname as [->| ->]; reflexivity|exact Hi].
    unfold dateSteps, holdsSerial.
    set (cl := cellAt this (ci !! name) rowIndex). set (raw := elemAt cells (ci !! name)).
    split.
    + intros [Hraw Hcell] Hnodate. rewrite Hraw. do 2 f_equal.
      destruct cl as [c0|].
      * assert (Hu : underlyingOf (Some c0) = VNum (ofZ 2))
          by (unfold underlyingOf; apply Hcell; reflexivity).
        rewrite Hu. destruct (displayOf (Some c0)) as [d|] eqn:Hd.
        -- cbn [fmap option_fmap option_map mbind option_bind].
           destruct (isDDMMYYYY (trim d)) eqn:Hp.
           ++ exfalso. apply Hnodate. exists d. split; [exact Hd|exact Hp].
           ++ vm_compute. reflexivity.
        -- vm_compute. reflexivity.
      * vm_compute. reflexivity.
    + intros [Hraw Hcell] Hnone. rewrite Hraw, Hnone. do 2 f_equal.
      destruct cl as [c0|].
      * assert (Hu : underlyingOf (Some c0) = VNum (ofZ 1))
          by (unfold underlyingOf; apply Hcell; reflexivity).
        rewrite Hu. vm_compute. reflexivity.
      * vm_compute. reflexivity.
Qed.

Lemma serial_conversion_from_epoch_witness :
  ∃ rec, transformRow (Examples.parserWith (Examples.serialCell 2))
           (Arr (Examples.serialRow 2)) Examples.indices 1 1 = Ok rec
    ∧ rec !! "DateFrom" = Some (VStr "01.01.1900").
Proof.
  destruct (proj2 (proj2 (proj2 (proj2
             (serial_conversion_from_epoch (Examples.parserWith (Examples.serialCell 2))
                (Examples.serialRow 2) Examples.indices 1 1 "DateFrom")))))
    as (rec & Hrec & Htwo & _).
  - left. reflexivity.
  - vm_compute. reflexivity.
  - exists rec. split; [exact Hrec|]. apply Htwo.
    + split; [vm_compute; reflexivity|].
      intros c Hc. vm_compute in Hc. injection Hc as <-. reflexivity.
    + intros (d & Hd & Hp). vm_compute in Hd. injection Hd as <-.
      vm_compute in Hp. discriminate Hp.
Defined.

(** C3, as stated, fails for serial 1.  A date-field cell holding serial 1
    is outside the range the normalizer converts: it gives "1", with a
    worksheet cell that displays the number and with no worksheet cell at
    all. *)
Lemma serial_one_is_not_converted :
  (∃ rec, transformRow (Examples.parserWith (Examples.serialCell 1))
            (Arr (Examples.serialRow 1)) Examples.indices 1 1 = Ok rec
     ∧ rec !! "DateFrom" = Some (VStr "1"))
  ∧ (∃ rec, transformRow newParser (Arr (Examples.serialRow 1)) Examples.indices 1 1 = Ok rec
       ∧ rec !! "DateFrom" = Some (VStr "1"))
  ∧ serialText (ofZ 1) = "31.12.1899".
Proof.
  split; [|split].
  - eexists. split; vm_compute; reflexivity.
  - eexists. split; vm_compute; reflexivity.
  - vm_compute. reflexivity.
Qed.

(** ** Serialization *)

Section Serializer.

Lemma append_cons (c : ascii) (r s : string) : String c r +:+ s = String c (r +:+ s).
Proof. reflexivity. Qed.

Lemma append_nil_l (s : string) : "" +:+ s = s.
Proof. reflexivity. Qed.

Lemma append_nil_r (s : string) : s +:+ "" = s.
Proof.
  induction s as [|c r IH]; [reflexivity|]. rewrite append_cons, IH. reflexivity.
Qed.

Lemma append_assoc (a b c : string) : (a +:+ b) +:+ c = a +:+ (b +:+ c).
Proof.
  induction a as [|x r IH]; [reflexivity|]. rewrite !append_cons, IH. reflexivity.
Qed.

Lemma append_snoc (a : string) (c : ascii) (b : string) :
  (a +:+ String c "") +:+ b = a +:+ String c b.
Proof. rewrite append_assoc, append_cons, append_nil_l. reflexivity. Qed.









End Serializer.


(** ** Further properties of the parser *)

Section ColumnLetters.

Lemma code_fromCharCode (n : Z) : 0 <= n < 256 → code (fromCharCode n) = n.
Proof.
  intros Hn. unfold code, fromCharCode.
  rewrite N_ascii_embedding by lia. lia.
Qed.

Lemma columnValueFrom_app (acc : Z) (a b : string) :
  columnValueFrom acc (a +:+ b) = columnValueFrom (columnValueFrom acc a) b.
Proof.
  revert acc. induction a as [|c r IH]; intros acc; [reflexivity|].
  rewrite append_cons. cbn [columnValueFrom]. apply IH.
Qed.

Lemma allCapitals_app (a b : string) :
  allCapitals (a +:+ b) = allCapitals a && allCapitals b.
Proof.
  induction a as [|c r IH]; [reflexivity|].
  rewrite append_cons. cbn [allCapitals]. rewrite IH, andb_assoc. reflexivity.
Qed.

(** With enough fuel the loop puts in front of [result] the letters of
    [num]. *)
Lemma numberToColumnLetterLoop_letters (fuel : nat) (num : Z) (result : string) :
  0 <= num → num + 1 < Z.of_nat fuel →
  ∃ letters, numberToColumnLetterLoop fuel num result = letters +:+ result
             ∧ columnValueFrom 0 letters = num + 1
             ∧ allCapitals letters = true
             ∧ isEmpty letters = false.
Proof.
  revert num result. induction fuel as [|f IH]; intros num result Hnum Hfuel; [lia|].
  cbn [numberToColumnLetterLoop].
  replace (0 <=? num) with true by (symmetry; apply Z.leb_le; lia).
  assert (Hrem : Z.rem num 26 = num mod 26) by (apply Z.rem_mod_nonneg; lia).
  assert (Hmod : 0 <= num mod 26 < 26) by (apply Z.mod_pos_bound; lia).
  assert (Hdiv : num = 26 * (num / 26) + num mod 26) by (apply Z.div_mod; lia).
  assert (Hq : 0 <= num / 26) by (apply Z.div_pos; lia).
  set (c := fromCharCode (65 + Z.rem num 26)).
  assert (Hc : code c = 65 + num mod 26).
  { unfold c. rewrite Hrem. apply code_fromCharCode. lia. }
  destruct (Z.eq_dec (num / 26) 0) as [Hz|Hnz].
  - exists (String c ""). rewrite Hz. split; [|split; [|split]].
    + destruct f; reflexivity.
    + cbn [columnValueFrom]. rewrite Hc. lia.
    + cbn [allCapitals]. rewrite Hc.
      replace (65 <=? 65 + num mod 26) with true by (symmetry; apply Z.leb_le; lia).
      replace (65 + num mod 26 <=? 90) with true by (symmetry; apply Z.leb_le; lia).
      reflexivity.
    + reflexivity.
  - destruct (IH (num / 26 - 1) (String c result)) as (l & Hl & Hv & Hcap & Hne);
      [lia|lia|].
    exists (l +:+ String c ""). split; [|split; [|split]].
    + rewrite Hl, append_snoc. reflexivity.
    + rewrite columnValueFrom_app, Hv. cbn [columnValueFrom]. rewrite Hc. lia.
    + rewrite allCapitals_app, Hcap. cbn [allCapitals]. rewrite Hc.
      replace (65 <=? 65 + num mod 26) with true by (symmetry; apply Z.leb_le; lia).
      replace (65 + num mod 26 <=? 90) with true by (symmetry; apply Z.leb_le; lia).
      reflexivity.
    + destruct l; [discriminate Hne|reflexivity].
Qed.

End ColumnLetters.

(** X1. For every column index from 0 on, [numberToColumnLetter] gives a
    non-empty name of capital letters that stands for that column, so two
    different columns never get the same name. *)
Theorem numberToColumnLetter_names_the_column (n m : Z) :
  0 <= n → 0 <= m →
  columnNumber (numberToColumnLetter (Some n)) = n
  ∧ allCapitals (numberToColumnLetter (Some n)) = true
  ∧ isEmpty (numberToColumnLetter (Some n)) = false
  ∧ (numberToColumnLetter (Some n) = numberToColumnLetter (Some m) → n = m).
Proof.
  intros Hn Hm.
  assert (Hround : ∀ k, 0 <= k →
            columnNumber (numberToColumnLetter (Some k)) = k
            ∧ allCapitals (numberToColumnLetter (Some k)) = true
            ∧ isEmpty (numberToColumnLetter (Some k)) = false).
  { intros k Hk. unfold numberToColumnLetter, columnNumber.
    destruct (numberToColumnLetterLoop_letters (Z.to_nat (k + 2)) k "")
      as (l & -> & Hv & Hcap & Hne); [lia|lia|].
    rewrite append_nil_r, Hv. repeat split; [lia|exact Hcap|exact Hne]. }
  destruct (Hround n Hn) as (Hrn & Hcn & Hen).
  repeat split; try assumption.
  intros Heq. destruct (Hround m Hm) as (Hrm & _ & _).
  rewrite <- Hrn, <- Hrm, Heq. reflexivity.
Qed.

Lemma numberToColumnLetter_names_the_column_witness :
  columnNumber (numberToColumnLetter (Some 27)) = 27
  ∧ allCapitals (numberToColumnLetter (Some 27)) = true
  ∧ isEmpty (numberToColumnLetter (Some 27)) = false
  ∧ (numberToColumnLetter (Some 27) = numberToColumnLetter (Some 701) → 27 = 701).
Proof.
  apply (numberToColumnLetter_names_the_column 27 701); lia.
Defined.

Section ResolverMore.

Lemma findColumnIndexFrom_labels (h1 h2 : list value) (norm : string) (i : Z) :
  map (fun h => normalized (headerText h)) h1 = map (fun h => normalized (headerText h)) h2 →
  findColumnIndexFrom h1 norm i = findColumnIndexFrom h2 norm i.
Proof.
  revert h2 i. induction h1 as [|a r1 IH]; intros [|b r2] i Heq; try discriminate Heq.
  - reflexivity.
  - cbn [map] in Heq. injection Heq as Hab Hrest.
    cbn [findColumnIndexFrom]. unfold normalized, headerText in Hab. rewrite Hab.
    destruct (String.eqb _ norm); [reflexivity|]. apply IH. exact Hrest.
Qed.

Lemma findFirstName_labels (h1 h2 : list value) (names : list string) :
  map (fun h => normalized (headerText h)) h1 = map (fun h => normalized (headerText h)) h2 →
  findFirstName h1 names = findFirstName h2 names.
Proof.
  intros Heq. induction names as [|a rest IH]; [reflexivity|].
  cbn [findFirstName]. unfold findColumnIndex.
  rewrite (findColumnIndexFrom_labels h1 h2 _ 0 Heq), IH. reflexivity.
Qed.

Lemma indices_dom (headerRow : list value) (l : list (string * config)) (m : gmap string Z) :
  dom (fold_left (fun indices '(csvFieldName, config) =>
                    <[csvFieldName := findFirstName headerRow (possibleNames config)]> indices)
                 l m)
  = dom m ∪ list_to_set (map fst l).
Proof.
  revert m. induction l as [|[k c] rest IH]; intros m.
  - cbn. rewrite union_empty_r_L. reflexivity.
  - cbn [fold_left map fst list_to_set]. rewrite IH, dom_insert_L.
    rewrite (union_comm_L {[k]} (dom m)), <- union_assoc_L. reflexivity.
Qed.

Lemma resolvesTo_bounds (headerRow : list value) (aliases : list string) (r : Z) :
  resolvesTo headerRow aliases r → -1 <= r < Z.of_nat (length headerRow).
Proof.
  intros [(a & i & _ & [(h & Hl & _) _] & ->)|[_ ->]].
  - apply lookup_lt_Some in Hl. lia.
  - lia.
Qed.

End ResolverMore.

(** X2. The index table depends on the header row only through its labels
    trimmed and with case ignored: two header rows with the same such labels,
    column by column, resolve every field to the same index. *)
Theorem findColumnIndices_ignores_case_and_padding (h1 h2 : list value) :
  map (fun h => normalized (headerText h)) h1 = map (fun h => normalized (headerText h)) h2 →
  findColumnIndices h1 = findColumnIndices h2.
Proof.
  intros Heq. unfold findColumnIndices. generalize (∅ : gmap string Z).
  induction columnMapping as [|[k c] rest IH]; intros m; [reflexivity|].
  cbn [fold_left]. rewrite (findFirstName_labels h1 h2 _ Heq). apply IH.
Qed.

Lemma findColumnIndices_ignores_case_and_padding_witness :
  findColumnIndices [VStr "Reservation Num"; VStr "Arrival"; VStr ""]
  = findColumnIndices [VStr "  RESERVATION num"; VStr "arrival "; VNum (ofZ 0)].
Proof.
  apply findColumnIndices_ignores_case_and_padding. vm_compute. reflexivity.
Defined.

(** X3. The index table has an entry for each of the seven mapped fields and
    for nothing else, and every entry is [-1] or a position of the header
    row. *)
Theorem findColumnIndices_entries_in_bounds (headerRow : list value) :
  dom (findColumnIndices headerRow)
  = list_to_set ["BookingNumber"; "OTANumber"; "Name"; "NumberOfAdults";
                 "NumberOfChildren"; "DateFrom"; "DateTo"]
  ∧ map_Forall (fun _ r => -1 <= r < Z.of_nat (length headerRow))
               (findColumnIndices headerRow).
Proof.
  assert (Hdom : dom (findColumnIndices headerRow) = list_to_set (map fst columnMapping)).
  { unfold findColumnIndices. rewrite indices_dom, dom_empty_L, union_empty_l_L.
    reflexivity. }
  split; [exact Hdom|].
  intros name r Hr.
  assert (Hin : name ∈ dom (findColumnIndices headerRow))
    by (apply elem_of_dom; eauto).
  rewrite Hdom in Hin. apply elem_of_list_to_set, list_elem_of_fmap in Hin.
  destruct Hin as ([k c] & -> & Hin). cbn [fst] in Hr.
  destruct (mapped_field_resolves headerRow k c Hin) as (r' & Hr' & Hres).
  rewrite Hr in Hr'. injection Hr' as <-.
  exact (resolvesTo_bounds _ _ _ Hres).
Qed.

Section TransformerMore.

Lemma transformField_not_array (this : parser) (r : row) (ci : gmap string Z)
    (rowIndex : Z) (rec : record) (e : string * config) :
  isArray r = false →
  transformField this r ci rowIndex rec e
  = if isMinusOne (ci !! fst e) then Ok rec else Throw TypeError.
Proof.
  intros Hr. destruct e as [name c]. unfold transformField. cbn [fst].
  destruct (isMinusOne (ci !! name)); [reflexivity|].
  destruct r; [discriminate Hr|reflexivity|reflexivity].
Qed.

Lemma forOf_not_array (this : parser) (r : row) (ci : gmap string Z) (rowIndex : Z)
    (l : list (string * config)) (rec : record) :
  isArray r = false →
  forOf (transformField this r ci rowIndex) l rec
  = if forallb (fun e => isMinusOne (ci !! fst e)) l then Ok rec else Throw TypeError.
Proof.
  intros Hr. revert rec. induction l as [|e rest IH]; intros rec; [reflexivity|].
  cbn [forOf forallb]. rewrite (transformField_not_array this r ci rowIndex rec e Hr).
  destruct (isMinusOne (ci !! fst e)); [apply IH|reflexivity].
Qed.

Lemma emptyRecord_mapped (name : string) (c : config) :
  (name, c) ∈ columnMapping → emptyRecord !! name = Some (VStr "").
Proof.
  unfold columnMapping. rewrite !elem_of_cons.
  intros H. repeat (destruct H as [H|H]; [injection H as -> _; reflexivity|]).
  inversion H.
Qed.

End TransformerMore.

(** X4. Asked for a column that is not a date column, or for a grid position
    that is not a data row (as the row filter asks, with no position),
    [getCellValue] does not read the worksheet the parser holds: whatever the
    parser holds, it returns the text of the cell of the row (the empty text
    for a row that is no array), which trimming leaves unchanged. *)
Theorem getCellValue_plain_ignores_worksheet (this1 this2 : parser) (r : row) (i : index)
    (rowIndex : Z) (columnName : string) :
  isDateField columnName = false ∨ rowIndex <= 0 →
  getCellValue this1 r i rowIndex columnName
  = Ok (match r with Arr cells => extractedText cells i | _ => "" end)
  ∧ getCellValue this2 r i rowIndex columnName = getCellValue this1 r i rowIndex columnName
  ∧ trim (match r with Arr cells => extractedText cells i | _ => "" end)
    = match r with Arr cells => extractedText cells i | _ => "" end.
Proof.
  intros Hplain.
  assert (Hb : isDateField columnName && (0 <? rowIndex) = false).
  { destruct Hplain as [->|Hle]; [reflexivity|].
    replace (0 <? rowIndex) with false by (symmetry; apply Z.ltb_ge; lia).
    apply andb_false_r. }
  assert (Hget : ∀ this, getCellValue this r i rowIndex columnName
                 = Ok (match r with Arr cells => extractedText cells i | _ => "" end)).
  { intros this. unfold getCellValue. rewrite Hb.
    destruct r as [cells| |]; [|rewrite orb_true_r; reflexivity
                                |rewrite orb_true_r; reflexivity].
    unfold extractedText, cellText. cbn [truthyRow negb]. rewrite orb_false_r.
    destruct (isMinusOne i); [reflexivity|].
    cbn [getIndex]. change (Ok ?a ≫= ?k) with (k a). cbv beta.
    destruct (isNullish (elemAt cells i)); [reflexivity|].
    destruct (this_worksheet this); reflexivity. }
  split; [apply Hget|]. split; [rewrite !Hget; reflexivity|].
  destruct r as [cells| |]; [|reflexivity|reflexivity].
  unfold extractedText, cellText. destruct (isMinusOne i); [reflexivity|].
  destruct (isNullish (elemAt cells i)); [reflexivity|apply trim_idem].
Qed.

Lemma getCellValue_plain_ignores_worksheet_witness :
  getCellValue (Examples.parserWith Examples.paddedCell) (Arr Examples.paddedRow)
    (Some 1) 1 "Name"
  = Ok (match Arr Examples.paddedRow with
        | Arr cells => extractedText cells (Some 1)
        | _ => ""
        end)
  ∧ getCellValue newParser (Arr Examples.paddedRow) (Some 1) 1 "Name"
    = getCellValue (Examples.parserWith Examples.paddedCell) (Arr Examples.paddedRow)
        (Some 1) 1 "Name"
  ∧ trim (match Arr Examples.paddedRow with
          | Arr cells => extractedText cells (Some 1)
          | _ => ""
          end)
    = match Arr Examples.paddedRow with
      | Arr cells => extractedText cells (Some 1)
      | _ => ""
      end.
Proof.
  apply (getCellValue_plain_ignores_worksheet (Examples.parserWith Examples.paddedCell)
           newParser (Arr Examples.paddedRow) (Some 1) 1 "Name").
  left. reflexivity.
Defined.

(** X5. For every array row, [NumberOfTeens] and [NumberOfBabys] are the
    number 0, whatever the row holds, and [OTANumber] and [Name] are the text
    extracted at their columns as it is: a leading zero is removed from
    [BookingNumber] only. *)
Theorem transformRow_synthetic_and_text_fields (this : parser) (cells : list value)
    (ci : gmap string Z) (id rowIndex : Z) :
  ∃ rec, transformRow this (Arr cells) ci id rowIndex = Ok rec
    ∧ rec !! "NumberOfTeens" = Some (VNum (ofZ 0))
    ∧ rec !! "NumberOfBabys" = Some (VNum (ofZ 0))
    ∧ rec !! "OTANumber" = Some (VStr (extractedText cells (ci !! "OTANumber")))
    ∧ rec !! "Name" = Some (VStr (extractedText cells (ci !! "Name"))).
Proof.
  eexists. split; [apply transformRow_Arr|].
  rewrite !lookup_insert_ne by discriminate.
  assert (Htext : ∀ name possible,
            (name, {| possibleNames := possible; type := "string" |}) ∈ columnMapping →
            isDateField name = false → String.eqb name "BookingNumber" = false →
            storeAll this cells ci rowIndex columnMapping emptyRecord !! name
            = Some (VStr (extractedText cells (ci !! name)))).
  { intros name possible Hin Hd Hb.
    rewrite (storeAll_lookup this cells ci rowIndex columnMapping emptyRecord name _
               columnMapping_NoDup Hin).
    unfold storedValue, extractedText. rewrite Hd, Hb. cbn [type].
    destruct (isMinusOne (ci !! name)); [|reflexivity].
    apply (emptyRecord_mapped name _ Hin). }
  split; [|split; [|split]].
  - rewrite storeAll_other; [reflexivity|].
    apply (bool_decide_unpack _). vm_compute. exact I.
  - rewrite storeAll_other; [reflexivity|].
    apply (bool_decide_unpack _). vm_compute. exact I.
  - apply (Htext "OTANumber" ["Voucher"]); [|reflexivity|reflexivity].
    unfold columnMapping. rewrite !elem_of_cons. eauto.
  - apply (Htext "Name" ["Main Guest"]); [|reflexivity|reflexivity].
    unfold columnMapping. rewrite !elem_of_cons. eauto.
Qed.

(** X6. For every array row, a mapped field whose column is unresolved keeps
    its default, the empty string: text, integer and date fields alike. *)
Theorem transformRow_unresolved_keeps_default (this : parser) (cells : list value)
    (ci : gmap string Z) (id rowIndex : Z) (name : string) (c : config) :
  (name, c) ∈ columnMapping → ci !! name = Some (-1) →
  ∃ rec, transformRow this (Arr cells) ci id rowIndex = Ok rec
    ∧ rec !! name = Some (VStr "").
Proof.
  intros Hin Hi.
  destruct (transformRow_field this cells ci id rowIndex name c Hin) as (rec & Hrec & Hl).
  exists rec. split; [exact Hrec|]. rewrite Hl. unfold storedValue. rewrite Hi.
  cbn [isMinusOne]. apply (emptyRecord_mapped name c Hin).
Qed.

Lemma transformRow_unresolved_keeps_default_witness :
  ∃ rec, transformRow (Examples.parserWith Examples.textCell) (Arr Examples.textRow)
           Examples.indices 1 1 = Ok rec
    ∧ rec !! "DateTo" = Some (VStr "").
Proof.
  apply (transformRow_unresolved_keeps_default (Examples.parserWith Examples.textCell)
           Examples.textRow Examples.indices 1 1 "DateTo"
           {| possibleNames := ["Departure"; "Departure Date"]; type := "string" |}).
  - unfold columnMapping. rewrite !elem_of_cons. eauto 10.
  - vm_compute. reflexivity.
Defined.

(** X7. On a row that is [null] or [undefined], [transformRow] throws a
    TypeError as soon as one mapped column is not the sentinel [-1]; when
    every mapped column is [-1] it reads nothing of the row and returns the
    record of defaults. *)
Theorem transformRow_null_row (this : parser) (r : row) (ci : gmap string Z)
    (id rowIndex : Z) :
  isArray r = false →
  ((∀ name, name ∈ map fst columnMapping → ci !! name = Some (-1)) →
   transformRow this r ci id rowIndex = Ok emptyRecord)
  ∧ ((∃ name, name ∈ map fst columnMapping ∧ ci !! name ≠ Some (-1)) →
     transformRow this r ci id rowIndex = Throw TypeError).
Proof.
  intros Hr. unfold transformRow. rewrite (forOf_not_array this r ci rowIndex _ _ Hr).
  split.
  - intros Hall.
    replace (forallb (fun e => isMinusOne (ci !! fst e)) columnMapping) with true.
    + change (Ok ?a ≫= ?k) with (k a). cbv beta. vm_compute. reflexivity.
    + symmetry. apply forallb_forall. intros [k c] Hin. cbn [fst].
      rewrite (Hall k); [reflexivity|].
      apply list_elem_of_fmap. exists (k, c). split; [reflexivity|].
      apply list_elem_of_In. exact Hin.
  - intros (name & Hin & Hne).
    replace (forallb (fun e => isMinusOne (ci !! fst e)) columnMapping) with false;
      [reflexivity|].
    symmetry. apply not_true_is_false. intros Hall.
    rewrite forallb_forall in Hall.
    apply list_elem_of_fmap in Hin as ([k c] & -> & Hin). cbn [fst] in Hne.
    apply list_elem_of_In in Hin. specialize (Hall (k, c) Hin). cbn [fst] in Hall.
    destruct (ci !! k) as [z|]; [|discriminate Hall].
    cbn [isMinusOne] in Hall. apply Z.eqb_eq in Hall. subst z. apply Hne. reflexivity.
Qed.

Lemma transformRow_null_row_witness :
  transformRow newParser NullRow Examples.indices 1 1 = Throw TypeError.
Proof.
  apply (transformRow_null_row newParser NullRow Examples.indices 1 1); [reflexivity|].
  exists "BookingNumber". split; [left|]. vm_compute. discriminate.
Defined.

Section ParseFileMore.

Lemma Ok_inj {A : Type} (a b : A) : Ok a = Ok b → a = b.
Proof. intros H. injection H as ->. reflexivity. Qed.

Lemma transformRow_wellFormed (this : parser) (cells : list value) (ci : gmap string Z)
    (id rowIndex : Z) (rec : record) :
  transformRow this (Arr cells) ci id rowIndex = Ok rec → wellFormed rec.
Proof.
  intros Hrec.
  destruct (transformRow_complete this cells ci id rowIndex) as (rec1 & H1 & Hdom).
  destruct (bookingNumber_value this cells ci id rowIndex) as (rec2 & H2 & Hb & Hid).
  rewrite Hrec in H1, H2. injection H1 as <-. injection H2 as <-.
  split; [exact Hdom|].
  assert (Hsyn : rec !! "NumberOfTeens" = Some (VNum (ofZ 0))
                 ∧ rec !! "NumberOfBabys" = Some (VNum (ofZ 0))).
  { rewrite transformRow_Arr in Hrec. apply Ok_inj in Hrec. rewrite <- Hrec.
    rewrite !lookup_insert_ne by discriminate.
    split; (rewrite storeAll_other; [reflexivity|]);
      apply (bool_decide_unpack _); vm_compute; exact I. }
  destruct Hsyn as [Ht Hbb]. repeat split; try assumption. eauto.
Qed.

Lemma processRows_wellFormed (this : parser) (ci : gmap string Z) (grid : list row)
    (i rowNumber : Z) (acc out : list record) :
  processRows this ci grid i rowNumber acc = Ok out →
  Forall wellFormed acc → Forall wellFormed out.
Proof.
  revert i rowNumber acc. induction grid as [|r rest IH]; intros i rowNumber acc Hrun Hacc.
  - cbn in Hrun. injection Hrun as <-. exact Hacc.
  - cbn [processRows] in Hrun. destruct r as [cells| |]; cbn [isArray negb] in Hrun.
    + rewrite getCellValue_plain in Hrun by reflexivity.
      change (Ok ?a ≫= ?k) with (k a) in Hrun. cbv beta in Hrun.
      destruct (isEmpty _ || isEmpty _) in Hrun; [exact (IH _ _ _ Hrun Hacc)|].
      destruct (transformRow this (Arr cells) ci rowNumber i) as [rec|e] eqn:Hrec;
        [|discriminate Hrun].
      change (Ok ?a ≫= ?k) with (k a) in Hrun. cbv beta in Hrun.
      apply (IH _ _ _ Hrun). apply Forall_app. split; [exact Hacc|].
      constructor; [|constructor]. exact (transformRow_wellFormed _ _ _ _ _ _ Hrec).
    + exact (IH _ _ _ Hrun Hacc).
    + exact (IH _ _ _ Hrun Hacc).
Qed.

(** What [parseGrid] can return. *)
Lemma parseGrid_outcome (this : parser) (jsonData : list row) (fileName : string) :
  match parseGrid this jsonData fileName with
  | Ok p => rows p ≠ [] ∧ ExcelParser.fileName p = fileName ∧ Forall wellFormed (rows p)
  | Throw (Error message) => parseMessage message
  | Throw TypeError => False
  end.
Proof.
  unfold parseGrid, parseMessage.
  destruct jsonData as [|[[|h hs]| |] dataRows]; try tauto.
  destruct (isMinusOne (findColumnIndices (h :: hs) !! requiredColumn)).
  - rewrite mappingOf_required. cbn. eauto 10.
  - destruct (processRows this (findColumnIndices (h :: hs)) dataRows 1 1 [])
      as [out|e] eqn:Hrun.
    + change (Ok ?a ≫= ?k) with (k a). cbv beta.
      pose proof (processRows_wellFormed _ _ _ _ _ _ _ Hrun (Forall_nil_2 _)) as Hwf.
      destruct out as [|rec out].
      * rewrite mappingOf_required. cbn. tauto.
      * cbn [rows ExcelParser.fileName]. repeat split; [discriminate|exact Hwf].
    + destruct (processRows_spec this (findColumnIndices (h :: hs)) dataRows 1 1 [])
        as (recs & _ & Hok).
      rewrite Hok in Hrun. discriminate Hrun.
Qed.

End ParseFileMore.

(** X8. Once the grid of the first sheet is there, the rest of the parse
    either gives at least one record and the name of the file, or throws one
    of its four messages (empty file, no header row, required column not
    found, no valid row); its own code never throws a TypeError, whatever
    rows the grid holds.  A failure to read the file, or an exception of the
    library, comes before this part. *)
Theorem parseGrid_resolves_or_throws_its_message
    (this : parser) (jsonData : list row) (fileName : string) :
  match parseGrid this jsonData fileName with
  | Ok p => rows p ≠ [] ∧ ExcelParser.fileName p = fileName
  | Throw (Error message) =>
      message = emptyMessage ∨ message = noHeaderMessage
      ∨ (∃ labels, message = missingColumnMessage (join oder requiredNames) labels)
      ∨ message = noRowsMessage (join oder requiredNames)
  | Throw TypeError => False
  end.
Proof.
  unfold parseGrid.
  destruct jsonData as [|[[|h hs]| |] dataRows]; try tauto.
  destruct (isMinusOne (findColumnIndices (h :: hs) !! requiredColumn)).
  - rewrite mappingOf_required. cbn. eauto 10.
  - destruct (processRows_spec this (findColumnIndices (h :: hs)) dataRows 1 1 [])
      as (recs & _ & ->).
    change (Ok ?a ≫= ?k) with (k a). cbv beta.
    destruct (([] ++ recs)%list) as [|rec out].
    + rewrite mappingOf_required. cbn. tauto.
    + cbn [rows ExcelParser.fileName]. split; [discriminate|reflexivity].
Qed.

(** X9. The failures before any row is looked at: a workbook without a first
    sheet name is rejected with the no-sheet message and leaves the parser as
    it was; an empty grid is rejected with the empty-file message; a grid
    whose first row is not an array, or is an empty one, is rejected with the
    header message, whatever the rows below it hold. *)
Theorem parseFile_early_failures
    (sheet_to_json : option worksheet → list row) (this : parser) (f : file)
    (sheetName : string) (first : row) (dataRows : list row) :
  (SheetNames (content f) !! 0%nat = None ∨ SheetNames (content f) !! 0%nat = Some "" →
   parseFile sheet_to_json this f = (Throw (Error noSheetsMessage), this))
  ∧ (SheetNames (content f) !! 0%nat = Some sheetName → sheetName ≠ "" →
     (sheet_to_json (Sheets (content f) !! sheetName) = [] →
      fst (parseFile sheet_to_json this f) = Throw (Error emptyMessage))
     ∧ (sheet_to_json (Sheets (content f) !! sheetName) = first :: dataRows →
        first = NullRow ∨ first = UndefinedRow ∨ first = Arr [] →
        fst (parseFile sheet_to_json this f) = Throw (Error noHeaderMessage))).
Proof.
  split.
  - intros Hfirst. unfold parseFile.
    destruct (SheetNames (content f)) as [|[|c n] rest]; [reflexivity|reflexivity|].
    destruct Hfirst as [H|H]; discriminate H.
  - intros Hfirst Hne.
    rewrite (parseFile_grid sheet_to_json this f sheetName Hfirst Hne). cbn [fst].
    split.
    + intros ->. reflexivity.
    + intros -> [->|[->| ->]]; reflexivity.
Qed.

Lemma parseFile_early_failures_witness :
  fst (parseFile (fun _ => [Arr []; Arr Examples.textRow]) newParser Examples.bookingFile)
  = Throw (Error noHeaderMessage).
Proof.
  apply (parseFile_early_failures (fun _ => [Arr []; Arr Examples.textRow]) newParser
           Examples.bookingFile "Sheet1" (Arr []) [Arr Examples.textRow]).
  - reflexivity.
  - discriminate.
  - reflexivity.
  - right. right. reflexivity.
Defined.

(** X10. Every record of a resolved parse is well formed: it has exactly the
    ten CSV fields, [NumberOfTeens] and [NumberOfBabys] are the number 0,
    [BookingNumber] is a text and [Id] equals it. *)
Theorem parseFile_records_wellFormed
    (sheet_to_json : option worksheet → list row) (this : parser) (f : file) (p : parsed) :
  fst (parseFile sheet_to_json this f) = Ok p → Forall wellFormed (rows p).
Proof.
  unfold parseFile. destruct (SheetNames (content f)) as [|[|c n] rest]; cbn [fst];
    try discriminate.
  intros Hp.
  pose proof (parseGrid_outcome {| this_worksheet := Sheets (content f) !! String c n |}
                (sheet_to_json (Sheets (content f) !! String c n)) (name f)) as H.
  rewrite Hp in H. apply H.
Qed.

Lemma parseFile_records_wellFormed_witness :
  ∃ p, fst (parseFile Examples.bookingGrid newParser Examples.bookingFile) = Ok p
       ∧ Forall wellFormed (rows p).
Proof.
  eexists. split; [vm_compute; reflexivity|].
  apply (parseFile_records_wellFormed Examples.bookingGrid newParser Examples.bookingFile).
  vm_compute. reflexivity.
Defined.

(** ** Further properties of the dates *)

Section Calendar.

Lemma forallb_rangeFrom (P : Z → bool) (lo n : Z) :
  forallb P (rangeFrom lo n) = true → ∀ k, lo <= k < lo + n → P k = true.
Proof.
  intros Hall k Hk. rewrite forallb_forall in Hall. apply Hall.
  unfold rangeFrom. apply in_map_iff. exists (Z.to_nat (k - lo)). split; [lia|].
  apply in_seq. lia.
Qed.

Lemma twoDigits_below_100 (k : Z) : 0 <= k < 100 → twoDigits k = true.
Proof.
  apply (forallb_rangeFrom twoDigits 0 100). vm_compute. reflexivity.
Qed.

Lemma fourDigits_years (y : Z) : 1000 <= y < 10000 → fourDigits y = true.
Proof.
  intros Hy. apply (forallb_rangeFrom fourDigits 1000 9000); [vm_compute; reflexivity|lia].
Qed.

Lemma inMonthTable_days (leap : bool) (d : Z) :
  0 <= d < (if leap then 366 else 365) → inMonthTable leap d = true.
Proof.
  destruct leap; intros Hd.
  - apply (forallb_rangeFrom (inMonthTable true) 0 366); [vm_compute; reflexivity|lia].
  - apply (forallb_rangeFrom (inMonthTable false) 0 365); [vm_compute; reflexivity|lia].
Qed.

Lemma DayFromYear_next (y : Z) :
  DayFromYear (y + 1) - DayFromYear y = if isLeap y then 366 else 365.
Proof.
  unfold isLeap, DayFromYear.
  destruct (Z.eqb_spec (y mod 4) 0), (Z.eqb_spec (y mod 100) 0), (Z.eqb_spec (y mod 400) 0);
    cbn [negb andb orb]; Z.div_mod_to_equations; lia.
Qed.

Lemma DayFromYear_mono (y1 y2 : Z) : y1 <= y2 → DayFromYear y1 <= DayFromYear y2.
Proof. intros H. unfold DayFromYear. Z.div_mod_to_equations. lia. Qed.

Lemma YearFromTime_bounds (t : Z) (y1 y2 : Z) :
  DayFromYear y1 <= Day t < DayFromYear y2 → y1 <= YearFromTime t < y2.
Proof.
  intros [Hlo Hhi]. unfold YearFromTime.
  pose proof (yearFromDay_largest (Day t)) as [Hy1 Hy2].
  split.
  - destruct (Z.le_gt_cases y1 (yearFromDay (Day t))) as [H|H]; [exact H|].
    pose proof (DayFromYear_mono (yearFromDay (Day t) + 1) y1). lia.
  - destruct (Z.lt_ge_cases (yearFromDay (Day t)) y2) as [H|H]; [exact H|].
    pose proof (DayFromYear_mono y2 (yearFromDay (Day t))). lia.
Qed.

(** The calendar fields of an instant: month 0..11, day 1..31, and
    [MakeDay] of the three fields is the instant's day. *)
Lemma calendar_fields (t : Z) :
  0 <= MonthFromTime t <= 11 ∧ 1 <= DateFromTime t <= 31
  ∧ MakeDay (YearFromTime t) (MonthFromTime t) (DateFromTime t) = Day t.
Proof.
  pose proof (yearFromDay_largest (Day t)) as [Hy1 Hy2].
  pose proof (DayFromYear_next (YearFromTime t)) as Hnext.
  unfold YearFromTime in Hnext.
  assert (Hd : 0 <= DayWithinYear t < (if isLeap (YearFromTime t) then 366 else 365)).
  { unfold DayWithinYear, YearFromTime. lia. }
  pose proof (inMonthTable_days _ _ Hd) as Htab.
  unfold inMonthTable in Htab. unfold MonthFromTime, DateFromTime, MakeDay.
  destruct (monthOf (monthStarts (isLeap (YearFromTime t))) (DayWithinYear t) (-1) 0)
    as [m first].
  cbn [fst snd].
  repeat (apply andb_prop in Htab as [Htab ?]).
  repeat match goal with
         | H : (_ <=? _) = true |- _ => apply Z.leb_le in H
         | H : (_ =? _) = true |- _ => apply Z.eqb_eq in H
         end.
  repeat split; try lia.
  unfold DayWithinYear in *. lia.
Qed.

(** [formatDate] of a valid date, by its fields. *)
Lemma formatDate_fields (t : Z) :
  formatDate (Some t)
  = pad2 (DateFromTime t) +:+ "." +:+ pad2 (MonthFromTime t + 1) +:+ "."
    +:+ toString (ofZ (YearFromTime t)).
Proof.
  unfold formatDate, pad2, getFullYear, getMonth, getDate, getter, getTime, add, align, ofZ.
  cbn [isNaN]. change (Z.min 0 0) with 0. change (10 ^ (0 - 0)) with 1.
  replace (MonthFromTime t * 1 + 1 * 1) with (MonthFromTime t + 1) by lia.
  reflexivity.
Qed.

(** The text of an instant whose year has four digits is a [DD.MM.YYYY]
    text that reads back as the fields of the instant. *)
Lemma formatDate_reads_back (t : Z) :
  1000 <= YearFromTime t < 10000 →
  isDDMMYYYY (formatDate (Some t)) = true
  ∧ readDate (formatDate (Some t))
    = Some (YearFromTime t, MonthFromTime t + 1, DateFromTime t).
Proof.
  intros Hy. destruct (calendar_fields t) as (Hm & Hd & _).
  pose proof (twoDigits_below_100 (DateFromTime t) ltac:(lia)) as H2d.
  pose proof (twoDigits_below_100 (MonthFromTime t + 1) ltac:(lia)) as H2m.
  pose proof (fourDigits_years (YearFromTime t) Hy) as H4.
  rewrite formatDate_fields. unfold readDate, twoDigits, fourDigits in *.
  destruct (pad2 (DateFromTime t)) as [|d1 [|d2 [|? ?]]]; try discriminate H2d.
  destruct (pad2 (MonthFromTime t + 1)) as [|m1 [|m2 [|? ?]]]; try discriminate H2m.
  destruct (toString (ofZ (YearFromTime t))) as [|y1 [|y2 [|y3 [|y4 [|? ?]]]]];
    try discriminate H4.
  apply andb_prop in H2d as [H2d Hvd]. apply andb_prop in H2d as [Hd1 Hd2].
  apply andb_prop in H2m as [H2m Hvm]. apply andb_prop in H2m as [Hm1 Hm2].
  apply andb_prop in H4 as [H4 Hvy]. apply andb_prop in H4 as [H4 Hy4].
  apply andb_prop in H4 as [H4 Hy3]. apply andb_prop in H4 as [Hy1 Hy2].
  apply Z.eqb_eq in Hvd, Hvm, Hvy.
  assert (Hpat : isDDMMYYYY
                   (String d1 (String d2 "") +:+ "." +:+ String m1 (String m2 "") +:+ "."
                    +:+ String y1 (String y2 (String y3 (String y4 "")))) = true).
  { change (isDigit d1 && isDigit d2 && true && isDigit m1 && isDigit m2 && true
            && isDigit y1 && isDigit y2 && isDigit y3 && isDigit y4 = true).
    rewrite Hd1, Hd2, Hm1, Hm2, Hy1, Hy2, Hy3, Hy4. reflexivity. }
  split; [exact Hpat|]. rewrite Hpat.
  change (substring 6 4 _) with (String y1 (String y2 (String y3 (String y4 "")))).
  change (substring 3 2 _) with (String m1 (String m2 "")).
  change (substring 0 2 _) with (String d1 (String d2 "")).
  congruence.
Qed.

(** The instant of a serial in the date-serial range. *)
Lemma serial_in_range_time (n : number) :
  inSerialRange n = true →
  ∃ t, excelDateToJSDate (VNum n) = Some t ∧ -2209161600000 <= t <= 86400000000000.
Proof.
  unfold inSerialRange, gtb, ltb, ofZ. destruct n as [|s|m e]; try discriminate.
  - destruct s; discriminate.
  - unfold align. intros H. apply andb_prop in H as [H1 H2].
    apply Z.ltb_lt in H1, H2.
    unfold excelDateToJSDate, ToNumber, ofZ, newDateYMD, getTime, mul, add, align, newDate.
    replace (MakeDay 1899 11 30 * msPerDay) with (-2209161600000) by reflexivity.
    replace (e + 0 + 0 + 0 + 0) with e by lia. unfold ofZ.
    destruct (Z.le_gt_cases 0 e) as [He|He].
    + rewrite ?(Z.min_l 0 e), ?(Z.min_r e 0) in * by lia.
      replace (e - 0) with e in * by lia. change (10 ^ (0 - 0)) with 1 in *.
      unfold truncate. change (0 <=? 0) with true. cbv iota.
      change (10 ^ 0) with 1.
      set (P := m * 10 ^ e) in *.
      replace (m * 24 * 60 * 60 * 1000 * 10 ^ e) with (86400000 * P) by (unfold P; ring).
      destruct (Z.leb_spec (Z.abs ((-2209161600000 * 1 + 86400000 * P) * 1)) 8640000000000000);
        [|lia].
      eexists. split; [reflexivity|lia].
    + rewrite ?(Z.min_r 0 e), ?(Z.min_l e 0) in * by lia.
      rewrite Z.sub_diag in *. change (10 ^ 0) with 1 in *.
      unfold truncate. replace (0 <=? e) with false by (symmetry; apply Z.leb_gt; lia).
      replace (0 - e) with (- e) in * by lia.
      set (K := 10 ^ (- e)) in *.
      assert (HK : 0 < K) by (apply Z.pow_pos_nonneg; lia).
      set (a := -2209161600000 * K + m * 24 * 60 * 60 * 1000 * 1).
      assert (Hq : -2209161600000 <= Z.quot a K <= 86400000000000).
      { assert (Hlo : -2209161600000 * K <= a) by (unfold a; lia).
        assert (Hhi : a <= 86400000000000 * K) by (unfold a; lia).
        destruct (Z.le_gt_cases 0 a) as [Ha|Ha].
        - rewrite Z.quot_div_nonneg by lia. split.
          + pose proof (Z.div_pos a K Ha HK). lia.
          + apply Z.div_le_upper_bound; lia.
        - rewrite <- (Z.opp_involutive a), Z.quot_opp_l by lia.
          rewrite Z.quot_div_nonneg by lia. split.
          + assert (- a / K <= 2209161600000) by (apply Z.div_le_upper_bound; lia). lia.
          + pose proof (Z.div_pos (- a) K ltac:(lia) HK). lia. }
      replace (Z.abs (Z.quot a K) <=? 8640000000000000) with true
        by (symmetry; apply Z.leb_le; lia).
      eexists. split; [reflexivity|exact Hq].
Qed.

Lemma year_of_serial_time (t : Z) :
  -2209161600000 <= t <= 86400000000000 → 1000 <= YearFromTime t < 10000.
Proof.
  intros Ht. apply YearFromTime_bounds. unfold Day, msPerDay.
  change (DayFromYear 1000) with (-354285). change (DayFromYear 10000) with 2932897.
  split.
  - apply Z.le_trans with (-2209161600000 / 86400000); [vm_compute; discriminate|].
    apply Z.div_le_mono; lia.
  - apply Z.le_lt_trans with (86400000000000 / 86400000); [|vm_compute; reflexivity].
    apply Z.div_le_mono; lia.
Qed.

End Calendar.

(** X11. The serial conversion of every number in the date-serial range,
    whole or fractional, is a text of the form [DD.MM.YYYY]: what the
    normalizer converts, its own test for a finished date accepts. *)
Theorem serial_text_is_a_date_text (n : number) :
  inSerialRange n = true → isDDMMYYYY (serialText n) = true.
Proof.
  intros Hn. unfold serialText.
  destruct (serial_in_range_time n Hn) as (t & -> & Ht).
  apply formatDate_reads_back, year_of_serial_time, Ht.
Qed.

Lemma serial_text_is_a_date_text_witness :
  isDDMMYYYY (serialText (Fin 450005 (-1))) = true.
Proof.
  apply serial_text_is_a_date_text. vm_compute. reflexivity.
Defined.

(** For a whole serial [k] with [1 < k < 1,000,000] the text converted with
    one offset reads back as the calendar date [k] days after 30.12.1899. *)
Lemma serialText_day (k : Z) :
  1 < k < 1000000 →
  ∃ y m d, readDate (serialText (ofZ k)) = Some (y, m, d)
           ∧ 1 <= m <= 12 ∧ 1 <= d <= 31
           ∧ MakeDay y (m - 1) d = MakeDay 1899 11 30 + k.
Proof.
  intros Hk.
  assert (Hr : inSerialRange (ofZ k) = true).
  { unfold inSerialRange, gtb, ltb, ofZ, align. change (Z.min 0 0) with 0.
    change (10 ^ (0 - 0)) with 1.
    apply andb_true_intro. split; apply Z.ltb_lt; lia. }
  destruct (serial_in_range_time (ofZ k) Hr) as (t & Ht & Hb).
  assert (Hday : Day t = MakeDay 1899 11 30 + k).
  { assert (Hconv : excelDateToJSDate (VNum (ofZ k))
                    = newDate (ofZ ((MakeDay 1899 11 30 + k) * msPerDay))).
    { unfold excelDateToJSDate, ToNumber, newDateYMD, getTime, mul, add, align, ofZ.
      change (0 + 0 + 0 + 0 + 0) with 0. change (Z.min 0 0) with 0.
      change (10 ^ (0 - 0)) with 1. f_equal. f_equal. unfold msPerDay. lia. }
    rewrite Hconv in Ht. unfold newDate, ofZ, truncate in Ht.
    change (0 <=? 0) with true in Ht. cbv iota in Ht. change (10 ^ 0) with 1 in Ht.
    destruct (Z.abs _ <=? _) in Ht; [|discriminate Ht].
    injection Ht as <-. unfold Day. rewrite Z.mul_1_r.
    apply Z.div_mul. unfold msPerDay. lia. }
  unfold serialText. rewrite Ht.
  destruct (formatDate_reads_back t (year_of_serial_time t Hb)) as [_ ->].
  destruct (calendar_fields t) as (Hm & Hd & Hmk).
  exists (YearFromTime t), (MonthFromTime t + 1), (DateFromTime t).
  split; [reflexivity|]. split; [lia|]. split; [lia|].
  replace (MonthFromTime t + 1 - 1) with (MonthFromTime t) by lia.
  rewrite Hmk. exact Hday.
Qed.

(** ** Further properties of the exporter *)

Section Document.

Lemma needsQuoting_cons_all (c : ascii) (r : string) :
  needsQuoting (String c r) = false →
  Ascii.eqb c dquote = false ∧ Ascii.eqb c delimiter = false ∧ Ascii.eqb c CR = false
  ∧ needsQuoting r = false.
Proof.
  unfold needsQuoting. cbn [includes]. intros H.
  apply orb_false_elim in H as [H Hcr]. apply orb_false_elim in H as [H Hlf].
  apply orb_false_elim in H as [Hd Hq].
  apply orb_false_elim in Hcr as [Hcr1 Hcr2]. apply orb_false_elim in Hlf as [Hlf1 Hlf2].
  apply orb_false_elim in Hd as [Hd1 Hd2]. apply orb_false_elim in Hq as [Hq1 Hq2].
  repeat split; try assumption.
  rewrite Hd2, Hq2, Hlf2, Hcr2. reflexivity.
Qed.

Lemma read_plain (s current tail : string) (fields : list string) :
  needsQuoting s = false →
  readFrom false current fields (s +:+ tail) = readFrom false (current +:+ s) fields tail.
Proof.
  revert current. induction s as [|c r IH]; intros current Hs.
  - rewrite append_nil_l, append_nil_r. reflexivity.
  - apply needsQuoting_cons_all in Hs as (Hq & Hd & Hcr & Hr).
    rewrite append_cons. cbn [readFrom]. rewrite Hq, Hd, Hcr, IH by assumption.
    rewrite append_snoc. reflexivity.
Qed.

Lemma read_quoted (s current tail : string) (fields : list string) :
  startsWith tail dquote = false →
  readFrom true current fields (doubleQuotes s +:+ String dquote tail)
  = readFrom false (current +:+ s) fields tail.
Proof.
  intros Htail. revert current. induction s as [|c r IH]; intros current.
  - cbn [doubleQuotes]. rewrite append_nil_l, append_nil_r. cbn [readFrom].
    replace (Ascii.eqb dquote dquote) with true by reflexivity.
    destruct tail as [|c2 t]; [reflexivity|].
    cbn [startsWith] in Htail. rewrite Htail. reflexivity.
  - cbn [doubleQuotes]. destruct (Ascii.eqb_spec c dquote) as [->|Hne].
    + rewrite !append_cons. cbn [readFrom].
      replace (Ascii.eqb dquote dquote) with true by reflexivity.
      rewrite IH, append_snoc. reflexivity.
    + rewrite append_cons. cbn [readFrom].
      rewrite (proj2 (Ascii.eqb_neq c dquote) Hne), IH, append_snoc. reflexivity.
Qed.

Lemma read_escaped (x : value) (tail : string) (fields : list string) :
  startsWith tail dquote = false →
  readFrom false "" fields (escapeCSVValue x +:+ tail)
  = readFrom false (ToString x) fields tail.
Proof.
  intros Htail. unfold escapeCSVValue.
  destruct (needsQuoting (ToString x)) eqn:Hq.
  - rewrite append_cons, append_snoc. cbn [readFrom].
    replace (Ascii.eqb dquote dquote) with true by reflexivity.
    apply (read_quoted (ToString x) "" tail fields Htail).
  - apply (read_plain (ToString x) "" tail fields Hq).
Qed.

(** A line of the text is read back as the texts of its values. *)
Lemma read_line (x : value) (xs : list value) (fields : list string) (tail : string) :
  tail = "" ∨ (∃ t, tail = String CR (String LF t)) →
  readFrom false "" fields (csvLine (x :: xs) +:+ tail)
  = endRecord (fields ++ map ToString (x :: xs))%list tail.
Proof.
  intros Htail. unfold csvLine. revert x fields.
  induction xs as [|y rest IH]; intros x fields.
  - cbn [map join]. rewrite read_escaped by (destruct Htail as [->|[t ->]]; reflexivity).
    destruct Htail as [->|[t ->]]; reflexivity.
  - change (join (String delimiter "") (map escapeCSVValue (x :: y :: rest)))
      with (escapeCSVValue x
            +:+ String delimiter (join (String delimiter "") (map escapeCSVValue (y :: rest)))).
    rewrite append_assoc, append_cons, read_escaped by reflexivity.
    cbn [readFrom]. replace (Ascii.eqb delimiter dquote) with false by reflexivity.
    replace (Ascii.eqb delimiter delimiter) with true by reflexivity.
    rewrite IH. cbn [map]. rewrite <- app_assoc. reflexivity.
Qed.

(** A text of lines joined by line breaks is read back line by line. *)
Lemma read_lines (x : value) (xs : list value) (rest : list (value * list value)) :
  readCSV (join CRLF (map (fun l => csvLine (fst l :: snd l)) ((x, xs) :: rest)))
  = map (fun l => map ToString (fst l :: snd l)) ((x, xs) :: rest).
Proof.
  unfold readCSV. revert x xs. induction rest as [|[y ys] rest IH]; intros x xs.
  - cbn [map join fst snd]. rewrite <- (append_nil_r (csvLine (x :: xs))).
    rewrite read_line by (left; reflexivity). reflexivity.
  - change (join CRLF (map (fun l => csvLine (fst l :: snd l)) ((x, xs) :: (y, ys) :: rest)))
      with (csvLine (x :: xs)
            +:+ String CR (String LF
                  (join CRLF (map (fun l => csvLine (fst l :: snd l)) ((y, ys) :: rest))))).
    rewrite read_line by (right; eauto). cbn [endRecord app]. rewrite IH. reflexivity.
Qed.

(** The text [createCSV] builds, read back. *)
Lemma createCSV_read (row : record) (rows : list record) :
  ∃ text, createCSV (row :: rows) = Ok text
          ∧ readCSV text = csvColumns :: map fieldTexts (row :: rows).
Proof.
  eexists. split; [reflexivity|].
  set (valuesOf := fun r : record => (cellOf r "Id", map (cellOf r) (tail csvColumns))).
  set (lineOf := fun l : value * list value => csvLine (fst l :: snd l)).
  rewrite (map_ext dataRow (fun r => lineOf (valuesOf r))) by reflexivity.
  rewrite <- (map_map valuesOf lineOf).
  change (join (String delimiter "") (map (fun col => escapeCSVValue (VStr col)) csvColumns))
    with (lineOf (VStr "Id", map VStr (tail csvColumns))).
  change (lineOf (VStr "Id", map VStr (tail csvColumns)) :: map lineOf (map valuesOf (row :: rows)))
    with (map lineOf ((VStr "Id", map VStr (tail csvColumns)) :: map valuesOf (row :: rows))).
  unfold lineOf. rewrite read_lines. cbn [map fst snd]. f_equal.
  rewrite map_map. reflexivity.
Qed.

End Document.




(** ** Further properties of the rows *)

Section RowsMore.

Lemma storedValue_plain (this1 this2 : parser) (cells : list value) (ci : gmap string Z)
    (rowIndex1 rowIndex2 : Z) (name : string) (c : config) :
  isDateField name = false →
  storedValue this1 cells ci rowIndex1 name c = storedValue this2 cells ci rowIndex2 name c.
Proof. intros Hd. unfold storedValue. rewrite Hd. reflexivity. Qed.

Lemma storeAll_plain (this1 this2 : parser) (cells : list value) (ci : gmap string Z)
    (rowIndex1 rowIndex2 : Z) (l : list (string * config)) (rec1 rec2 : record)
    (key : string) :
  isDateField key = false → rec1 !! key = rec2 !! key →
  storeAll this1 cells ci rowIndex1 l rec1 !! key
  = storeAll this2 cells ci rowIndex2 l rec2 !! key.
Proof.
  intros Hd. revert rec1 rec2. induction l as [|[name c] rest IH]; intros rec1 rec2 Heq.
  - exact Heq.
  - rewrite !storeAll_cons. apply IH.
    destruct (decide (name = key)) as [->|Hne].
    + rewrite (storedValue_plain this1 this2 cells ci rowIndex1 rowIndex2 key c Hd).
      destruct (storedValue this2 cells ci rowIndex2 key c); [|exact Heq].
      rewrite !lookup_insert_eq. reflexivity.
    + destruct (storedValue this1 cells ci rowIndex1 name c),
               (storedValue this2 cells ci rowIndex2 name c);
        rewrite ?lookup_insert_ne by exact Hne; exact Heq.
Qed.

Lemma stripOneZero_empty (s : string) : stripOneZero s = "" ↔ s = "" ∨ s = "0".
Proof.
  split.
  - destruct s as [|c r]; [left; reflexivity|]. unfold stripOneZero.
    destruct (Ascii.eqb_spec c "0") as [->|Hne].
    + intros ->. right. reflexivity.
    + destruct c as [[] [] [] [] [] [] [] []]; try discriminate. congruence.
  - intros [->| ->]; reflexivity.
Qed.

(** The loop does not depend on the running count. *)
Lemma processRows_count (this : parser) (ci : gmap string Z) (grid : list row)
    (i rowNumber rowNumber' : Z) (acc : list record) :
  processRows this ci grid i rowNumber acc = processRows this ci grid i rowNumber' acc.
Proof.
  revert i rowNumber rowNumber' acc.
  induction grid as [|r rest IH]; intros i rowNumber rowNumber' acc; [reflexivity|].
  cbn [processRows]. destruct r as [cells| |]; cbn [isArray negb]; [|apply IH|apply IH].
  rewrite getCellValue_plain by reflexivity.
  change (Ok ?a ≫= ?k) with (k a). cbv beta.
  destruct (isEmpty _ || isEmpty _); [apply IH|].
  rewrite !transformRow_Arr. change (Ok ?a ≫= ?k) with (k a). cbv beta. apply IH.
Qed.

(** The loop over a grid followed by more rows is the loop over the grid,
    then the loop over the further rows. *)
Lemma processRows_app (this : parser) (ci : gmap string Z) (g1 g2 : list row)
    (i rowNumber : Z) (acc : list record) :
  processRows this ci (g1 ++ g2) i rowNumber acc
  = (out ← processRows this ci g1 i rowNumber acc;
     processRows this ci g2 (i + Z.of_nat (length g1)) rowNumber out).
Proof.
  revert i rowNumber acc. induction g1 as [|r rest IH]; intros i rowNumber acc.
  - cbn [app processRows length]. change (Ok ?a ≫= ?k) with (k a). cbv beta.
    rewrite Z.add_0_r. reflexivity.
  - cbn [app processRows length].
    replace (i + Z.of_nat (S (length rest))) with (i + 1 + Z.of_nat (length rest)) by lia.
    destruct r as [cells| |]; cbn [isArray negb]; [|apply IH|apply IH].
    rewrite getCellValue_plain by reflexivity.
    change (Ok ?a ≫= ?k) with (k a). cbv beta.
    destruct (isEmpty _ || isEmpty _); [apply IH|].
    rewrite !transformRow_Arr. change (Ok ?a ≫= ?k) with (k a). cbv beta.
    rewrite IH.
    destruct (processRows this ci rest (i + 1) (rowNumber + 1) _) as [out|e];
      [|reflexivity].
    change (Ok ?a ≫= ?k) with (k a). cbv beta.
    apply processRows_count.
Qed.

End RowsMore.

(** X15. Of a record only the two date fields depend on the worksheet the
    parser holds and on the position of the row in the grid: every other
    field is the same for any two parser states and positions. *)
Theorem transformRow_only_dates_read_worksheet (this1 this2 : parser) (cells : list value)
    (ci : gmap string Z) (id1 id2 rowIndex1 rowIndex2 : Z) (key : string) :
  isDateField key = false →
  ∃ rec1 rec2, transformRow this1 (Arr cells) ci id1 rowIndex1 = Ok rec1
    ∧ transformRow this2 (Arr cells) ci id2 rowIndex2 = Ok rec2
    ∧ rec1 !! key = rec2 !! key.
Proof.
  intros Hd. do 2 eexists. split; [apply transformRow_Arr|]. split; [apply transformRow_Arr|].
  assert (Hb : storeAll this1 cells ci rowIndex1 columnMapping emptyRecord !! "BookingNumber"
               = storeAll this2 cells ci rowIndex2 columnMapping emptyRecord !! "BookingNumber")
    by (apply storeAll_plain; reflexivity).
  destruct (decide (key = "Id")) as [->|Hne].
  - rewrite !lookup_insert_eq. unfold field. rewrite Hb. reflexivity.
  - rewrite !lookup_insert_ne by congruence. apply storeAll_plain; [exact Hd|reflexivity].
Qed.

Lemma transformRow_only_dates_read_worksheet_witness :
  ∃ rec1 rec2,
    transformRow (Examples.parserWith Examples.paddedCell) (Arr Examples.paddedRow)
      Examples.indices 1 1 = Ok rec1
    ∧ transformRow newParser (Arr Examples.paddedRow) Examples.indices 7 3 = Ok rec2
    ∧ rec1 !! "BookingNumber" = rec2 !! "BookingNumber".
Proof.
  apply (transformRow_only_dates_read_worksheet (Examples.parserWith Examples.paddedCell)
           newParser Examples.paddedRow Examples.indices 1 7 1 3 "BookingNumber").
  reflexivity.
Defined.

(** X16. A kept row (its required value present and not blank) gets an
    empty [Id] and [BookingNumber] exactly when the trimmed text of its
    required cell is the single character 0, which the stripping of one
    leading zero empties. *)
Theorem kept_row_empty_id_iff_zero (this : parser) (cells : list value)
    (ci : gmap string Z) (id rowIndex : Z) :
  nonBlank (requiredValue ci (Arr cells)) = true →
  ∃ rec, transformRow this (Arr cells) ci id rowIndex = Ok rec
    ∧ rec !! "Id" = rec !! "BookingNumber"
    ∧ (rec !! "Id" = Some (VStr "")
       ↔ trim (ToString (requiredValue ci (Arr cells))) = "0").
Proof.
  intros Hkept.
  destruct (bookingNumber_value this cells ci id rowIndex) as (rec & Hrec & Hb & Hid).
  exists rec. split; [exact Hrec|]. split; [exact Hid|]. rewrite Hid, Hb.
  unfold nonBlank, requiredValue in *. change requiredColumn with "BookingNumber" in *.
  apply andb_prop in Hkept as [Hnull Hne].
  apply negb_true_iff in Hnull, Hne.
  assert (Hi : isMinusOne (ci !! "BookingNumber") = false).
  { destruct (ci !! "BookingNumber") as [z|]; [|reflexivity]. cbn [isMinusOne].
    destruct (Z.eqb_spec z (-1)) as [->|]; [discriminate Hnull|reflexivity]. }
  unfold extractedText, cellText. rewrite Hi, Hnull.
  set (text := trim (ToString (elemAt cells (ci !! "BookingNumber")))) in *.
  split.
  - intros H. injection H as H. apply stripOneZero_empty in H as [H|H]; [|exact H].
    rewrite H in Hne. discriminate Hne.
  - intros ->. reflexivity.
Qed.

Lemma kept_row_empty_id_iff_zero_witness :
  ∃ rec, transformRow newParser (Arr [VNum (ofZ 0); VStr "x"]) Examples.indices 1 1 = Ok rec
    ∧ rec !! "Id" = rec !! "BookingNumber"
    ∧ (rec !! "Id" = Some (VStr "")
       ↔ trim (ToString (requiredValue Examples.indices (Arr [VNum (ofZ 0); VStr "x"])))
         = "0").
Proof.
  apply (kept_row_empty_id_iff_zero newParser [VNum (ofZ 0); VStr "x"] Examples.indices 1 1).
  vm_compute. reflexivity.
Defined.

(** X17. Rows added below a sheet never change the records of the rows
    above: when a grid parses, the same grid with further rows appended
    parses too, and its records are those of the shorter grid followed by the
    records of the further rows. *)
Theorem parseFile_rows_appended
    (sheet_to_json sheet_to_json' : option worksheet → list row) (this : parser)
    (f : file) (p : parsed) (more : list row) :
  (∀ ws, sheet_to_json' ws = (sheet_to_json ws ++ more)%list) →
  fst (parseFile sheet_to_json this f) = Ok p →
  ∃ p' extra, fst (parseFile sheet_to_json' this f) = Ok p'
              ∧ rows p' = (rows p ++ extra)%list ∧ fileName p' = fileName p.
Proof.
  intros Hmore. unfold parseFile.
  destruct (SheetNames (content f)) as [|[|c n] rest]; cbn [fst]; try discriminate.
  rewrite Hmore. set (this' := {| this_worksheet := Sheets (content f) !! String c n |}).
  destruct (sheet_to_json (Sheets (content f) !! String c n)) as [|[[|h hs]| |] dataRows];
    try discriminate.
  cbn [app parseGrid].
  destruct (isMinusOne (findColumnIndices (h :: hs) !! requiredColumn)).
  - rewrite mappingOf_required. discriminate.
  - rewrite processRows_app.
    destruct (processRows this' (findColumnIndices (h :: hs)) dataRows 1 1 []) as [out|e];
      [|discriminate].
    change (Ok ?a ≫= ?k) with (k a). cbv beta.
    destruct (processRows_spec this' (findColumnIndices (h :: hs)) more
                (1 + Z.of_nat (length dataRows)) 1 out) as (recs & _ & ->).
    change (Ok ?a ≫= ?k) with (k a). cbv beta.
    destruct out as [|rec out]; [rewrite mappingOf_required; discriminate|].
    intros Hp. apply Ok_inj in Hp. subst p. cbn [app rows fileName].
    do 2 eexists. split; [reflexivity|]. split; reflexivity.
Qed.

Lemma parseFile_rows_appended_witness :
  ∃ p, fst (parseFile (fun _ => [Arr Examples.header; Arr Examples.textRow]) newParser
              Examples.bookingFile) = Ok p
    ∧ ∃ p' extra,
        fst (parseFile (fun _ => [Arr Examples.header; Arr Examples.textRow; NullRow;
                                  Arr Examples.paddedRow]) newParser Examples.bookingFile)
        = Ok p'
        ∧ rows p' = (rows p ++ extra)%list ∧ fileName p' = fileName p.
Proof.
  eexists. split; [vm_compute; reflexivity|].
  apply (parseFile_rows_appended
           (fun _ => [Arr Examples.header; Arr Examples.textRow])
           (fun _ => [Arr Examples.header; Arr Examples.textRow; NullRow;
                      Arr Examples.paddedRow])
           newParser Examples.bookingFile _ [NullRow; Arr Examples.paddedRow]).
  - intros ws. reflexivity.
  - vm_compute. reflexivity.
Defined.

(** ** File names and file types *)

Section Names.

Lemma lowerChar_idem (c : ascii) : lowerChar (lowerChar c) = lowerChar c.
Proof. destruct c as [[] [] [] [] [] [] [] []]; vm_compute; reflexivity. Qed.

Lemma toLowerCase_idem (s : string) : toLowerCase (toLowerCase s) = toLowerCase s.
Proof.
  induction s as [|c r IH]; [reflexivity|].
  cbn [toLowerCase]. rewrite lowerChar_idem, IH. reflexivity.
Qed.




(** [endsWith] holds exactly of the strings that are a stem followed by the
    suffix. *)
Lemma endsWith_iff (s suffix : string) :
  endsWith s suffix = true ↔ ∃ stem, s = stem +:+ suffix.
Proof.
  induction s as [|c r IH]; cbn [endsWith].
  - rewrite orb_false_r, String.eqb_eq. split.
    + intros <-. exists "". reflexivity.
    + intros [[|c stem] H]; [exact H|]. rewrite append_cons in H. discriminate H.
  - rewrite orb_true_iff, String.eqb_eq, IH. split.
    + intros [<-|[stem ->]]; [exists ""; reflexivity|].
      exists (String c stem). rewrite append_cons. reflexivity.
    + intros [[|c' stem] H]; [left; exact H|right].
      rewrite append_cons in H. injection H as _ ->. exists stem. reflexivity.
Qed.




Lemma endsWith_includes (s r : string) (c : ascii) :
  endsWith s (String c r) = true → includes s c = true.
Proof.
  induction s as [|d s IH]; cbn [endsWith includes]; [discriminate|].
  intros H. apply orb_true_iff in H as [H|H].
  - apply String.eqb_eq in H. injection H as -> _. rewrite Ascii.eqb_refl. reflexivity.
  - rewrite (IH H). apply orb_true_r.
Qed.

Lemma isSafe_lower_no_dot (c : ascii) :
  isSafe c = true → Ascii.eqb (lowerChar c) "." = false.
Proof. destruct c as [[] [] [] [] [] [] [] []]; vm_compute; congruence. Qed.

Lemma isSafe_replaced (c : ascii) : isSafe (if isAlnum c then c else "_"%char) = true.
Proof. unfold isSafe. destruct (isAlnum c) eqn:H; [rewrite H|]; reflexivity. Qed.

Lemma isSafe_kept (c : ascii) :
  isSafe c = true → (if isAlnum c then c else "_"%char) = c.
Proof.
  unfold isSafe. destruct (isAlnum c); [reflexivity|]. cbn [orb].
  intros H. apply Ascii.eqb_eq in H. congruence.
Qed.

Lemma replaceUnsafe_safe (s : string) : allSafe (replaceUnsafe s) = true.
Proof.
  induction s as [|c r IH]; [reflexivity|].
  cbn [replaceUnsafe allSafe]. rewrite isSafe_replaced, IH. reflexivity.
Qed.

Lemma replaceUnsafe_kept (s : string) : allSafe s = true → replaceUnsafe s = s.
Proof.
  induction s as [|c r IH]; [reflexivity|].
  cbn [replaceUnsafe allSafe]. intros H. apply andb_prop in H as [Hc Hr].
  rewrite (isSafe_kept c Hc), (IH Hr). reflexivity.
Qed.

Lemma allSafe_no_dot (s : string) :
  allSafe s = true → includes (toLowerCase s) "." = false.
Proof.
  induction s as [|c r IH]; [reflexivity|].
  cbn [allSafe toLowerCase includes]. intros H. apply andb_prop in H as [Hc Hr].
  rewrite (isSafe_lower_no_dot c Hc), (IH Hr). reflexivity.
Qed.

Lemma stripExtension_safe (s : string) : allSafe s = true → stripExtension s = s.
Proof.
  intros H. apply allSafe_no_dot in H. unfold stripExtension.
  destruct (endsWith (toLowerCase s) ".xlsx") eqn:H5.
  { apply endsWith_includes in H5. congruence. }
  destruct (endsWith (toLowerCase s) ".xls") eqn:H4.
  { apply endsWith_includes in H4. congruence. }
  reflexivity.
Qed.

Lemma pad2_shape (k : Z) :
  0 <= k < 100 → String.length (pad2 k) = 2%nat ∧ allDigits (pad2 k) = true.
Proof.
  intros Hk. pose proof (twoDigits_below_100 k Hk) as H. unfold twoDigits in H.
  destruct (pad2 k) as [|a [|b [|? ?]]]; try discriminate H.
  apply andb_prop in H as [H _]. apply andb_prop in H as [Ha Hb].
  split; [reflexivity|]. cbn [allDigits]. rewrite Ha, Hb. reflexivity.
Qed.

Lemma year_shape (y : Z) :
  1000 <= y < 10000 →
  String.length (toString (ofZ y)) = 4%nat ∧ allDigits (toString (ofZ y)) = true.
Proof.
  intros Hy. pose proof (fourDigits_years y Hy) as H. unfold fourDigits in H.
  destruct (toString (ofZ y)) as [|a [|b [|c [|d [|? ?]]]]]; try discriminate H.
  apply andb_prop in H as [H _]. apply andb_prop in H as [H Hd].
  apply andb_prop in H as [H Hc]. apply andb_prop in H as [Ha Hb].
  split; [reflexivity|]. cbn [allDigits]. rewrite Ha, Hb, Hc, Hd. reflexivity.
Qed.

Lemma month_text (t : Z) :
  padStart (toString (add (getMonth (Some t)) (ofZ 1))) 2 "0" = pad2 (MonthFromTime t + 1).
Proof.
  unfold pad2, getMonth, getter, add, align, ofZ.
  change (Z.min 0 0) with 0. change (10 ^ (0 - 0)) with 1.
  replace (MonthFromTime t * 1 + 1 * 1) with (MonthFromTime t + 1) by lia.
  reflexivity.
Qed.

End Names.

(** X18. [isValidFileType] accepts a file exactly when its type is one of
    the two spreadsheet types, compared as it stands, or its name, in lower
    case, is some stem followed by [.xlsx] or [.xls]; so the case of the name
    never matters, and a matching name is accepted whatever the type. *)
Theorem isValidFileType_by_type_or_extension (fileType fileName : string) :
  (isValidFileType fileType fileName = true
   ↔ In fileType validTypes
     ∨ ∃ stem, toLowerCase fileName = stem +:+ ".xlsx"
               ∨ toLowerCase fileName = stem +:+ ".xls")
  ∧ isValidFileType fileType (toLowerCase fileName) = isValidFileType fileType fileName.
Proof.
  split.
  - unfold isValidFileType, validTypes, validExtensions. cbn [existsb In].
    rewrite !orb_false_r, !orb_true_iff, !String.eqb_eq, !endsWith_iff. split.
    + intros [[->| ->]|[[stem H]|[stem H]]]; [left; left; reflexivity|left; right; left;
        reflexivity|right; exists stem; left; exact H|right; exists stem; right; exact H].
    + intros [[<-|[<-|[]]]|[stem [H|H]]]; [left; left; reflexivity|left; right; reflexivity|
        right; left; exists stem; exact H|right; right; exists stem; exact H].
  - unfold isValidFileType. rewrite toLowerCase_idem. reflexivity.
Qed.



(** X20. A base file name holds only letters, digits and underscores, and
    taking the base file name of it again changes nothing. *)
Theorem baseFileName_safe_and_stable (fileName : string) :
  allSafe (baseFileName fileName) = true
  ∧ baseFileName (baseFileName fileName) = baseFileName fileName.
Proof.
  assert (H : allSafe (baseFileName fileName) = true) by apply replaceUnsafe_safe.
  split; [exact H|].
  unfold baseFileName at 1. rewrite (stripExtension_safe _ H). apply replaceUnsafe_kept, H.
Qed.

(** X21. What [parseFile] resolved with, the page can always export: the
    download gets the text of [createCSV] on the records and the base file
    name of the workbook, and no error is shown; without a parse result the
    export message is shown. *)
Theorem downloadCSV_after_parse
    (sheet_to_json : option worksheet → list row) (this : parser) (f : file) (p : parsed) :
  fst (parseFile sheet_to_json this f) = Ok p →
  (∃ text, App.downloadCSV (Some p) = Download text (baseFileName (name f))
           ∧ createCSV (rows p) = Ok text)
  ∧ App.downloadCSV None = ShowError exportMessage.
Proof.
  intros Hp. split; [|reflexivity].
  unfold parseFile in Hp. destruct (SheetNames (content f)) as [|[|c n] rest]; cbn [fst] in Hp;
    try discriminate.
  pose proof (parseGrid_outcome {| this_worksheet := Sheets (content f) !! String c n |}
                (sheet_to_json (Sheets (content f) !! String c n)) (name f)) as H.
  rewrite Hp in H. destruct H as (Hne & Hname & _).
  unfold App.downloadCSV. rewrite Hname.
  destruct (rows p) as [|row rest'] eqn:Hrows; [congruence|].
  destruct (createCSV_read row rest') as (text & Htext & _).
  exists text. cbn [length Nat.eqb]. rewrite Htext. split; reflexivity.
Qed.

Lemma downloadCSV_after_parse_witness :
  ∃ p, fst (parseFile Examples.bookingGrid newParser Examples.bookingFile) = Ok p
       ∧ (∃ text, App.downloadCSV (Some p)
                  = Download text (baseFileName (name Examples.bookingFile))
                  ∧ createCSV (rows p) = Ok text)
       ∧ App.downloadCSV None = ShowError exportMessage.
Proof.
  eexists. split; [vm_compute; reflexivity|].
  apply (downloadCSV_after_parse Examples.bookingGrid newParser Examples.bookingFile).
  vm_compute. reflexivity.
Defined.

(** X22. On a day whose year has four digits the exporters name the
    download after that day, with the digits [formatDate] prints:
    [downloadCSV] as [Anreise_YYYYMMDD.csv], [downloadCSVDirect] as
    [Anreise_DD.MM.YYYY.csv], and [getTimestamp] is [YYYYMMDD_HHMMSS]. *)
Theorem download_names_carry_the_date (t : Z) :
  1000 <= YearFromTime t < 10000 →
  ∃ D M Y h m s,
    formatDate (Some t) = D +:+ "." +:+ M +:+ "." +:+ Y
    ∧ downloadName (Some t) = "Anreise_" +:+ Y +:+ M +:+ D +:+ ".csv"
    ∧ downloadNameDirect (Some t) = "Anreise_" +:+ D +:+ "." +:+ M +:+ "." +:+ Y +:+ ".csv"
    ∧ getTimestamp (Some t) = Y +:+ M +:+ D +:+ "_" +:+ h +:+ m +:+ s
    ∧ map String.length [D; M; Y; h; m; s] = [2; 2; 4; 2; 2; 2]%nat
    ∧ forallb allDigits [D; M; Y; h; m; s] = true.
Proof.
  intros Hy. destruct (calendar_fields t) as (Hm & Hd & _).
  exists (pad2 (DateFromTime t)), (pad2 (MonthFromTime t + 1)),
    (toString (ofZ (YearFromTime t))), (pad2 (HourFromTime t)), (pad2 (MinFromTime t)),
    (pad2 (SecFromTime t)).
  split; [apply formatDate_fields|].
  split; [unfold downloadName; rewrite month_text, !append_assoc; reflexivity|].
  split; [unfold downloadNameDirect; rewrite month_text, !append_assoc; reflexivity|].
  split; [unfold getTimestamp; rewrite month_text; reflexivity|].
  cbn [map forallb].
  destruct (pad2_shape (DateFromTime t) ltac:(lia)) as [-> ->].
  destruct (pad2_shape (MonthFromTime t + 1) ltac:(lia)) as [-> ->].
  destruct (year_shape (YearFromTime t) Hy) as [-> ->].
  assert (Hh : 0 <= HourFromTime t < 100)
    by (unfold HourFromTime; pose proof (Z.mod_pos_bound (t / 3600000) 24); lia).
  assert (Hn : 0 <= MinFromTime t < 100)
    by (unfold MinFromTime; pose proof (Z.mod_pos_bound (t / 60000) 60); lia).
  assert (Hs : 0 <= SecFromTime t < 100)
    by (unfold SecFromTime; pose proof (Z.mod_pos_bound (t / 1000) 60); lia).
  destruct (pad2_shape _ Hh) as [-> ->]. destruct (pad2_shape _ Hn) as [-> ->].
  destruct (pad2_shape _ Hs) as [-> ->]. split; reflexivity.
Qed.

Lemma download_names_carry_the_date_witness :
  ∃ D M Y h m s,
    formatDate (Some 1705574096000) = D +:+ "." +:+ M +:+ "." +:+ Y
    ∧ downloadName (Some 1705574096000) = "Anreise_" +:+ Y +:+ M +:+ D +:+ ".csv"
    ∧ downloadNameDirect (Some 1705574096000)
      = "Anreise_" +:+ D +:+ "." +:+ M +:+ "." +:+ Y +:+ ".csv"
    ∧ getTimestamp (Some 1705574096000) = Y +:+ M +:+ D +:+ "_" +:+ h +:+ m +:+ s
    ∧ map String.length [D; M; Y; h; m; s] = [2; 2; 4; 2; 2; 2]%nat
    ∧ forallb allDigits [D; M; Y; h; m; s] = true.
Proof.
  apply (download_names_carry_the_date 1705574096000). vm_compute.
  split; [discriminate|reflexivity].
Defined.

(** ** The serial conversion and the host's zone *)

Section Zones.

Variable LocalTZA : Z → bool → Z.

Lemma formatDate_zone (u : Z) :
  HostZone.formatDate LocalTZA (Some u) = formatDate (Some (HostZone.LocalTime LocalTZA u)).
Proof. reflexivity. Qed.

Lemma excelDateToJSDate_whole (n : Z) :
  1 < n < 1000000 → excelDateToJSDate (VNum (ofZ n)) = Some (localEpoch + n * msPerDay).
Proof.
  intros Hn.
  unfold excelDateToJSDate, ToNumber, newDateYMD, getTime, mul, add, align, ofZ, newDate,
    truncate.
  change (0 + 0 + 0 + 0 + 0) with 0. change (Z.min 0 0) with 0.
  change (10 ^ (0 - 0)) with 1. change (0 <=? 0) with true. cbv iota.
  change (10 ^ 0) with 1. fold localEpoch.
  replace ((localEpoch * 1 + n * 24 * 60 * 60 * 1000 * 1) * 1)
    with (localEpoch + n * msPerDay) by (unfold msPerDay; lia).
  replace (Z.abs (localEpoch + n * msPerDay) <=? 8640000000000000) with true; [reflexivity|].
  symmetry. apply Z.leb_le. unfold localEpoch, msPerDay.
  change (MakeDay 1899 11 30) with (-25569). lia.
Qed.

Lemma excelDateToJSDate_zone (n : Z) :
  1 < n < 1000000 → Z.abs (LocalTZA localEpoch false) <= msPerDay →
  HostZone.excelDateToJSDate LocalTZA (VNum (ofZ n))
  = Some (HostZone.UTC LocalTZA localEpoch + n * msPerDay).
Proof.
  intros Hn Hoff.
  assert (Hu : -2209248000000 <= HostZone.UTC LocalTZA localEpoch <= -2209075200000).
  { unfold HostZone.UTC, localEpoch, msPerDay in *.
    change (MakeDay 1899 11 30) with (-25569) in *. lia. }
  set (u := HostZone.UTC LocalTZA localEpoch) in *.
  assert (Hep : HostZone.newDateYMD LocalTZA 1899 11 30 = Some u).
  { unfold HostZone.newDateYMD. fold localEpoch. fold u. unfold newDate, ofZ, truncate.
    change (0 <=? 0) with true. cbv iota. change (10 ^ 0) with 1. rewrite Z.mul_1_r.
    replace (Z.abs u <=? 8640000000000000) with true by (symmetry; apply Z.leb_le; lia).
    reflexivity. }
  unfold HostZone.excelDateToJSDate. rewrite Hep.
  unfold ToNumber, getTime, mul, add, align, ofZ, newDate, truncate.
  change (0 + 0 + 0 + 0 + 0) with 0. change (Z.min 0 0) with 0.
  change (10 ^ (0 - 0)) with 1. change (0 <=? 0) with true. cbv iota.
  change (10 ^ 0) with 1.
  replace ((u * 1 + n * 24 * 60 * 60 * 1000 * 1) * 1) with (u + n * msPerDay)
    by (unfold msPerDay; lia).
  replace (Z.abs (u + n * msPerDay) <=? 8640000000000000) with true; [reflexivity|].
  symmetry. apply Z.leb_le. unfold msPerDay. lia.
Qed.

(** Where the offset at the converted instant is the offset at the epoch,
    the host prints what the model with one offset prints. *)
Lemma serialTextIn_same_offset (n : Z) :
  1 < n < 1000000 → Z.abs (LocalTZA localEpoch false) <= msPerDay →
  LocalTZA (HostZone.UTC LocalTZA localEpoch + n * msPerDay) true
  = LocalTZA localEpoch false →
  serialTextIn LocalTZA (ofZ n) = serialText (ofZ n).
Proof.
  intros Hn Hoff Hsame. unfold serialTextIn, serialText.
  rewrite (excelDateToJSDate_zone n Hn Hoff), (excelDateToJSDate_whole n Hn), formatDate_zone.
  f_equal. f_equal. unfold HostZone.LocalTime. rewrite Hsame. unfold HostZone.UTC. lia.
Qed.

End Zones.

(** X12. On a host whose zone has, at the converted instant, the offset it
    had at local midnight of 30.12.1899 (an offset of at most one day), the
    text converted from a whole serial [n] with [1 < n < 1,000,000] reads
    back as the calendar date [n] days after 30.12.1899, with a month 1..12
    and a day 1..31; so two such serials with the same text are the same
    serial. *)
Theorem serial_text_is_the_day_after_epoch (LocalTZA : Z → bool → Z) (n n' : Z) :
  1 < n < 1000000 → 1 < n' < 1000000 →
  Z.abs (LocalTZA localEpoch false) <= msPerDay →
  LocalTZA (HostZone.UTC LocalTZA localEpoch + n * msPerDay) true
  = LocalTZA localEpoch false →
  LocalTZA (HostZone.UTC LocalTZA localEpoch + n' * msPerDay) true
  = LocalTZA localEpoch false →
  (∃ y m d, readDate (serialTextIn LocalTZA (ofZ n)) = Some (y, m, d)
            ∧ 1 <= m <= 12 ∧ 1 <= d <= 31
            ∧ MakeDay y (m - 1) d = MakeDay 1899 11 30 + n)
  ∧ (serialTextIn LocalTZA (ofZ n) = serialTextIn LocalTZA (ofZ n') → n = n').
Proof.
  intros Hn Hn' Hoff Hsame Hsame'.
  rewrite (serialTextIn_same_offset LocalTZA n Hn Hoff Hsame).
  rewrite (serialTextIn_same_offset LocalTZA n' Hn' Hoff Hsame').
  split; [exact (serialText_day n Hn)|].
  intros Heq.
  destruct (serialText_day n Hn) as (y & m & d & Hr & _ & _ & Hmk).
  destruct (serialText_day n' Hn') as (y' & m' & d' & Hr' & _ & _ & Hmk').
  rewrite Heq, Hr' in Hr. injection Hr as -> -> ->. lia.
Qed.

Lemma serial_text_is_the_day_after_epoch_witness :
  (∃ y m d, readDate (serialTextIn Examples.offsetDrop (ofZ 2)) = Some (y, m, d)
            ∧ 1 <= m <= 12 ∧ 1 <= d <= 31
            ∧ MakeDay y (m - 1) d = MakeDay 1899 11 30 + 2)
  ∧ (serialTextIn Examples.offsetDrop (ofZ 2) = serialTextIn Examples.offsetDrop (ofZ 3)
     → 2 = 3).
Proof.
  apply (serial_text_is_the_day_after_epoch Examples.offsetDrop 2 3);
    try lia; vm_compute; try reflexivity; discriminate.
Defined.

(** Where the offset has dropped since 1899 the hypothesis on the zone is
    needed: the converted instant is some minutes before midnight, so serial
    45000 prints the day before the one the model with one offset prints, and
    the two serials around the drop print the same text. *)
Lemma offset_drop_prints_the_day_before :
  serialTextIn Examples.offsetDrop (ofZ 45000) = "14.03.2023"
  ∧ serialText (ofZ 45000) = "15.03.2023"
  ∧ serialTextIn Examples.offsetDrop (ofZ 5440) = serialTextIn Examples.offsetDrop (ofZ 5441).
Proof. vm_compute. repeat split. Qed.
